(** * flow-service: state machine, condition language, retry, scheduling

    A shallow embedding of the core of the flow-service (Go): the State
    Manager, the models of edges, nodes, workflows and executions, the
    parts of the engine, the scheduler and the two services that decide
    the properties below, and those properties.

    Conventions of the embedding:
    - a Go [string] is a Rocq [string], a sequence of bytes;
    - a Go [error] is its message; [None] is the nil error;
    - a Go [int], [int64] or [time.Duration] is a [Z], with the 64-bit
      wrap-around written out where the code does arithmetic on it;
    - a [time.Time] is a [Z], the nanoseconds elapsed since the zero time
      [time.Time{}]; a pointer to a time is an [option Z];
    - a Go [map] is a [gmap]; a nil pointer, map or slice is [None];
    - a method that mutates its receiver returns the receiver after the
      call, next to its result;
    - [time.Now()] is an explicit argument [now]; the clock reads of one
      call are identified;
    - locks have no content: every function is embedded as it runs alone.

    One module stands for one Go struct or one Go file and keeps the names
    of the source; a field named [Type] is [Type_]. *)

From Stdlib Require Import ZArith String Ascii List Bool Lia.
From Stdlib Require Import Floats.SpecFloat.
From stdpp Require Import gmap strings pretty list fin_maps.

Local Open Scope string_scope.
Local Open Scope Z_scope.

(** A Go [error]: the message it carries. *)
Definition error := string.

(** [fmt.Errorf("<ctx>: %w", err)]. *)
Definition wrap (ctx : string) (e : error) : error := ctx +:+ ": " +:+ e.

(** ** service/models: the status enumerations *)

Module models.

(** [type WorkflowStatus string] *)
Definition WorkflowStatus := string.
Definition WorkflowStatusInactive : WorkflowStatus := "inactive".
Definition WorkflowStatusActive : WorkflowStatus := "active".
Definition WorkflowStatusPaused : WorkflowStatus := "paused".
Definition WorkflowStatusDisabled : WorkflowStatus := "disabled".

(** [func (s WorkflowStatus) IsValid() bool] *)
Definition WorkflowStatus_IsValid (s : WorkflowStatus) : bool :=
  bool_decide (s = WorkflowStatusInactive) || bool_decide (s = WorkflowStatusActive)
  || bool_decide (s = WorkflowStatusPaused) || bool_decide (s = WorkflowStatusDisabled).

(** [type ExecutionStatus string] *)
Definition ExecutionStatus := string.
Definition ExecutionStatusPending : ExecutionStatus := "pending".
Definition ExecutionStatusRunning : ExecutionStatus := "running".
Definition ExecutionStatusCompleted : ExecutionStatus := "completed".
Definition ExecutionStatusFailed : ExecutionStatus := "failed".
Definition ExecutionStatusCancelled : ExecutionStatus := "cancelled".
Definition ExecutionStatusTimeout : ExecutionStatus := "timeout".
Definition ExecutionStatusArchived : ExecutionStatus := "archived".

(** [func (s ExecutionStatus) IsValid() bool] *)
Definition ExecutionStatus_IsValid (s : ExecutionStatus) : bool :=
  bool_decide (s = ExecutionStatusPending) || bool_decide (s = ExecutionStatusRunning)
  || bool_decide (s = ExecutionStatusCompleted) || bool_decide (s = ExecutionStatusFailed)
  || bool_decide (s = ExecutionStatusCancelled) || bool_decide (s = ExecutionStatusTimeout)
  || bool_decide (s = ExecutionStatusArchived).

(** [func (s ExecutionStatus) IsFinished() bool] *)
Definition ExecutionStatus_IsFinished (s : ExecutionStatus) : bool :=
  bool_decide (s = ExecutionStatusCompleted) || bool_decide (s = ExecutionStatusFailed)
  || bool_decide (s = ExecutionStatusCancelled) || bool_decide (s = ExecutionStatusTimeout).

End models.

(** ** service/state_manager.go *)

Module state_manager.
Import models.

(** [type StateTransition struct]; the ID also carries the clock, which
    is kept apart here as [Timestamp]. *)
Record StateTransition := {
  EntityType : string;
  EntityID : string;
  FromStatus : string;
  ToStatus : string;
  Reason : string;
  Operator : string;
  Timestamp : Z
}.

(** [type StateManager struct] (the lock has no content). *)
Record StateManager := {
  workflowTransitions : gmap string (list WorkflowStatus);
  executionTransitions : gmap string (list ExecutionStatus);
  transitionHistory : list StateTransition
}.

(** [initializeTransitionRules]: the two map literals. *)
Definition initial_workflowTransitions : gmap string (list WorkflowStatus) :=
  <[WorkflowStatusInactive := [WorkflowStatusActive; WorkflowStatusDisabled]]>
  (<[WorkflowStatusActive :=
       [WorkflowStatusInactive; WorkflowStatusPaused; WorkflowStatusDisabled]]>
  (<[WorkflowStatusPaused :=
       [WorkflowStatusActive; WorkflowStatusInactive; WorkflowStatusDisabled]]>
  (<[WorkflowStatusDisabled := [WorkflowStatusInactive]]> ∅))).

Definition initial_executionTransitions : gmap string (list ExecutionStatus) :=
  <[ExecutionStatusPending := [ExecutionStatusRunning; ExecutionStatusCancelled]]>
  (<[ExecutionStatusRunning :=
       [ExecutionStatusCompleted; ExecutionStatusFailed; ExecutionStatusCancelled]]>
  (<[ExecutionStatusFailed := [ExecutionStatusPending]]>
  (<[ExecutionStatusCompleted := []]>
  (<[ExecutionStatusCancelled := []]> ∅)))).

(** [NewStateManager] *)
Definition NewStateManager : StateManager :=
  {| workflowTransitions := initial_workflowTransitions;
     executionTransitions := initial_executionTransitions;
     transitionHistory := [] |}.

(** The loop [for _, allowed := range allowedStates { if allowed == to
    { return nil } }]: [true] when it returns from inside. *)
Fixpoint range_allowed (allowedStates : list string) (to : string) : bool :=
  match allowedStates with
  | [] => false
  | allowed :: rest => if bool_decide (allowed = to) then true else range_allowed rest to
  end.

(** [ValidateWorkflowTransition] *)
Definition ValidateWorkflowTransition (sm : StateManager) (from to : WorkflowStatus)
  : option error :=
  match workflowTransitions sm !! from with
  | None => Some ("invalid from status: " +:+ from)
  | Some allowedStates =>
      if range_allowed allowedStates to then None
      else Some ("invalid workflow state transition from " +:+ from +:+ " to " +:+ to)
  end.

(** [ValidateExecutionTransition] *)
Definition ValidateExecutionTransition (sm : StateManager) (from to : ExecutionStatus)
  : option error :=
  match executionTransitions sm !! from with
  | None => Some ("invalid from status: " +:+ from)
  | Some allowedStates =>
      if range_allowed allowedStates to then None
      else Some ("invalid execution state transition from " +:+ from +:+ " to " +:+ to)
  end.

(** [RecordWorkflowTransition] *)
Definition RecordWorkflowTransition (now : Z) (sm : StateManager)
    (workflowID : string) (from to : WorkflowStatus) (reason operator : string)
  : option error * StateManager :=
  match ValidateWorkflowTransition sm from to with
  | Some err => (Some err, sm)
  | None =>
      let transition :=
        {| EntityType := "workflow"; EntityID := workflowID;
           FromStatus := from; ToStatus := to;
           Reason := reason; Operator := operator; Timestamp := now |} in
      (None, {| workflowTransitions := workflowTransitions sm;
                executionTransitions := executionTransitions sm;
                transitionHistory := transitionHistory sm ++ [transition] |})
  end.

(** [RecordExecutionTransition] *)
Definition RecordExecutionTransition (now : Z) (sm : StateManager)
    (executionID : string) (from to : ExecutionStatus) (reason operator : string)
  : option error * StateManager :=
  match ValidateExecutionTransition sm from to with
  | Some err => (Some err, sm)
  | None =>
      let transition :=
        {| EntityType := "execution"; EntityID := executionID;
           FromStatus := from; ToStatus := to;
           Reason := reason; Operator := operator; Timestamp := now |} in
      (None, {| workflowTransitions := workflowTransitions sm;
                executionTransitions := executionTransitions sm;
                transitionHistory := transitionHistory sm ++ [transition] |})
  end.

(** The transition tables as the specification lists them. *)
Definition spec_workflow_table : list (WorkflowStatus * WorkflowStatus) :=
  [ ("inactive", "active"); ("inactive", "disabled");
    ("active", "inactive"); ("active", "paused"); ("active", "disabled");
    ("paused", "active"); ("paused", "inactive"); ("paused", "disabled");
    ("disabled", "inactive") ].

Definition spec_execution_table : list (ExecutionStatus * ExecutionStatus) :=
  [ ("pending", "running"); ("pending", "cancelled");
    ("running", "completed"); ("running", "failed"); ("running", "cancelled");
    ("failed", "pending") ].

End state_manager.

(** ** The Go runtime and standard library, as far as the service uses them *)

Module golang.

(** Two's complement wrap-around of 64-bit signed arithmetic ([int],
    [int64], [time.Duration]). *)
Definition int64_min : Z := - 2 ^ 63.
Definition int64_max : Z := 2 ^ 63 - 1.
Definition in_int64 (x : Z) : Prop := int64_min <= x <= int64_max.
Definition wrap64 (x : Z) : Z := (x + 2 ^ 63) mod 2 ^ 64 - 2 ^ 63.

(** [x / y] on [int64], [y] not zero: the quotient truncated toward zero,
    wrapped ([int64_min / -1] overflows). Division by zero panics and is
    handled where the division is used. *)
Definition div64 (x y : Z) : Z := wrap64 (Z.quot x y).

(** [interface{}]: the dynamic values that a [map[string]interface{}]
    holds. [VInt] is the Go type [int], [VFloat64] is [float64] (the type
    of every number decoded from JSON); the other constructors stand for
    the types that are neither, [VOther] for a slice, a map or any other
    type, of which only the name is kept. *)
Inductive Value :=
| VNil
| VBool (b : bool)
| VInt (n : Z)
| VInt64 (n : Z)
| VFloat64 (f : spec_float)
| VString (s : string)
| VOther (go_type : string).

(** [int(f)] for [f float64]: the fraction is discarded. When the result
    does not fit the Go specification leaves the value to the
    implementation; the value given here is the one of amd64. *)
Definition float64_trunc (f : spec_float) : option Z :=
  match f with
  | S754_zero _ => Some 0
  | S754_finite s m e => Some ((if s then -1 else 1) * Z.shiftl (Z.pos m) e)
  | S754_infinity _ | S754_nan => None
  end.

Definition int_of_float64 (f : spec_float) : Z :=
  match float64_trunc f with
  | Some t => if bool_decide (in_int64 t) then t else int64_min
  | None => int64_min
  end.

(** [float64(n)] for [n int64], and the division of two [float64]. *)
Definition float64_of_int64 (n : Z) : spec_float := binary_normalize 53 1024 n 0 false.
Definition float64_div (x y : spec_float) : spec_float := SFdiv 53 1024 x y.

(** *** unicode/utf8 and strings.Fields *)

Definition byte_val (c : ascii) : Z := Z.of_N (N_of_ascii c).

Definition RuneError : Z := 65533.

(** Is [b] a byte of the range [lo..hi]? *)
Definition in_range (lo hi : Z) (b : Z) : bool := (lo <=? b) && (b <=? hi).

Definition cont_bits (b : Z) : Z := Z.land b 63.

(** [utf8.DecodeRuneInString]: the first rune of [s] and its width in
    bytes; an invalid or truncated encoding gives [(RuneError, 1)]. Not
    called on the empty string. *)
Definition DecodeRuneInString (s : string) : Z * nat :=
  match s with
  | EmptyString => (RuneError, 0%nat)
  | String c0 rest =>
      let b0 := byte_val c0 in
      if b0 <? 128 then (b0, 1%nat)
      else if in_range 194 223 b0 then
        match rest with
        | String c1 _ =>
            let b1 := byte_val c1 in
            if in_range 128 191 b1
            then (Z.shiftl (Z.land b0 31) 6 + cont_bits b1, 2%nat)
            else (RuneError, 1%nat)
        | _ => (RuneError, 1%nat)
        end
      else if in_range 224 239 b0 then
        match rest with
        | String c1 (String c2 _) =>
            let b1 := byte_val c1 in
            let b2 := byte_val c2 in
            let lo := if b0 =? 224 then 160 else 128 in
            let hi := if b0 =? 237 then 159 else 191 in
            if in_range lo hi b1 && in_range 128 191 b2
            then (Z.shiftl (Z.land b0 15) 12 + Z.shiftl (cont_bits b1) 6 + cont_bits b2,
                  3%nat)
            else (RuneError, 1%nat)
        | _ => (RuneError, 1%nat)
        end
      else if in_range 240 244 b0 then
        match rest with
        | String c1 (String c2 (String c3 _)) =>
            let b1 := byte_val c1 in
            let b2 := byte_val c2 in
            let b3 := byte_val c3 in
            let lo := if b0 =? 240 then 144 else 128 in
            let hi := if b0 =? 244 then 143 else 191 in
            if in_range lo hi b1 && in_range 128 191 b2 && in_range 128 191 b3
            then (Z.shiftl (Z.land b0 7) 18 + Z.shiftl (cont_bits b1) 12
                  + Z.shiftl (cont_bits b2) 6 + cont_bits b3, 4%nat)
            else (RuneError, 1%nat)
        | _ => (RuneError, 1%nat)
        end
      else (RuneError, 1%nat)
  end.

(** [unicode.IsSpace] *)
Definition IsSpace (r : Z) : bool :=
  in_range 9 13 r || (r =? 32) || (r =? 133) || (r =? 160)
  || (r =? 5760) || in_range 8192 8202 r || (r =? 8232) || (r =? 8233)
  || (r =? 8239) || (r =? 8287) || (r =? 12288).

(** Append one byte to a string. *)
Definition snoc (s : string) (c : ascii) : string := s +:+ String c EmptyString.

(** [strings.FieldsFunc(s, unicode.IsSpace)], byte by byte. [pending]
    counts the bytes still to come of the rune being read and [keep] says
    whether that rune belongs to a field; [cur] is the field being read
    ([None] when the loop has [start < 0]). *)
Fixpoint fields_loop (s : string) (pending : nat) (keep : bool) (cur : option string)
  : list string :=
  match s with
  | EmptyString =>
      match cur with
      | Some field => [field]
      | None => []
      end
  | String c rest =>
      match pending with
      | S k =>
          fields_loop rest k keep (if keep then option_map (fun f => snoc f c) cur else cur)
      | O =>
          let '(r, width) := DecodeRuneInString s in
          if IsSpace r then
            match cur with
            | Some field => field :: fields_loop rest (Nat.pred width) false None
            | None => fields_loop rest (Nat.pred width) false None
            end
          else
            fields_loop rest (Nat.pred width) true
              (Some (snoc (match cur with Some f => f | None => "" end) c))
      end
  end.

(** [strings.Fields]. (Its fast path for ASCII strings computes the same
    fields with the six ASCII white-space bytes.) *)
Definition Fields (s : string) : list string := fields_loop s 0 false None.

(** *** fmt.Sscanf(str, "%d", &n) *)

Definition is_digit (c : ascii) : bool := in_range 48 57 (byte_val c).

(** The digits accepted by [scanNumber], their value accumulated. *)
Fixpoint scan_digits (s : string) (acc : Z) : Z :=
  match s with
  | String c rest =>
      if is_digit c then scan_digits rest (10 * acc + (byte_val c - 48)) else acc
  | EmptyString => acc
  end.

Definition starts_with_digit (s : string) : bool :=
  match s with
  | String c _ => is_digit c
  | EmptyString => false
  end.

(** [fmt.Sscanf(str, "%d", &n)] on a [str] that does not start with
    white space (a field of [strings.Fields] never does): an optional
    sign, then the longest run of decimal digits, which must not be empty
    and must denote an [int64]; what follows the digits is not read.
    [Some n] is the value stored, [None] an error. *)
Definition Sscanf_d (str : string) : option Z :=
  let '(negative, body) :=
    match str with
    | String "-" rest => (true, rest)
    | String "+" rest => (false, rest)
    | _ => (false, str)
    end in
  if starts_with_digit body then
    let magnitude := scan_digits body 0 in
    let n := if negative then - magnitude else magnitude in
    if bool_decide (in_int64 n) then Some n else None
  else None.

End golang.

(** ** service/models/edge.go *)

Module EdgeCondition.
(** [type EdgeCondition struct] ([Parameters] is read by no function). *)
Record t := {
  Expression : string;
  Type_ : string;
  DefaultValue : bool;
  Timeout : Z;
  Enabled : bool
}.
End EdgeCondition.

Module EdgeConfig.
(** [type EdgeConfig struct]; the data mapping and the retry
    configuration, which only [TransformData] reads, are left out. *)
Record t := {
  Condition : option EdgeCondition.t;
  Weight : Z;
  Priority : Z;
  Delay : Z;
  Tags : list string;
  Description : string;
  Enabled : bool
}.
End EdgeConfig.

Module Edge.
Import golang.

(** [type EdgeTypeEnum string], [type EdgeStatusEnum string] *)
Definition EdgeTypeNormal : string := "normal".
Definition EdgeTypeConditional : string := "conditional".
Definition EdgeTypeLoop : string := "loop".
Definition EdgeTypeError : string := "error".
Definition EdgeTypeTimeout : string := "timeout".
Definition EdgeTypeSkip : string := "skip".
Definition EdgeStatusActive : string := "active".
Definition EdgeStatusInactive : string := "inactive".
Definition EdgeStatusDisabled : string := "disabled".

Definition EdgeTypeEnum_IsValid (t : string) : bool :=
  bool_decide (t = EdgeTypeNormal) || bool_decide (t = EdgeTypeConditional)
  || bool_decide (t = EdgeTypeLoop) || bool_decide (t = EdgeTypeError)
  || bool_decide (t = EdgeTypeTimeout) || bool_decide (t = EdgeTypeSkip).

Definition EdgeStatusEnum_IsValid (s : string) : bool :=
  bool_decide (s = EdgeStatusActive) || bool_decide (s = EdgeStatusInactive)
  || bool_decide (s = EdgeStatusDisabled).

(** [type Edge struct] (the execution counters and the UI configuration
    are left out). *)
Record t := {
  ID : string;
  Name : string;
  Description : string;
  FromNodeID : string;
  ToNodeID : string;
  Type_ : string;
  Status : string;
  Config : option EdgeConfig.t
}.

(** [func (e *Edge) Validate() error] *)
Definition Validate (e : t) : option error :=
  if bool_decide (ID e = "") then Some "edge ID cannot be empty"
  else if bool_decide (FromNodeID e = "") then Some "edge from node ID cannot be empty"
  else if bool_decide (ToNodeID e = "") then Some "edge to node ID cannot be empty"
  else if bool_decide (FromNodeID e = ToNodeID e)
  then Some "edge cannot connect node to itself"
  else if negb (EdgeTypeEnum_IsValid (Type_ e))
  then Some ("invalid edge type: " +:+ Type_ e)
  else if negb (EdgeStatusEnum_IsValid (Status e))
  then Some ("invalid edge status: " +:+ Status e)
  else if bool_decide (Type_ e = EdgeTypeConditional) then
    match Config e with
    | None => Some "conditional edge must have condition config"
    | Some config =>
        match EdgeConfig.Condition config with
        | None => Some "conditional edge must have condition config"
        | Some condition =>
            if bool_decide (EdgeCondition.Expression condition = "")
            then Some "conditional edge must have condition expression"
            else None
        end
    end
  else None.

(** [func (e *Edge) IsConditional() bool] *)
Definition IsConditional (e : t) : bool := bool_decide (Type_ e = EdgeTypeConditional).

(** [func (e *Edge) IsEnabled() bool] *)
Definition IsEnabled (e : t) : bool :=
  if bool_decide (Status e = EdgeStatusDisabled) then false
  else match Config e with
       | Some config => EdgeConfig.Enabled config
       | None => true
       end.

(** The comparison selected by [switch operator]; [None] is the default
    branch. *)
Definition compare (operator : string) (contextNum targetNum : Z) : option bool :=
  if bool_decide (operator = ">") then Some (targetNum <? contextNum)
  else if bool_decide (operator = ">=") then Some (targetNum <=? contextNum)
  else if bool_decide (operator = "<") then Some (contextNum <? targetNum)
  else if bool_decide (operator = "<=") then Some (contextNum <=? targetNum)
  else if bool_decide (operator = "==") || bool_decide (operator = "=")
  then Some (contextNum =? targetNum)
  else if bool_decide (operator = "!=") then Some (negb (contextNum =? targetNum))
  else None.

(** [func (e *Edge) evaluateSimpleCondition(expr, context) (bool, error)] *)
Definition evaluateSimpleCondition (expr : string) (context : gmap string Value)
  : bool * option error :=
  if bool_decide (expr = "true") then (true, None)
  else if bool_decide (expr = "false") then (false, None)
  else
    match Fields expr with
    | [field; operator; valueStr] =>
        match context !! field with
        | None => (false, None)
        | Some contextValue =>
            let contextNum :=
              match contextValue with
              | VInt n => Some n
              | VFloat64 f => Some (int_of_float64 f)
              | _ => None
              end in
            match contextNum with
            | None => (false, Some "cannot compare non-numeric value")
            | Some contextNum =>
                match Sscanf_d valueStr with
                | None => (false, Some ("invalid target value: " +:+ valueStr))
                | Some targetNum =>
                    match compare operator contextNum targetNum with
                    | Some b => (b, None)
                    | None => (false, Some ("unsupported operator: " +:+ operator))
                    end
                end
            end
        end
    | _ => (false, Some ("invalid expression format: " +:+ expr))
    end.

(** [func (e *Edge) EvaluateCondition(context) (bool, error)] *)
Definition EvaluateCondition (e : t) (context : gmap string Value) : bool * option error :=
  if negb (IsConditional e) then (true, None)
  else
    match Config e with
    | None => (false, Some "conditional edge missing condition config")
    | Some config =>
        match EdgeConfig.Condition config with
        | None => (false, Some "conditional edge missing condition config")
        | Some condition =>
            if negb (EdgeCondition.Enabled condition)
            then (EdgeCondition.DefaultValue condition, None)
            else if bool_decide (EdgeCondition.Type_ condition = "simple")
            then evaluateSimpleCondition (EdgeCondition.Expression condition) context
            else (EdgeCondition.DefaultValue condition, None)
        end
    end.

End Edge.

(** ** service/models/node.go *)

Module TimeoutConfig.
(** [type TimeoutConfig struct], durations in nanoseconds. *)
Record t := {
  ExecutionTimeout : Z;
  ConnectionTimeout : Z;
  ReadTimeout : Z;
  WriteTimeout : Z
}.
End TimeoutConfig.

Module InputConfig.
(** [type InputConfig struct] ([Validation] and [Required] are read by
    no function). *)
Record t := {
  Mapping : option (gmap string string);
  Defaults : option (gmap string golang.Value)
}.
End InputConfig.

Module NodeRetryConfig.
(** [type NodeRetryConfig struct], the fields that are read. *)
Record t := {
  MaxRetries : Z;
  RetryInterval : Z;
  BackoffStrategy : string
}.
End NodeRetryConfig.

Module NodeConfig.
(** [type NodeConfig struct]: the plugin, input, retry and timeout
    configuration. *)
Record t := {
  PluginConfig : option (gmap string golang.Value);
  InputConfig : option InputConfig.t;
  RetryConfig : option NodeRetryConfig.t;
  TimeoutConfig : option TimeoutConfig.t
}.
End NodeConfig.

Module time.
(** [time.Second], [time.Minute], [time.Hour] in nanoseconds. *)
Definition Second : Z := 1000000000.
Definition Minute : Z := 60 * Second.
Definition Hour : Z := 60 * Minute.
(** The zero [time.Time]. *)
Definition zero : Z := 0.
End time.

Module Node.

(** [type Node struct] (the execution record and the UI configuration are
    left out). *)
Record t := {
  ID : string;
  Name : string;
  Description : string;
  Type_ : string;
  Plugin : string;
  Status : string;
  RetryCount : Z;
  Dependencies : list string;
  Config : option NodeConfig.t
}.

(** [func (n *Node) GetMaxRetries() int] *)
Definition GetMaxRetries (n : t) : Z :=
  match Config n with
  | None => 3
  | Some config =>
      match NodeConfig.RetryConfig config with
      | None => 3
      | Some retry => NodeRetryConfig.MaxRetries retry
      end
  end.

(** [func (n *Node) GetExecutionTimeout() time.Duration] *)
Definition GetExecutionTimeout (n : t) : Z :=
  match Config n with
  | None => 5 * time.Minute
  | Some config =>
      match NodeConfig.TimeoutConfig config with
      | None => 5 * time.Minute
      | Some timeoutConfig =>
          if 0 <? TimeoutConfig.ExecutionTimeout timeoutConfig
          then TimeoutConfig.ExecutionTimeout timeoutConfig
          else 5 * time.Minute
      end
  end.

End Node.

(** ** service/models/workflow.go *)

Module WorkflowSchedule.
(** [type ScheduleType string] *)
Definition ScheduleTypeCron : string := "cron".
Definition ScheduleTypeInterval : string := "interval".
Definition ScheduleTypeOnce : string := "once".
Definition ScheduleTypeManual : string := "manual".

(** [type WorkflowSchedule struct] *)
Record t := {
  Type_ : string;
  CronExpression : string;
  Timezone : string;
  Interval : Z;
  ExecuteAt : option Z;
  Enabled : bool;
  StartTime : option Z;
  EndTime : option Z;
  MaxInstances : Z;
  MissedRunPolicy : string
}.
End WorkflowSchedule.

Module NotificationConfig.
(** [type NotificationConfig struct] *)
Record t := {
  OnSuccess : bool;
  OnFailure : bool;
  OnRetry : bool;
  Channels : list string
}.
End NotificationConfig.

Module WorkflowConfig.
(** [type WorkflowConfig struct] *)
Record t := {
  Timeout : Z;
  MaxRetries : Z;
  MaxConcurrency : Z;
  Variables : option (gmap string golang.Value);
  Notifications : option NotificationConfig.t;
  Priority : Z;
  Description : string
}.
End WorkflowConfig.

Module WorkflowStatistics.
(** [type WorkflowStatistics struct] *)
Record t := {
  TotalExecutions : Z;
  SuccessfulRuns : Z;
  FailedRuns : Z;
  SuccessRate : spec_float;
  AverageExecTime : Z;
  LastExecutionTime : option Z;
  NextExecutionTime : option Z
}.

(** [&WorkflowStatistics{}] *)
Definition zero : t :=
  {| TotalExecutions := 0; SuccessfulRuns := 0; FailedRuns := 0;
     SuccessRate := S754_zero false; AverageExecTime := 0;
     LastExecutionTime := None; NextExecutionTime := None |}.
End WorkflowStatistics.

Module Workflow.
Import golang models.

(** [type Workflow struct] *)
Record t := {
  ID : string;
  Name : string;
  Type_ : string;
  Description : string;
  Version : string;
  NodesData : string;
  EdgesData : string;
  Nodes : option (gmap string Node.t);
  Edges : option (list Edge.t);
  ScheduleData : string;
  Schedule : option WorkflowSchedule.t;
  ConfigData : string;
  Config : option WorkflowConfig.t;
  Status : WorkflowStatus;
  StatisticsData : string;
  Statistics : option WorkflowStatistics.t;
  Tags : string;
  TagsList : option (list string);
  Priority : Z;
  CreatedBy : string;
  UpdatedBy : string;
  CreatedAt : Z;
  UpdatedAt : Z;
  DeletedAt : option Z
}.

(** [func (w *Workflow) Validate() error] *)
Definition Validate (w : t) : option error :=
  if bool_decide (Name w = "") then Some "workflow name is required"
  else if negb (WorkflowStatus_IsValid (Status w)) then Some "invalid workflow status"
  else None.

(** [func (w *Workflow) ValidateForUpdate() error] *)
Definition ValidateForUpdate (w : t) : option error :=
  if bool_decide (Name w = "") then Some "workflow name is required"
  else if bool_decide (Version w = "") then Some "workflow version is required"
  else if negb (WorkflowStatus_IsValid (Status w)) then Some "invalid workflow status"
  else None.

(** [func (w *Workflow) IsActive() bool] *)
Definition IsActive (w : t) : bool := bool_decide (Status w = WorkflowStatusActive).

(** [func (w *Workflow) CanExecute() bool] *)
Definition CanExecute (w : t) : bool :=
  bool_decide (Status w = WorkflowStatusActive)
  && match Schedule w with
     | Some schedule => WorkflowSchedule.Enabled schedule
     | None => false
     end.

(** The workflow with its statistics replaced. *)
Definition with_Statistics (w : t) (st : WorkflowStatistics.t) : t :=
  {| ID := ID w; Name := Name w; Type_ := Type_ w; Description := Description w;
     Version := Version w; NodesData := NodesData w; EdgesData := EdgesData w;
     Nodes := Nodes w; Edges := Edges w; ScheduleData := ScheduleData w;
     Schedule := Schedule w; ConfigData := ConfigData w; Config := Config w;
     Status := Status w; StatisticsData := StatisticsData w;
     Statistics := Some st;
     Tags := Tags w; TagsList := TagsList w; Priority := Priority w;
     CreatedBy := CreatedBy w; UpdatedBy := UpdatedBy w; CreatedAt := CreatedAt w;
     UpdatedAt := UpdatedAt w; DeletedAt := DeletedAt w |}.

(** The workflow with its status and update time replaced. *)
Definition with_Status (w : t) (status : WorkflowStatus) (updatedAt : Z) : t :=
  {| ID := ID w; Name := Name w; Type_ := Type_ w; Description := Description w;
     Version := Version w; NodesData := NodesData w; EdgesData := EdgesData w;
     Nodes := Nodes w; Edges := Edges w; ScheduleData := ScheduleData w;
     Schedule := Schedule w; ConfigData := ConfigData w; Config := Config w;
     Status := status; StatisticsData := StatisticsData w;
     Statistics := Statistics w;
     Tags := Tags w; TagsList := TagsList w; Priority := Priority w;
     CreatedBy := CreatedBy w; UpdatedBy := UpdatedBy w; CreatedAt := CreatedAt w;
     UpdatedAt := updatedAt; DeletedAt := DeletedAt w |}.

(** The rolled average of [UpdateStatistics], on [int64]:
    [(avg*(n-1) + execTime) / n] with [n] the incremented counter.
    [None] is the run-time panic of an integer division by zero. *)
Definition rolled_average (avg n execTime : Z) : option Z :=
  if n =? 1 then Some execTime
  else if n =? 0 then None
  else Some (div64 (wrap64 (wrap64 (avg * wrap64 (n - 1)) + execTime)) n).

(** [func (w *Workflow) UpdateStatistics(execTime time.Duration, success
    bool)]; [None] is a run-time panic. *)
Definition UpdateStatistics (now : Z) (w : t) (execTime : Z) (success : bool) : option t :=
  let st := match Statistics w with Some st => st | None => WorkflowStatistics.zero end in
  let total := wrap64 (WorkflowStatistics.TotalExecutions st + 1) in
  let successful :=
    if success then wrap64 (WorkflowStatistics.SuccessfulRuns st + 1)
    else WorkflowStatistics.SuccessfulRuns st in
  let failed :=
    if success then WorkflowStatistics.FailedRuns st
    else wrap64 (WorkflowStatistics.FailedRuns st + 1) in
  let rate :=
    if 0 <? total then float64_div (float64_of_int64 successful) (float64_of_int64 total)
    else WorkflowStatistics.SuccessRate st in
  match rolled_average (WorkflowStatistics.AverageExecTime st) total execTime with
  | None => None
  | Some average =>
      Some (with_Statistics w
              {| WorkflowStatistics.TotalExecutions := total;
                 WorkflowStatistics.SuccessfulRuns := successful;
                 WorkflowStatistics.FailedRuns := failed;
                 WorkflowStatistics.SuccessRate := rate;
                 WorkflowStatistics.AverageExecTime := average;
                 WorkflowStatistics.LastExecutionTime := Some now;
                 WorkflowStatistics.NextExecutionTime :=
                   WorkflowStatistics.NextExecutionTime st |})
  end.

End Workflow.

(** ** service/models/execution.go *)

Module ExecutionContextData.
(** [type ExecutionContext struct] of the models package. *)
Record t := {
  Variables : option (gmap string golang.Value);
  Input : option (gmap string golang.Value);
  Output : option (gmap string golang.Value);
  Environment : option (gmap string string)
}.
End ExecutionContextData.

Module ExecutionNodeRecord.
(** [type ExecutionNodeRecord struct] *)
Record t := {
  NodeID : string;
  NodeName : string;
  Status : models.ExecutionStatus;
  StartTime : option Z;
  EndTime : option Z;
  Duration : Z;
  RetryCount : Z;
  Input : option (gmap string golang.Value);
  Output : option (gmap string golang.Value);
  ErrorMsg : string;
  Logs : list string
}.
End ExecutionNodeRecord.

Module ExecutionMetrics.
(** [type ExecutionMetrics struct] *)
Record t := {
  TotalNodes : Z;
  CompletedNodes : Z;
  FailedNodes : Z;
  SkippedNodes : Z;
  ExecutionTime : Z;
  QueueTime : Z;
  WaitTime : Z
}.
End ExecutionMetrics.

Module Execution.
Import golang models.

(** [type Execution struct] *)
Record t := {
  ID : string;
  WorkflowID : string;
  WorkflowVer : string;
  Name : string;
  Description : string;
  Status : ExecutionStatus;
  TriggerType : string;
  TriggerBy : string;
  TriggerData : string;
  Trigger : option (gmap string Value);
  ContextData : string;
  Context : option ExecutionContextData.t;
  NodesData : string;
  Nodes : option (list ExecutionNodeRecord.t);
  MetricsData : string;
  Metrics : option ExecutionMetrics.t;
  ScheduledAt : option Z;
  StartedAt : option Z;
  CompletedAt : option Z;
  RetryCount : Z;
  MaxRetries : Z;
  RetryStrategy : string;
  ErrorMsg : string;
  ErrorCode : string;
  StackTrace : string;
  ConfigSnapshot : string;
  Priority : Z;
  Tags : option (list string);
  TagsData : string;
  CreatedAt : Z;
  UpdatedAt : Z;
  DeletedAt : option Z;
  Workflow : option Workflow.t
}.

(** [func (e *Execution) Validate() error] *)
Definition Validate (e : t) : option error :=
  if bool_decide (WorkflowID e = "") then Some "workflow_id is required"
  else if bool_decide (WorkflowVer e = "") then Some "workflow_version is required"
  else if negb (ExecutionStatus_IsValid (Status e)) then Some "invalid execution status"
  else if RetryCount e <? 0 then Some "retry_count cannot be negative"
  else if MaxRetries e <? 0 then Some "max_retries cannot be negative"
  else None.

(** [func (e *Execution) IsRunning() bool] *)
Definition IsRunning (e : t) : bool := bool_decide (Status e = ExecutionStatusRunning).

(** [func (e *Execution) IsFinished() bool] *)
Definition IsFinished (e : t) : bool := ExecutionStatus_IsFinished (Status e).

(** [func (e *Execution) CanRetry() bool] *)
Definition CanRetry (e : t) : bool :=
  bool_decide (Status e = ExecutionStatusFailed) && (RetryCount e <? MaxRetries e).

(** [func (e *Execution) Cancel() error]: the error and the execution
    after the call. *)
Definition Cancel (now : Z) (e : t) : option error * t :=
  if IsFinished e then (Some "execution is already finished", e)
  else
    (None,
     {| ID := ID e; WorkflowID := WorkflowID e; WorkflowVer := WorkflowVer e;
        Name := Name e; Description := Description e;
        Status := ExecutionStatusCancelled;
        TriggerType := TriggerType e; TriggerBy := TriggerBy e;
        TriggerData := TriggerData e; Trigger := Trigger e;
        ContextData := ContextData e; Context := Context e;
        NodesData := NodesData e; Nodes := Nodes e;
        MetricsData := MetricsData e; Metrics := Metrics e;
        ScheduledAt := ScheduledAt e; StartedAt := StartedAt e;
        CompletedAt := Some now;
        RetryCount := RetryCount e; MaxRetries := MaxRetries e;
        RetryStrategy := RetryStrategy e;
        ErrorMsg := ErrorMsg e; ErrorCode := ErrorCode e; StackTrace := StackTrace e;
        ConfigSnapshot := ConfigSnapshot e; Priority := Priority e;
        Tags := Tags e; TagsData := TagsData e;
        CreatedAt := CreatedAt e; UpdatedAt := UpdatedAt e; DeletedAt := DeletedAt e;
        Workflow := Workflow e |}).

(** [func (e *Execution) Retry() error]: the error and the execution
    after the call. *)
Definition Retry (e : t) : option error * t :=
  if negb (CanRetry e) then (Some "execution cannot be retried", e)
  else
    (None,
     {| ID := ID e; WorkflowID := WorkflowID e; WorkflowVer := WorkflowVer e;
        Name := Name e; Description := Description e;
        Status := ExecutionStatusPending;
        TriggerType := TriggerType e; TriggerBy := TriggerBy e;
        TriggerData := TriggerData e; Trigger := Trigger e;
        ContextData := ContextData e; Context := Context e;
        NodesData := NodesData e; Nodes := Nodes e;
        MetricsData := MetricsData e; Metrics := Metrics e;
        ScheduledAt := ScheduledAt e;
        StartedAt := None;
        CompletedAt := None;
        RetryCount := wrap64 (RetryCount e + 1);
        MaxRetries := MaxRetries e;
        RetryStrategy := RetryStrategy e;
        ErrorMsg := ""; ErrorCode := ""; StackTrace := "";
        ConfigSnapshot := ConfigSnapshot e; Priority := Priority e;
        Tags := Tags e; TagsData := TagsData e;
        CreatedAt := CreatedAt e; UpdatedAt := UpdatedAt e; DeletedAt := DeletedAt e;
        Workflow := Workflow e |}).

(** The execution with its status replaced. *)
Definition with_Status (e : t) (status : ExecutionStatus) : t :=
  {| ID := ID e; WorkflowID := WorkflowID e; WorkflowVer := WorkflowVer e;
     Name := Name e; Description := Description e; Status := status;
     TriggerType := TriggerType e; TriggerBy := TriggerBy e;
     TriggerData := TriggerData e; Trigger := Trigger e;
     ContextData := ContextData e; Context := Context e;
     NodesData := NodesData e; Nodes := Nodes e;
     MetricsData := MetricsData e; Metrics := Metrics e;
     ScheduledAt := ScheduledAt e; StartedAt := StartedAt e;
     CompletedAt := CompletedAt e;
     RetryCount := RetryCount e; MaxRetries := MaxRetries e;
     RetryStrategy := RetryStrategy e;
     ErrorMsg := ErrorMsg e; ErrorCode := ErrorCode e; StackTrace := StackTrace e;
     ConfigSnapshot := ConfigSnapshot e; Priority := Priority e;
     Tags := Tags e; TagsData := TagsData e;
     CreatedAt := CreatedAt e; UpdatedAt := UpdatedAt e; DeletedAt := DeletedAt e;
     Workflow := Workflow e |}.

(** The execution with its update time replaced ([execution.UpdatedAt =
    time.Now()]). *)
Definition with_UpdatedAt (e : t) (updatedAt : Z) : t :=
  {| ID := ID e; WorkflowID := WorkflowID e; WorkflowVer := WorkflowVer e;
     Name := Name e; Description := Description e; Status := Status e;
     TriggerType := TriggerType e; TriggerBy := TriggerBy e;
     TriggerData := TriggerData e; Trigger := Trigger e;
     ContextData := ContextData e; Context := Context e;
     NodesData := NodesData e; Nodes := Nodes e;
     MetricsData := MetricsData e; Metrics := Metrics e;
     ScheduledAt := ScheduledAt e; StartedAt := StartedAt e;
     CompletedAt := CompletedAt e;
     RetryCount := RetryCount e; MaxRetries := MaxRetries e;
     RetryStrategy := RetryStrategy e;
     ErrorMsg := ErrorMsg e; ErrorCode := ErrorCode e; StackTrace := StackTrace e;
     ConfigSnapshot := ConfigSnapshot e; Priority := Priority e;
     Tags := Tags e; TagsData := TagsData e;
     CreatedAt := CreatedAt e; UpdatedAt := updatedAt; DeletedAt := DeletedAt e;
     Workflow := Workflow e |}.

End Execution.

(** ** service/nodes: the plugin interface as the engine uses it *)

Module nodes.
Import golang.

(** [type NodeInput struct] *)
Record NodeInput := {
  Data : gmap string Value;
  Config : option (gmap string Value);
  Context : gmap string Value;
  Variables : gmap string Value
}.

(** [type NodeOutput struct] (logs, metrics and duration are not read by
    the engine). *)
Record NodeOutput := {
  OutputData : option (gmap string Value);
  Error : string;
  Success : bool
}.

(** The [context.Context] handed to a plugin: the timeout it was derived
    with and whether the execution it belongs to is already cancelled. *)
Record PluginContext := {
  timeout : Z;
  parent_done : bool
}.

(** [NodePlugin.Execute(ctx, input)], which returns an output (or nil)
    and an error: a plugin is opaque to the engine. *)
Definition NodePlugin := PluginContext -> NodeInput -> option NodeOutput * option error.

(** [func (r *NodeRegistry) Get(pluginID string) (NodePlugin, error)] *)
Definition Get (registry : gmap string NodePlugin) (pluginID : string)
  : option NodePlugin * option error :=
  match registry !! pluginID with
  | Some plugin => (Some plugin, None)
  | None => (None, Some ("plugin with ID " +:+ pluginID +:+ " not found"))
  end.

End nodes.

(** ** service/workflow_engine.go *)

Module workflow_engine.
Import golang models.

(** [type EngineStatus int] *)
Inductive EngineStatus := EngineStatusStopped | EngineStatusRunning | EngineStatusStopping.

(** [type ExecutionContext struct] of the engine. [cancel] says that the
    cancel function is not nil, [ctx_done] that [ctx] has been cancelled.
    The ready queue is a channel and is left out. *)
Record ExecutionContext := {
  ExecutionID : string;
  WorkflowID : string;
  Workflow : Workflow.t;
  Execution : Execution.t;
  Variables : gmap string Value;
  NodeStates : gmap string ExecutionStatus;
  NodeDependencies : gmap string (list string);
  CompletedNodes : gmap string bool;
  ExecutingNodes : gmap string bool;
  cancel : bool;
  ctx_done : bool
}.

(** [type WorkflowEngine struct] *)
Record WorkflowEngine := {
  status : EngineStatus;
  executions : gmap string ExecutionContext;
  maxConcurrency : Z
}.

Definition with_executions (e : WorkflowEngine) (m : gmap string ExecutionContext)
  : WorkflowEngine :=
  {| status := status e; executions := m; maxConcurrency := maxConcurrency e |}.

(** [NewWorkflowEngine] *)
Definition NewWorkflowEngine : WorkflowEngine :=
  {| status := EngineStatusStopped; executions := ∅; maxConcurrency := 10 |}.

(** The context after [execCtx.cancel()]. *)
Definition cancelled (c : ExecutionContext) : ExecutionContext :=
  {| ExecutionID := ExecutionID c; WorkflowID := WorkflowID c; Workflow := Workflow c;
     Execution := Execution c; Variables := Variables c; NodeStates := NodeStates c;
     NodeDependencies := NodeDependencies c; CompletedNodes := CompletedNodes c;
     ExecutingNodes := ExecutingNodes c; cancel := cancel c; ctx_done := true |}.

Definition with_NodeStates (c : ExecutionContext) (m : gmap string ExecutionStatus)
  : ExecutionContext :=
  {| ExecutionID := ExecutionID c; WorkflowID := WorkflowID c; Workflow := Workflow c;
     Execution := Execution c; Variables := Variables c; NodeStates := m;
     NodeDependencies := NodeDependencies c; CompletedNodes := CompletedNodes c;
     ExecutingNodes := ExecutingNodes c; cancel := cancel c; ctx_done := ctx_done c |}.

Definition with_Variables (c : ExecutionContext) (m : gmap string Value)
  : ExecutionContext :=
  {| ExecutionID := ExecutionID c; WorkflowID := WorkflowID c; Workflow := Workflow c;
     Execution := Execution c; Variables := m; NodeStates := NodeStates c;
     NodeDependencies := NodeDependencies c; CompletedNodes := CompletedNodes c;
     ExecutingNodes := ExecutingNodes c; cancel := cancel c; ctx_done := ctx_done c |}.

(** [ExecuteWorkflow], up to the registration of the execution context;
    the traversal itself runs in a goroutine of its own. *)
Definition ExecuteWorkflow (e : WorkflowEngine) (workflow : Workflow.t)
    (execution : Execution.t) : option error * WorkflowEngine :=
  match status e with
  | EngineStatusRunning =>
      if maxConcurrency e <=? Z.of_nat (size (executions e))
      then (Some ("maximum concurrent executions reached: " +:+ pretty (maxConcurrency e)), e)
      else
        let execCtx :=
          {| ExecutionID := Execution.ID execution; WorkflowID := Workflow.ID workflow;
             Workflow := workflow; Execution := execution;
             Variables := ∅; NodeStates := ∅; NodeDependencies := ∅;
             CompletedNodes := ∅; ExecutingNodes := ∅;
             cancel := true; ctx_done := false |} in
        (None, with_executions e (<[Execution.ID execution := execCtx]> (executions e)))
  | _ => (Some "engine is not running", e)
  end.

(** The deferred cleanup of that goroutine, run when the traversal ends:
    [delete(e.executions, execution.ID)]. *)
Definition cleanup (e : WorkflowEngine) (executionID : string) : WorkflowEngine :=
  with_executions e (delete executionID (executions e)).

(** [func (e *WorkflowEngine) CancelExecution(executionID string) error] *)
Definition CancelExecution (e : WorkflowEngine) (executionID : string)
  : option error * WorkflowEngine :=
  match executions e !! executionID with
  | None => (Some ("execution not found: " +:+ executionID), e)
  | Some execCtx =>
      if cancel execCtx
      then (None, with_executions e (<[executionID := cancelled execCtx]> (executions e)))
      else (None, e)
  end.

(** [prepareNodeInput]: the variables, overridden by the mapped fields,
    completed by the defaults. *)
Definition prepareNodeInput (execCtx : ExecutionContext) (node : Node.t)
  : gmap string Value :=
  let inputData := Variables execCtx in
  match Node.Config node with
  | None => inputData
  | Some config =>
      match NodeConfig.InputConfig config with
      | None => inputData
      | Some inputConfig =>
          let mapped :=
            match InputConfig.Mapping inputConfig with
            | Some mapping =>
                omap (fun sourceKey => Variables execCtx !! sourceKey) mapping ∪ inputData
            | None => inputData
            end in
          match InputConfig.Defaults inputConfig with
          | Some defaults => mapped ∪ defaults
          | None => mapped
          end
      end
  end.

(** [processNodeOutput] *)
Definition processNodeOutput (execCtx : ExecutionContext) (nodeID : string)
    (outputData : option (gmap string Value)) : ExecutionContext :=
  match outputData with
  | None => execCtx
  | Some data =>
      with_Variables execCtx
        (<[nodeID +:+ "_output" := VOther "map[string]interface {}"]>
           (kmap (fun key => nodeID +:+ "_" +:+ key) data ∪ Variables execCtx))
  end.

(** The timeout that [executeNode] derives for the plugin call. *)
Definition node_timeout (node : Node.t) : Z :=
  let timeout := Node.GetExecutionTimeout node in
  if timeout =? 0 then time.Second * 30 else timeout.

(** What [executeNode] does with the result of the plugin call. *)
Definition interpret_output (execCtx : ExecutionContext) (nodeID : string)
    (result : option nodes.NodeOutput * option error) : ExecutionContext * option error :=
  match result with
  | (_, Some err) => (execCtx, Some (wrap "node plugin execution failed" err))
  | (None, None) => (execCtx, Some "node plugin returned nil output")
  | (Some nodeOutput, None) =>
      if negb (nodes.Success nodeOutput)
      then (execCtx, Some ("node execution failed: " +:+ nodes.Error nodeOutput))
      else (processNodeOutput execCtx nodeID (nodes.OutputData nodeOutput), None)
  end.

(** [executeNode]: the context after the call and the error returned;
    [None] is the run-time panic of dereferencing a nil [node.Config]. *)
Definition executeNode (registry : gmap string nodes.NodePlugin)
    (execCtx : ExecutionContext) (nodeID : string) (node : Node.t)
  : option (ExecutionContext * option error) :=
  let execCtx :=
    with_NodeStates execCtx (<[nodeID := ExecutionStatusRunning]> (NodeStates execCtx)) in
  let timeout := node_timeout node in
  let nodeCtx := {| nodes.timeout := timeout; nodes.parent_done := ctx_done execCtx |} in
  let inputData := prepareNodeInput execCtx node in
  match nodes.Get registry (Node.Plugin node) with
  | (_, Some err) =>
      Some (execCtx, Some (wrap ("failed to get node plugin " +:+ Node.Plugin node) err))
  | (None, None) => None
  | (Some nodePlugin, None) =>
      match Node.Config node with
      | None => None
      | Some config =>
          let nodeInput :=
            {| nodes.Data := inputData; nodes.Config := NodeConfig.PluginConfig config;
               nodes.Context := ∅; nodes.Variables := Variables execCtx |} in
          Some (interpret_output execCtx nodeID (nodePlugin nodeCtx nodeInput))
      end
  end.

End workflow_engine.

(** ** service/simple_scheduler.go *)

Module simple_scheduler.
Import golang.

(** [type ScheduledTask struct] *)
Record ScheduledTask := {
  ID : string;
  WorkflowID : string;
  Name : string;
  Schedule : option WorkflowSchedule.t;
  NextRun : Z;
  LastRun : option Z;
  RunCount : Z;
  Enabled : bool
}.

Definition with_Enabled (task : ScheduledTask) (enabled : bool) : ScheduledTask :=
  {| ID := ID task; WorkflowID := WorkflowID task; Name := Name task;
     Schedule := Schedule task; NextRun := NextRun task; LastRun := LastRun task;
     RunCount := RunCount task; Enabled := enabled |}.

Definition with_NextRun (task : ScheduledTask) (nextRun : Z) : ScheduledTask :=
  {| ID := ID task; WorkflowID := WorkflowID task; Name := Name task;
     Schedule := Schedule task; NextRun := nextRun; LastRun := LastRun task;
     RunCount := RunCount task; Enabled := Enabled task |}.

(** The time window of [calculateNextRun], applied to the [nextRun] that
    the [switch] has computed. *)
Definition apply_window (schedule : WorkflowSchedule.t) (task : ScheduledTask)
    (nextRun : Z) : option error * ScheduledTask :=
  let nextRun :=
    match WorkflowSchedule.StartTime schedule with
    | Some startTime => if nextRun <? startTime then startTime else nextRun
    | None => nextRun
    end in
  let after_end :=
    match WorkflowSchedule.EndTime schedule with
    | Some endTime => endTime <? nextRun
    | None => false
    end in
  if after_end then (None, with_Enabled task false)
  else (None, with_NextRun task nextRun).

(** [func (s *SimpleScheduler) calculateNextRun(task *ScheduledTask)
    error]: the error and the task after the call. *)
Definition calculateNextRun (now : Z) (task : ScheduledTask)
  : option error * ScheduledTask :=
  match Schedule task with
  | None => (Some "schedule is nil", task)
  | Some schedule =>
      let type := WorkflowSchedule.Type_ schedule in
      if bool_decide (type = WorkflowSchedule.ScheduleTypeCron) then
        if bool_decide (WorkflowSchedule.CronExpression schedule = "")
        then (Some "cron expression is empty", task)
        else apply_window schedule task (now + time.Hour)
      else if bool_decide (type = WorkflowSchedule.ScheduleTypeInterval) then
        if WorkflowSchedule.Interval schedule <=? 0
        then (Some "interval must be positive", task)
        else apply_window schedule task (now + WorkflowSchedule.Interval schedule)
      else if bool_decide (type = WorkflowSchedule.ScheduleTypeOnce) then
        match WorkflowSchedule.ExecuteAt schedule with
        | None => (Some "execute_at is required for once schedule", task)
        | Some executeAt => apply_window schedule task executeAt
        end
      else if bool_decide (type = WorkflowSchedule.ScheduleTypeManual) then
        apply_window schedule task time.zero
      else (Some ("unsupported schedule type: " +:+ type), task)
  end.

(** The test of [checkAndTriggerTasks] that selects the tasks to trigger:
    [task.Enabled && time.Now().After(task.NextRun)]. *)
Definition due (now : Z) (task : ScheduledTask) : bool :=
  Enabled task && (NextRun task <? now).

(** [triggerTask]: the task after the call, and whether the call reached
    the point where the workflow execution is triggered. *)
Definition triggerTask (now : Z) (task : ScheduledTask) : ScheduledTask * bool :=
  let task :=
    {| ID := ID task; WorkflowID := WorkflowID task; Name := Name task;
       Schedule := Schedule task; NextRun := NextRun task; LastRun := Some now;
       RunCount := wrap64 (RunCount task + 1); Enabled := Enabled task |} in
  match calculateNextRun now task with
  | (Some _, task) => (task, false)
  | (None, task) => (task, true)
  end.

(** [AddTask]: the error and the table of tasks after the call. *)
Definition AddTask (now : Z) (tasks : gmap string ScheduledTask) (workflowID : string)
    (workflow : Workflow.t) : option error * gmap string ScheduledTask :=
  match Workflow.Schedule workflow with
  | None => (Some "workflow schedule is not enabled", tasks)
  | Some schedule =>
      if negb (WorkflowSchedule.Enabled schedule)
      then (Some "workflow schedule is not enabled", tasks)
      else
        let task :=
          {| ID := "task_" +:+ workflowID; WorkflowID := workflowID;
             Name := Workflow.Name workflow; Schedule := Some schedule;
             NextRun := time.zero; LastRun := None; RunCount := 0;
             Enabled := WorkflowSchedule.Enabled schedule |} in
        match calculateNextRun now task with
        | (Some err, _) => (Some (wrap "failed to calculate next run time" err), tasks)
        | (None, task) => (None, <[ID task := task]> tasks)
        end
  end.

End simple_scheduler.

(** ** service/workflow_service.go

    The database is the table of the stored workflows by id; the failures
    of the driver are outside the embedding, so [Save] always succeeds. *)

Module workflow_service.
Import golang models state_manager.

(** [GetWorkflow]; the [AfterFind] hook and the function itself give an
    empty status its default. *)
Definition GetWorkflow (db : gmap string Workflow.t) (id : string)
  : option Workflow.t * option error :=
  match db !! id with
  | None => (None, Some ("workflow not found: " +:+ id))
  | Some workflow =>
      if bool_decide (Workflow.Status workflow = "")
      then (Some (Workflow.with_Status workflow WorkflowStatusInactive
                    (Workflow.UpdatedAt workflow)), None)
      else (Some workflow, None)
  end.

(** [scheduleWorkflow]: both branches return nil. *)
Definition scheduleWorkflow (workflow : Workflow.t) : option error := None.

(** The field by field merge of [UpdateWorkflow]: a field of the request
    replaces the stored one when it is not the zero value of its type. *)
Definition merge (existingWorkflow workflow : Workflow.t) : Workflow.t :=
  {| Workflow.ID := Workflow.ID existingWorkflow;
     Workflow.Name :=
       if bool_decide (Workflow.Name workflow <> "") then Workflow.Name workflow
       else Workflow.Name existingWorkflow;
     Workflow.Type_ := Workflow.Type_ existingWorkflow;
     Workflow.Description :=
       if bool_decide (Workflow.Description workflow <> "")
       then Workflow.Description workflow
       else Workflow.Description existingWorkflow;
     Workflow.Version :=
       if bool_decide (Workflow.Version workflow <> "") then Workflow.Version workflow
       else Workflow.Version existingWorkflow;
     Workflow.NodesData := Workflow.NodesData existingWorkflow;
     Workflow.EdgesData := Workflow.EdgesData existingWorkflow;
     Workflow.Nodes :=
       match Workflow.Nodes workflow with
       | Some nodes => Some nodes
       | None => Workflow.Nodes existingWorkflow
       end;
     Workflow.Edges :=
       match Workflow.Edges workflow with
       | Some edges => Some edges
       | None => Workflow.Edges existingWorkflow
       end;
     Workflow.ScheduleData := Workflow.ScheduleData existingWorkflow;
     Workflow.Schedule :=
       match Workflow.Schedule workflow with
       | Some schedule => Some schedule
       | None => Workflow.Schedule existingWorkflow
       end;
     Workflow.ConfigData := Workflow.ConfigData existingWorkflow;
     Workflow.Config :=
       match Workflow.Config workflow with
       | Some config => Some config
       | None => Workflow.Config existingWorkflow
       end;
     Workflow.Status := Workflow.Status existingWorkflow;
     Workflow.StatisticsData := Workflow.StatisticsData existingWorkflow;
     Workflow.Statistics := Workflow.Statistics existingWorkflow;
     Workflow.Tags := Workflow.Tags existingWorkflow;
     Workflow.TagsList :=
       match Workflow.TagsList workflow with
       | Some tags => Some tags
       | None => Workflow.TagsList existingWorkflow
       end;
     Workflow.Priority :=
       if bool_decide (Workflow.Priority workflow <> 0) then Workflow.Priority workflow
       else Workflow.Priority existingWorkflow;
     Workflow.CreatedBy := Workflow.CreatedBy existingWorkflow;
     Workflow.UpdatedBy := Workflow.UpdatedBy existingWorkflow;
     Workflow.CreatedAt := Workflow.CreatedAt existingWorkflow;
     Workflow.UpdatedAt := Workflow.UpdatedAt existingWorkflow;
     Workflow.DeletedAt := Workflow.DeletedAt existingWorkflow |}.

(** [UpdateWorkflow]: the error, the database after the call and the
    request object after the call (on success it is overwritten with the
    stored workflow). *)
Definition UpdateWorkflow (now : Z) (db : gmap string Workflow.t) (workflow : Workflow.t)
  : option error * gmap string Workflow.t * Workflow.t :=
  match GetWorkflow db (Workflow.ID workflow) with
  | (_, Some err) => (Some err, db, workflow)
  | (None, None) => (Some ("workflow not found: " +:+ Workflow.ID workflow), db, workflow)
  | (Some existingWorkflow, None) =>
      let existingWorkflow := merge existingWorkflow workflow in
      match Workflow.ValidateForUpdate existingWorkflow with
      | Some err => (Some (wrap "workflow validation failed" err), db, workflow)
      | None =>
          let existingWorkflow :=
            Workflow.with_Status existingWorkflow (Workflow.Status existingWorkflow) now in
          let db := <[Workflow.ID existingWorkflow := existingWorkflow]> db in
          let scheduled :=
            if Workflow.IsActive existingWorkflow && Workflow.CanExecute existingWorkflow
            then scheduleWorkflow existingWorkflow else None in
          match scheduled with
          | Some err => (Some (wrap "failed to schedule workflow" err), db, workflow)
          | None => (None, db, existingWorkflow)
          end
      end
  end.

(** [ActivateWorkflow]: the error, the state manager and the database
    after the call. *)
Definition ActivateWorkflow (now : Z) (sm : StateManager) (db : gmap string Workflow.t)
    (id : string) : option error * StateManager * gmap string Workflow.t :=
  match GetWorkflow db id with
  | (_, Some err) => (Some err, sm, db)
  | (None, None) => (Some ("workflow not found: " +:+ id), sm, db)
  | (Some workflow, None) =>
      match ValidateWorkflowTransition sm (Workflow.Status workflow) WorkflowStatusActive with
      | Some err => (Some (wrap "invalid state transition" err), sm, db)
      | None =>
          let oldStatus := Workflow.Status workflow in
          let workflow := Workflow.with_Status workflow WorkflowStatusActive now in
          let db := <[Workflow.ID workflow := workflow]> db in
          let '(_, sm) :=
            RecordWorkflowTransition now sm id oldStatus WorkflowStatusActive
              "manually activated" "system" in
          let scheduled :=
            if Workflow.CanExecute workflow then scheduleWorkflow workflow else None in
          match scheduled with
          | Some err => (Some (wrap "failed to schedule workflow" err), sm, db)
          | None => (None, sm, db)
          end
      end
  end.

End workflow_service.

(** ** service/execution_service.go

    The database is the table of the stored executions by id. *)

Module execution_service.
Import golang models state_manager.

(** [GetExecution]; the [AfterFind] hook gives an empty status its
    default. *)
Definition GetExecution (db : gmap string Execution.t) (id : string)
  : option Execution.t * option error :=
  match db !! id with
  | None => (None, Some ("execution not found: " +:+ id))
  | Some execution =>
      if bool_decide (Execution.Status execution = "")
      then (Some (Execution.with_Status execution ExecutionStatusPending), None)
      else (Some execution, None)
  end.

(** [UpdateExecution] *)
Definition UpdateExecution (now : Z) (db : gmap string Execution.t)
    (execution : Execution.t) : option error * gmap string Execution.t :=
  match Execution.Validate execution with
  | Some err => (Some (wrap "execution validation failed" err), db)
  | None =>
      let execution := Execution.with_UpdatedAt execution now in
      (None, <[Execution.ID execution := execution]> db)
  end.

(** The state that a call of the execution service works on: the global
    state manager, the engine and the database. *)
Record State := {
  sm : StateManager;
  engine : option workflow_engine.WorkflowEngine;
  db : gmap string Execution.t
}.

(** [func (s *ExecutionService) CancelExecution(id string) error] *)
Definition CancelExecution (now : Z) (s : State) (id : string) : option error * State :=
  match GetExecution (db s) id with
  | (_, Some err) => (Some err, s)
  | (None, None) => (Some ("execution not found: " +:+ id), s)
  | (Some execution, None) =>
      match ValidateExecutionTransition (sm s) (Execution.Status execution)
              ExecutionStatusCancelled with
      | Some err => (Some (wrap "invalid state transition" err), s)
      | None =>
          let oldStatus := Execution.Status execution in
          match Execution.Cancel now execution with
          | (Some err, _) => (Some (wrap "failed to cancel execution" err), s)
          | (None, execution) =>
              let '(_, sm') :=
                RecordExecutionTransition now (sm s) id oldStatus ExecutionStatusCancelled
                  "execution cancelled" "system" in
              let engine' :=
                match engine s with
                | Some e => Some (snd (workflow_engine.CancelExecution e id))
                | None => None
                end in
              let '(err, db') := UpdateExecution now (db s) execution in
              (err, {| sm := sm'; engine := engine'; db := db' |})
          end
      end
  end.

End execution_service.

(** ** The vocabulary of the specification *)

Module spec.
Import golang.

(** [e] is a conditional edge whose condition is enabled, of type
    "simple", with expression [expr]. *)
Definition enabled_simple_condition (e : Edge.t) (expr : string) : Prop :=
  Edge.Type_ e = Edge.EdgeTypeConditional
  /\ exists config condition,
      Edge.Config e = Some config
      /\ EdgeConfig.Condition config = Some condition
      /\ EdgeCondition.Enabled condition = true
      /\ EdgeCondition.Type_ condition = "simple"
      /\ EdgeCondition.Expression condition = expr.

(** The value is of Go type [int] or [float64]. *)
Definition numeric (v : Value) : Prop :=
  (exists n, v = VInt n) \/ (exists f, v = VFloat64 f).

(** The integer comparison that the operator [op] denotes. *)
Definition comparison_holds (op : string) (n target : Z) : Prop :=
  (op = ">" /\ n > target) \/ (op = ">=" /\ n >= target)
  \/ (op = "<" /\ n < target) \/ (op = "<=" /\ n <= target)
  \/ ((op = "==" \/ op = "=") /\ n = target) \/ (op = "!=" /\ n <> target).

(** The operators of the condition language. *)
Definition comparison_operators : list string := [">"; ">="; "<"; "<="; "=="; "="; "!="].

(** The value of a string of decimal digits, [None] when it has another
    character or is empty. *)
Definition digits_value (s : string) : option Z :=
  let chars := list_ascii_of_string s in
  if forallb is_digit chars && negb (bool_decide (chars = []))
  then Some (fold_left (fun acc c => 10 * acc + (byte_val c - 48)) chars 0)
  else None.

(** The integer that a decimal numeral denotes: an optional sign followed
    by decimal digits and nothing else. *)
Definition numeral_value (s : string) : option Z :=
  match s with
  | String "-" rest => option_map Z.opp (digits_value rest)
  | String "+" rest => digits_value rest
  | _ => digits_value s
  end.

(** *** The graph of a workflow *)

(** The edges and the nodes of a workflow (none when the field is nil). *)
Definition edges_of (w : Workflow.t) : list Edge.t :=
  match Workflow.Edges w with Some edges => edges | None => [] end.

Definition nodes_of (w : Workflow.t) : gmap string Node.t :=
  match Workflow.Nodes w with Some nodes => nodes | None => ∅ end.

(** Every edge references node ids that exist in [workflow.nodes]. *)
Definition edges_reference_nodes (w : Workflow.t) : Prop :=
  forall e, In e (edges_of w) ->
    is_Some (nodes_of w !! Edge.FromNodeID e) /\ is_Some (nodes_of w !! Edge.ToNodeID e).

(** There is an enabled edge from [a] to [b]. *)
Definition enabled_edge (w : Workflow.t) (a b : string) : Prop :=
  exists e, In e (edges_of w) /\ Edge.IsEnabled e = true
            /\ Edge.FromNodeID e = a /\ Edge.ToNodeID e = b.

(** The subgraph formed by the enabled edges has no cycle: no node reaches
    itself along one or more enabled edges. *)
Definition acyclic (w : Workflow.t) : Prop :=
  forall n, ~ tc (enabled_edge w) n n.

(** Every conditional edge carries a condition expression. *)
Definition conditional_edges_have_expressions (w : Workflow.t) : Prop :=
  forall e, In e (edges_of w) -> Edge.IsConditional e = true ->
    exists config condition,
      Edge.Config e = Some config /\ EdgeConfig.Condition config = Some condition
      /\ EdgeCondition.Expression condition <> "".

(** The three conditions of the graph validation that the specification
    places on activation. *)
Definition graph_validated (w : Workflow.t) : Prop :=
  edges_reference_nodes w /\ acyclic w /\ conditional_edges_have_expressions w.

(** The timeout that the specification prescribes for a node. *)
Definition spec_timeout (node_timeout task_timeout : Z) : Z :=
  Z.min (Z.min node_timeout task_timeout) (30 * time.Second).

(** *** The time window of a schedule

    [window_outcome schedule task nextRun result]: what the specification
    prescribes once the schedule type has given [nextRun]. A [nextRun]
    before the start time is clamped up to the start time; if it then lies
    after the end time the task is disabled, keeps its former next run and
    is never due again; otherwise the task gets the next run. No error is
    returned. *)
Definition window_outcome (schedule : WorkflowSchedule.t)
    (task : simple_scheduler.ScheduledTask) (nextRun : Z)
    (result : option error * simple_scheduler.ScheduledTask) : Prop :=
  exists clamped,
    ((exists startTime, WorkflowSchedule.StartTime schedule = Some startTime
                        /\ nextRun < startTime /\ clamped = startTime)
     \/ ((WorkflowSchedule.StartTime schedule = None
          \/ exists startTime, WorkflowSchedule.StartTime schedule = Some startTime
                               /\ startTime <= nextRun)
         /\ clamped = nextRun))
    /\ fst result = None
    /\ ((exists endTime, WorkflowSchedule.EndTime schedule = Some endTime
                         /\ endTime < clamped
                         /\ simple_scheduler.Enabled (snd result) = false
                         /\ snd result = simple_scheduler.with_Enabled task false
                         /\ forall now', simple_scheduler.due now' (snd result) = false)
        \/ ((WorkflowSchedule.EndTime schedule = None
             \/ exists endTime, WorkflowSchedule.EndTime schedule = Some endTime
                                /\ clamped <= endTime)
            /\ snd result = simple_scheduler.with_NextRun task clamped)).

(** The average execution time of a workflow (0 without statistics). *)
Definition average_of (w : Workflow.t) : Z :=
  match Workflow.Statistics w with
  | Some st => WorkflowStatistics.AverageExecTime st
  | None => 0
  end.

(** The number of executions counted by a workflow (0 without
    statistics). *)
Definition total_of (w : Workflow.t) : Z :=
  match Workflow.Statistics w with
  | Some st => WorkflowStatistics.TotalExecutions st
  | None => 0
  end.

End spec.

(** ** Concrete workflows, executions and tasks, used as examples *)

Module examples.
Import golang.

(** A conditional edge from [a] to [b] whose enabled simple condition is
    [expr]. *)
Definition conditional_edge (expr : string) : Edge.t :=
  {| Edge.ID := "e1"; Edge.Name := ""; Edge.Description := "";
     Edge.FromNodeID := "a"; Edge.ToNodeID := "b";
     Edge.Type_ := Edge.EdgeTypeConditional; Edge.Status := Edge.EdgeStatusActive;
     Edge.Config := Some
       {| EdgeConfig.Condition := Some
            {| EdgeCondition.Expression := expr;
               EdgeCondition.Type_ := "simple";
               EdgeCondition.DefaultValue := false;
               EdgeCondition.Timeout := 0;
               EdgeCondition.Enabled := true |};
          EdgeConfig.Weight := 1; EdgeConfig.Priority := 0;
          EdgeConfig.Delay := 0; EdgeConfig.Tags := [];
          EdgeConfig.Description := ""; EdgeConfig.Enabled := true |} |}.

(** An edge without configuration. *)
Definition plain_edge (id from to type : string) : Edge.t :=
  {| Edge.ID := id; Edge.Name := ""; Edge.Description := "";
     Edge.FromNodeID := from; Edge.ToNodeID := to;
     Edge.Type_ := type; Edge.Status := Edge.EdgeStatusActive; Edge.Config := None |}.

Definition plain_node (id : string) : Node.t :=
  {| Node.ID := id; Node.Name := id; Node.Description := "";
     Node.Type_ := "transform"; Node.Plugin := "data_filter"; Node.Status := "pending";
     Node.RetryCount := 0; Node.Dependencies := []; Node.Config := None |}.

(** A workflow with the given id, name, status, nodes, edges and priority,
    and nothing else. *)
Definition plain_workflow (id name : string) (status : string)
    (nodes : option (gmap string Node.t)) (edges : option (list Edge.t))
    (description : string) (priority : Z) : Workflow.t :=
  {| Workflow.ID := id; Workflow.Name := name; Workflow.Type_ := "";
     Workflow.Description := description; Workflow.Version := "1.0.0";
     Workflow.NodesData := ""; Workflow.EdgesData := "";
     Workflow.Nodes := nodes; Workflow.Edges := edges;
     Workflow.ScheduleData := ""; Workflow.Schedule := None;
     Workflow.ConfigData := ""; Workflow.Config := None;
     Workflow.Status := status;
     Workflow.StatisticsData := ""; Workflow.Statistics := None;
     Workflow.Tags := ""; Workflow.TagsList := None; Workflow.Priority := priority;
     Workflow.CreatedBy := ""; Workflow.UpdatedBy := "";
     Workflow.CreatedAt := 0; Workflow.UpdatedAt := 0; Workflow.DeletedAt := None |}.

(** An inactive workflow whose enabled edges [a -> b -> a] form a cycle,
    with a conditional edge without condition to a node [c] that does not
    exist. *)
Definition cyclic_workflow : Workflow.t :=
  plain_workflow "wf1" "cyclic" "inactive"
    (Some (<["a" := plain_node "a"]> (<["b" := plain_node "b"]> ∅)))
    (Some [ plain_edge "e1" "a" "b" "normal";
            plain_edge "e2" "b" "a" "normal";
            plain_edge "e3" "a" "c" "conditional" ])
    "" 0.

(** An execution of workflow [wf1] with the given id, status and retry
    counters, and nothing else. *)
Definition plain_execution (id : string) (status : string) (retryCount maxRetries : Z)
  : Execution.t :=
  {| Execution.ID := id; Execution.WorkflowID := "wf1"; Execution.WorkflowVer := "1.0.0";
     Execution.Name := "run"; Execution.Description := "";
     Execution.Status := status;
     Execution.TriggerType := "manual"; Execution.TriggerBy := "tester";
     Execution.TriggerData := ""; Execution.Trigger := None;
     Execution.ContextData := ""; Execution.Context := None;
     Execution.NodesData := ""; Execution.Nodes := None;
     Execution.MetricsData := ""; Execution.Metrics := None;
     Execution.ScheduledAt := None; Execution.StartedAt := Some 10;
     Execution.CompletedAt := Some 20;
     Execution.RetryCount := retryCount; Execution.MaxRetries := maxRetries;
     Execution.RetryStrategy := "exponential";
     Execution.ErrorMsg := "boom"; Execution.ErrorCode := "E1";
     Execution.StackTrace := "trace";
     Execution.ConfigSnapshot := ""; Execution.Priority := 0;
     Execution.Tags := None; Execution.TagsData := "";
     Execution.CreatedAt := 5; Execution.UpdatedAt := 20; Execution.DeletedAt := None;
     Execution.Workflow := None |}.

(** A running engine in which the execution [ex1] is registered. *)
Definition engine_with_ex1 : workflow_engine.WorkflowEngine :=
  snd (workflow_engine.ExecuteWorkflow
         {| workflow_engine.status := workflow_engine.EngineStatusRunning;
            workflow_engine.executions := ∅;
            workflow_engine.maxConcurrency := 10 |}
         cyclic_workflow (plain_execution "ex1" "running" 0 3)).

(** A node whose configured execution timeout is [timeout]. *)
Definition node_with_timeout (id : string) (timeout : Z) : Node.t :=
  {| Node.ID := id; Node.Name := id; Node.Description := "";
     Node.Type_ := "transform"; Node.Plugin := "probe"; Node.Status := "pending";
     Node.RetryCount := 0; Node.Dependencies := [];
     Node.Config := Some
       {| NodeConfig.PluginConfig := None; NodeConfig.InputConfig := None;
          NodeConfig.RetryConfig := None;
          NodeConfig.TimeoutConfig := Some
            {| TimeoutConfig.ExecutionTimeout := timeout;
               TimeoutConfig.ConnectionTimeout := 0;
               TimeoutConfig.ReadTimeout := 0;
               TimeoutConfig.WriteTimeout := 0 |} |} |}.

(** A plugin that reports the timeout of the context it is called with. *)
Definition probe_plugin : nodes.NodePlugin :=
  fun ctx input =>
    (Some {| nodes.OutputData := Some {[ "timeout" := VInt (nodes.timeout ctx) ]};
             nodes.Error := ""; nodes.Success := true |}, None).

(** The execution context of [ex1] in [engine_with_ex1]. *)
Definition context_of_ex1 : workflow_engine.ExecutionContext :=
  {| workflow_engine.ExecutionID := "ex1"; workflow_engine.WorkflowID := "wf1";
     workflow_engine.Workflow := cyclic_workflow;
     workflow_engine.Execution := plain_execution "ex1" "running" 0 3;
     workflow_engine.Variables := ∅; workflow_engine.NodeStates := ∅;
     workflow_engine.NodeDependencies := ∅; workflow_engine.CompletedNodes := ∅;
     workflow_engine.ExecutingNodes := ∅;
     workflow_engine.cancel := true; workflow_engine.ctx_done := false |}.

(** An interval schedule with the given interval and window. *)
Definition interval_schedule (interval : Z) (startTime endTime : option Z)
  : WorkflowSchedule.t :=
  {| WorkflowSchedule.Type_ := WorkflowSchedule.ScheduleTypeInterval;
     WorkflowSchedule.CronExpression := ""; WorkflowSchedule.Timezone := "UTC";
     WorkflowSchedule.Interval := interval; WorkflowSchedule.ExecuteAt := None;
     WorkflowSchedule.Enabled := true;
     WorkflowSchedule.StartTime := startTime; WorkflowSchedule.EndTime := endTime;
     WorkflowSchedule.MaxInstances := 1; WorkflowSchedule.MissedRunPolicy := "skip" |}.

(** An enabled task of workflow [wf1] with the given schedule, due at 100. *)
Definition task_of (schedule : WorkflowSchedule.t) : simple_scheduler.ScheduledTask :=
  {| simple_scheduler.ID := "task_wf1"; simple_scheduler.WorkflowID := "wf1";
     simple_scheduler.Name := "cyclic"; simple_scheduler.Schedule := Some schedule;
     simple_scheduler.NextRun := 100; simple_scheduler.LastRun := None;
     simple_scheduler.RunCount := 0; simple_scheduler.Enabled := true |}.

(** The statistics after [total] executions with the average [average]. *)
Definition statistics_of (total average : Z) : WorkflowStatistics.t :=
  {| WorkflowStatistics.TotalExecutions := total;
     WorkflowStatistics.SuccessfulRuns := total;
     WorkflowStatistics.FailedRuns := 0;
     WorkflowStatistics.SuccessRate := float64_of_int64 1;
     WorkflowStatistics.AverageExecTime := average;
     WorkflowStatistics.LastExecutionTime := None;
     WorkflowStatistics.NextExecutionTime := None |}.

End examples.

(** ** service/state_manager.go: the queries and the cleanup *)

Module state_manager_queries.
Import models state_manager.

(** [GetTransitionHistory]: an empty filter matches every value. *)
Definition GetTransitionHistory (sm : StateManager) (entityType entityID : string)
  : list StateTransition :=
  filter (fun transition =>
            (entityType = "" \/ EntityType transition = entityType)
            /\ (entityID = "" \/ EntityID transition = entityID))
         (transitionHistory sm).

(** [GetAllowedWorkflowTransitions] *)
Definition GetAllowedWorkflowTransitions (sm : StateManager) (currentStatus : WorkflowStatus)
  : list WorkflowStatus :=
  match workflowTransitions sm !! currentStatus with
  | None => []
  | Some allowed => allowed
  end.

(** [GetAllowedExecutionTransitions] *)
Definition GetAllowedExecutionTransitions (sm : StateManager)
    (currentStatus : ExecutionStatus) : list ExecutionStatus :=
  match executionTransitions sm !! currentStatus with
  | None => []
  | Some allowed => allowed
  end.

(** [IsWorkflowFinalState] *)
Definition IsWorkflowFinalState (sm : StateManager) (status : WorkflowStatus) : bool :=
  match workflowTransitions sm !! status with
  | None => false
  | Some allowed => bool_decide (length allowed = 0%nat)
  end.

(** [IsExecutionFinalState] *)
Definition IsExecutionFinalState (sm : StateManager) (status : ExecutionStatus) : bool :=
  match executionTransitions sm !! status with
  | None => false
  | Some allowed => bool_decide (length allowed = 0%nat)
  end.

(** The loop of [CleanupHistory]: the transitions kept and the number of
    those dropped. *)
Fixpoint cleanup_loop (history : list StateTransition) (beforeTime : Z)
  : list StateTransition * Z :=
  match history with
  | [] => ([], 0)
  | transition :: rest =>
      let '(remaining, cleanedCount) := cleanup_loop rest beforeTime in
      if beforeTime <? Timestamp transition
      then (transition :: remaining, cleanedCount)
      else (remaining, cleanedCount + 1)
  end.

(** [CleanupHistory]: the number of transitions dropped and the manager
    after the call. *)
Definition CleanupHistory (sm : StateManager) (beforeTime : Z) : Z * StateManager :=
  let '(remaining, cleanedCount) := cleanup_loop (transitionHistory sm) beforeTime in
  (cleanedCount,
   {| workflowTransitions := workflowTransitions sm;
      executionTransitions := executionTransitions sm;
      transitionHistory := remaining |}).

(** A call of one of the two recording functions. *)
Inductive record_call :=
| RecordWorkflow (workflowID : string) (from to : WorkflowStatus) (reason operator : string)
| RecordExecution (executionID : string) (from to : ExecutionStatus)
    (reason operator : string).

(** The manager after a sequence of recording calls, each at its own
    time. *)
Fixpoint record_all (sm : StateManager) (calls : list (Z * record_call)) : StateManager :=
  match calls with
  | [] => sm
  | (now, RecordWorkflow id from to reason operator) :: rest =>
      record_all (snd (RecordWorkflowTransition now sm id from to reason operator)) rest
  | (now, RecordExecution id from to reason operator) :: rest =>
      record_all (snd (RecordExecutionTransition now sm id from to reason operator)) rest
  end.

(** A transition of the history is one of the tables of the
    specification. *)
Definition legal (transition : StateTransition) : Prop :=
  (EntityType transition = "workflow"
   /\ In (FromStatus transition, ToStatus transition) spec_workflow_table)
  \/ (EntityType transition = "execution"
      /\ In (FromStatus transition, ToStatus transition) spec_execution_table).

(** The manager keeps the initial tables and a history of legal
    transitions. *)
Definition sound (sm : StateManager) : Prop :=
  workflowTransitions sm = initial_workflowTransitions
  /\ executionTransitions sm = initial_executionTransitions
  /\ Forall legal (transitionHistory sm).

End state_manager_queries.

(** ** service/models/node.go: the status machine and the methods of a node *)

Module node_methods.
Import golang.

(** [type NodeStatusEnum string] *)
Definition NodeStatusPending : string := "pending".
Definition NodeStatusRunning : string := "running".
Definition NodeStatusCompleted : string := "completed".
Definition NodeStatusFailed : string := "failed".
Definition NodeStatusSkipped : string := "skipped".
Definition NodeStatusCancelled : string := "cancelled".
Definition NodeStatusRetrying : string := "retrying".
Definition NodeStatusInactive : string := "inactive".

(** [func (s NodeStatusEnum) IsValid() bool] *)
Definition NodeStatusEnum_IsValid (s : string) : bool :=
  bool_decide (s = NodeStatusPending) || bool_decide (s = NodeStatusRunning)
  || bool_decide (s = NodeStatusCompleted) || bool_decide (s = NodeStatusFailed)
  || bool_decide (s = NodeStatusSkipped) || bool_decide (s = NodeStatusCancelled)
  || bool_decide (s = NodeStatusRetrying) || bool_decide (s = NodeStatusInactive).

(** The map literal of [CanTransitionTo]. *)
Definition transitions : gmap string (list string) :=
  <[NodeStatusPending := [NodeStatusRunning; NodeStatusSkipped; NodeStatusCancelled]]>
  (<[NodeStatusRunning :=
       [NodeStatusCompleted; NodeStatusFailed; NodeStatusCancelled; NodeStatusRetrying]]>
  (<[NodeStatusRetrying := [NodeStatusRunning; NodeStatusFailed; NodeStatusCancelled]]>
  (<[NodeStatusCompleted := []]>
  (<[NodeStatusFailed := [NodeStatusPending; NodeStatusRetrying]]>
  (<[NodeStatusSkipped := []]>
  (<[NodeStatusCancelled := [NodeStatusPending]]> ∅)))))).

(** [func (s NodeStatusEnum) CanTransitionTo(target NodeStatusEnum) bool] *)
Definition CanTransitionTo (s target : string) : bool :=
  match transitions !! s with
  | None => false
  | Some validTargets => state_manager.range_allowed validTargets target
  end.

(** [func (s NodeStatusEnum) IsFinalState() bool] *)
Definition IsFinalState (s : string) : bool :=
  bool_decide (s = NodeStatusCompleted) || bool_decide (s = NodeStatusSkipped).

(** The node with its status and retry count replaced. *)
Definition with_Status_RetryCount (n : Node.t) (status : string) (retryCount : Z) : Node.t :=
  {| Node.ID := Node.ID n; Node.Name := Node.Name n;
     Node.Description := Node.Description n; Node.Type_ := Node.Type_ n;
     Node.Plugin := Node.Plugin n; Node.Status := status;
     Node.RetryCount := retryCount; Node.Dependencies := Node.Dependencies n;
     Node.Config := Node.Config n |}.

(** [func (n *Node) UpdateStatus(newStatus NodeStatusEnum) error]: the
    error and the node after the call. *)
Definition UpdateStatus (n : Node.t) (newStatus : string) : option error * Node.t :=
  if negb (CanTransitionTo (Node.Status n) newStatus)
  then (Some ("cannot transition from " +:+ Node.Status n +:+ " to " +:+ newStatus), n)
  else (None, with_Status_RetryCount n newStatus (Node.RetryCount n)).

(** [func (n *Node) IncrementRetryCount()] *)
Definition IncrementRetryCount (n : Node.t) : Node.t :=
  with_Status_RetryCount n (Node.Status n) (wrap64 (Node.RetryCount n + 1)).

(** [func (n *Node) CanRetry() bool] *)
Definition CanRetry (n : Node.t) : bool :=
  match Node.Config n with
  | None => Node.RetryCount n <? 3
  | Some config =>
      match NodeConfig.RetryConfig config with
      | None => Node.RetryCount n <? 3
      | Some retry => Node.RetryCount n <? NodeRetryConfig.MaxRetries retry
      end
  end.

(** [completedNodes[dep]] on a [map[string]bool]: false for a missing
    key. *)
Definition completed (completedNodes : gmap string bool) (dep : string) : bool :=
  match completedNodes !! dep with
  | Some b => b
  | None => false
  end.

(** [func (n *Node) IsReady(completedNodes map[string]bool) bool] *)
Definition IsReady (n : Node.t) (completedNodes : gmap string bool) : bool :=
  forallb (completed completedNodes) (Node.Dependencies n).

(** The pairs of the map literal of [CanTransitionTo]. *)
Definition transition_pairs : list (string * string) :=
  [ ("pending", "running"); ("pending", "skipped"); ("pending", "cancelled");
    ("running", "completed"); ("running", "failed"); ("running", "cancelled");
    ("running", "retrying");
    ("retrying", "running"); ("retrying", "failed"); ("retrying", "cancelled");
    ("failed", "pending"); ("failed", "retrying");
    ("cancelled", "pending") ].

(** The node after [k] calls of [IncrementRetryCount]. *)
Fixpoint increment_times (k : nat) (n : Node.t) : Node.t :=
  match k with
  | O => n
  | S k => IncrementRetryCount (increment_times k n)
  end.

End node_methods.

(** ** service/models/edge.go: the execution counters of an edge *)

Module EdgeExecution.
(** [type EdgeExecution struct] *)
Record t := {
  ExecutionID : string;
  ExecutionCount : Z;
  SuccessCount : Z;
  FailureCount : Z;
  LastExecutionTime : option Z;
  LastSuccessTime : option Z;
  LastFailureTime : option Z;
  AverageExecutionTime : Z;
  LastError : string
}.

(** [&EdgeExecution{}] *)
Definition zero : t :=
  {| ExecutionID := ""; ExecutionCount := 0; SuccessCount := 0; FailureCount := 0;
     LastExecutionTime := None; LastSuccessTime := None; LastFailureTime := None;
     AverageExecutionTime := 0; LastError := "" |}.
End EdgeExecution.

Module edge_methods.
Import golang.

(** [func (e *Edge) RecordExecution(success bool, duration time.Duration,
    err error)], on the [Execution] field of the edge: the counters after
    the call. *)
Definition RecordExecution (now : Z) (execution : option EdgeExecution.t)
    (success : bool) (duration : Z) (err : option error) : EdgeExecution.t :=
  let x := match execution with Some x => x | None => EdgeExecution.zero end in
  let count := wrap64 (EdgeExecution.ExecutionCount x + 1) in
  let average :=
    if 0 <? count
    then div64 (wrap64 (wrap64 (wrap64 (count - 1) * EdgeExecution.AverageExecutionTime x)
                        + duration)) count
    else EdgeExecution.AverageExecutionTime x in
  {| EdgeExecution.ExecutionID := EdgeExecution.ExecutionID x;
     EdgeExecution.ExecutionCount := count;
     EdgeExecution.SuccessCount :=
       if success then wrap64 (EdgeExecution.SuccessCount x + 1)
       else EdgeExecution.SuccessCount x;
     EdgeExecution.FailureCount :=
       if success then EdgeExecution.FailureCount x
       else wrap64 (EdgeExecution.FailureCount x + 1);
     EdgeExecution.LastExecutionTime := Some now;
     EdgeExecution.LastSuccessTime :=
       if success then Some now else EdgeExecution.LastSuccessTime x;
     EdgeExecution.LastFailureTime :=
       if success then EdgeExecution.LastFailureTime x else Some now;
     EdgeExecution.AverageExecutionTime := average;
     EdgeExecution.LastError :=
       if success then EdgeExecution.LastError x
       else match err with
            | Some message => message
            | None => EdgeExecution.LastError x
            end |}.

(** The counters after a sequence of recorded executions, each with its
    time, outcome, duration and error. *)
Fixpoint record_all (execution : option EdgeExecution.t)
    (runs : list (Z * bool * Z * option error)) : option EdgeExecution.t :=
  match runs with
  | [] => execution
  | (now, success, duration, err) :: rest =>
      record_all (Some (RecordExecution now execution success duration err)) rest
  end.

End edge_methods.

(** ** service/models/execution.go: the life cycle and the node records *)

Module execution_methods.
Import golang models.

(** [t.Sub(u)] of the time package: the difference, saturated to the
    range of a Duration. *)
Definition Sub (t u : Z) : Z :=
  if t - u <? int64_min then int64_min
  else if int64_max <? t - u then int64_max
  else t - u.

(** The execution with its status, times, metrics and error replaced. *)
Definition update (e : Execution.t) (status : ExecutionStatus)
    (startedAt completedAt : option Z) (metrics : option ExecutionMetrics.t)
    (errorMsg errorCode : string) : Execution.t :=
  {| Execution.ID := Execution.ID e; Execution.WorkflowID := Execution.WorkflowID e;
     Execution.WorkflowVer := Execution.WorkflowVer e;
     Execution.Name := Execution.Name e; Execution.Description := Execution.Description e;
     Execution.Status := status;
     Execution.TriggerType := Execution.TriggerType e;
     Execution.TriggerBy := Execution.TriggerBy e;
     Execution.TriggerData := Execution.TriggerData e;
     Execution.Trigger := Execution.Trigger e;
     Execution.ContextData := Execution.ContextData e;
     Execution.Context := Execution.Context e;
     Execution.NodesData := Execution.NodesData e; Execution.Nodes := Execution.Nodes e;
     Execution.MetricsData := Execution.MetricsData e;
     Execution.Metrics := metrics;
     Execution.ScheduledAt := Execution.ScheduledAt e;
     Execution.StartedAt := startedAt;
     Execution.CompletedAt := completedAt;
     Execution.RetryCount := Execution.RetryCount e;
     Execution.MaxRetries := Execution.MaxRetries e;
     Execution.RetryStrategy := Execution.RetryStrategy e;
     Execution.ErrorMsg := errorMsg; Execution.ErrorCode := errorCode;
     Execution.StackTrace := Execution.StackTrace e;
     Execution.ConfigSnapshot := Execution.ConfigSnapshot e;
     Execution.Priority := Execution.Priority e;
     Execution.Tags := Execution.Tags e; Execution.TagsData := Execution.TagsData e;
     Execution.CreatedAt := Execution.CreatedAt e;
     Execution.UpdatedAt := Execution.UpdatedAt e;
     Execution.DeletedAt := Execution.DeletedAt e;
     Execution.Workflow := Execution.Workflow e |}.

(** [&ExecutionMetrics{}] *)
Definition zero_metrics : ExecutionMetrics.t :=
  {| ExecutionMetrics.TotalNodes := 0; ExecutionMetrics.CompletedNodes := 0;
     ExecutionMetrics.FailedNodes := 0; ExecutionMetrics.SkippedNodes := 0;
     ExecutionMetrics.ExecutionTime := 0; ExecutionMetrics.QueueTime := 0;
     ExecutionMetrics.WaitTime := 0 |}.

Definition with_ExecutionTime (m : ExecutionMetrics.t) (executionTime : Z)
  : ExecutionMetrics.t :=
  {| ExecutionMetrics.TotalNodes := ExecutionMetrics.TotalNodes m;
     ExecutionMetrics.CompletedNodes := ExecutionMetrics.CompletedNodes m;
     ExecutionMetrics.FailedNodes := ExecutionMetrics.FailedNodes m;
     ExecutionMetrics.SkippedNodes := ExecutionMetrics.SkippedNodes m;
     ExecutionMetrics.ExecutionTime := executionTime;
     ExecutionMetrics.QueueTime := ExecutionMetrics.QueueTime m;
     ExecutionMetrics.WaitTime := ExecutionMetrics.WaitTime m |}.

(** [func (e *Execution) Start() error]: the error and the execution
    after the call. *)
Definition Start (now : Z) (e : Execution.t) : option error * Execution.t :=
  if bool_decide (Execution.Status e <> ExecutionStatusPending)
  then (Some "execution is not in pending status", e)
  else
    (None,
     update e ExecutionStatusRunning (Some now) (Execution.CompletedAt e)
       (match Execution.Metrics e with
        | Some m => Some m
        | None => Some zero_metrics
        end)
       (Execution.ErrorMsg e) (Execution.ErrorCode e)).

(** The end of [Complete] and [Fail]: the status, the completion time
    and the error are set, then [e.Metrics.ExecutionTime] is written if the
    execution has a start time. [None] is the run-time panic of writing
    through a nil [Metrics]. *)
Definition finish (now : Z) (e : Execution.t) (status : ExecutionStatus)
    (errorMsg errorCode : string) : option (option error * Execution.t) :=
  match Execution.StartedAt e with
  | None =>
      Some (None, update e status None (Some now) (Execution.Metrics e) errorMsg errorCode)
  | Some startedAt =>
      match Execution.Metrics e with
      | None => None
      | Some m =>
          Some (None,
                update e status (Some startedAt) (Some now)
                  (Some (with_ExecutionTime m (Sub now startedAt))) errorMsg errorCode)
      end
  end.

(** [func (e *Execution) Complete() error] *)
Definition Complete (now : Z) (e : Execution.t) : option (option error * Execution.t) :=
  if bool_decide (Execution.Status e <> ExecutionStatusRunning)
  then Some (Some "execution is not running", e)
  else finish now e ExecutionStatusCompleted (Execution.ErrorMsg e) (Execution.ErrorCode e).

(** [func (e *Execution) Fail(errorMsg string, errorCode string) error] *)
Definition Fail (now : Z) (e : Execution.t) (errorMsg errorCode : string)
  : option (option error * Execution.t) :=
  if bool_decide (Execution.Status e <> ExecutionStatusRunning)
  then Some (Some "execution is not running", e)
  else finish now e ExecutionStatusFailed errorMsg errorCode.

(** [func (e *Execution) GetDuration() time.Duration] *)
Definition GetDuration (now : Z) (e : Execution.t) : Z :=
  match Execution.StartedAt e with
  | None => 0
  | Some startedAt =>
      match Execution.CompletedAt e with
      | Some completedAt => Sub completedAt startedAt
      | None => Sub now startedAt
      end
  end.

(** The body of the loop of [UpdateNodeExecution] for the record found. *)
Definition update_record (now : Z) (node : ExecutionNodeRecord.t)
    (status : ExecutionStatus) (errorMsg : string) : ExecutionNodeRecord.t :=
  let finished :=
    match ExecutionNodeRecord.StartTime node with
    | Some startTime =>
        if ExecutionStatus_IsFinished status then Some startTime else None
    | None => None
    end in
  {| ExecutionNodeRecord.NodeID := ExecutionNodeRecord.NodeID node;
     ExecutionNodeRecord.NodeName := ExecutionNodeRecord.NodeName node;
     ExecutionNodeRecord.Status := status;
     ExecutionNodeRecord.StartTime := ExecutionNodeRecord.StartTime node;
     ExecutionNodeRecord.EndTime :=
       match finished with
       | Some _ => Some now
       | None => ExecutionNodeRecord.EndTime node
       end;
     ExecutionNodeRecord.Duration :=
       match finished with
       | Some startTime => Sub now startTime
       | None => ExecutionNodeRecord.Duration node
       end;
     ExecutionNodeRecord.RetryCount := ExecutionNodeRecord.RetryCount node;
     ExecutionNodeRecord.Input := ExecutionNodeRecord.Input node;
     ExecutionNodeRecord.Output := ExecutionNodeRecord.Output node;
     ExecutionNodeRecord.ErrorMsg :=
       if bool_decide (errorMsg <> "") then errorMsg
       else ExecutionNodeRecord.ErrorMsg node;
     ExecutionNodeRecord.Logs := ExecutionNodeRecord.Logs node |}.

(** The record that [UpdateNodeExecution] creates for a node without
    record. *)
Definition new_record (now : Z) (nodeID : string) (status : ExecutionStatus)
    (errorMsg : string) : ExecutionNodeRecord.t :=
  {| ExecutionNodeRecord.NodeID := nodeID;
     ExecutionNodeRecord.NodeName := "";
     ExecutionNodeRecord.Status := status;
     ExecutionNodeRecord.StartTime :=
       if bool_decide (status = ExecutionStatusRunning) then Some now else None;
     ExecutionNodeRecord.EndTime := None;
     ExecutionNodeRecord.Duration := 0;
     ExecutionNodeRecord.RetryCount := 0;
     ExecutionNodeRecord.Input := None;
     ExecutionNodeRecord.Output := None;
     ExecutionNodeRecord.ErrorMsg := errorMsg;
     ExecutionNodeRecord.Logs := [] |}.

(** The loop of [UpdateNodeExecution] and the append that follows it: the
    first record of the node is updated; without one, a new record is
    appended. *)
Fixpoint update_nodes (now : Z) (records : list ExecutionNodeRecord.t)
    (nodeID : string) (status : ExecutionStatus) (errorMsg : string)
  : list ExecutionNodeRecord.t :=
  match records with
  | [] => [new_record now nodeID status errorMsg]
  | node :: rest =>
      if bool_decide (ExecutionNodeRecord.NodeID node = nodeID)
      then update_record now node status errorMsg :: rest
      else node :: update_nodes now rest nodeID status errorMsg
  end.

(** The execution with its node records and metrics replaced. *)
Definition with_Nodes_Metrics (e : Execution.t)
    (records : option (list ExecutionNodeRecord.t)) (metrics : option ExecutionMetrics.t)
  : Execution.t :=
  {| Execution.ID := Execution.ID e; Execution.WorkflowID := Execution.WorkflowID e;
     Execution.WorkflowVer := Execution.WorkflowVer e;
     Execution.Name := Execution.Name e; Execution.Description := Execution.Description e;
     Execution.Status := Execution.Status e;
     Execution.TriggerType := Execution.TriggerType e;
     Execution.TriggerBy := Execution.TriggerBy e;
     Execution.TriggerData := Execution.TriggerData e;
     Execution.Trigger := Execution.Trigger e;
     Execution.ContextData := Execution.ContextData e;
     Execution.Context := Execution.Context e;
     Execution.NodesData := Execution.NodesData e; Execution.Nodes := records;
     Execution.MetricsData := Execution.MetricsData e;
     Execution.Metrics := metrics;
     Execution.ScheduledAt := Execution.ScheduledAt e;
     Execution.StartedAt := Execution.StartedAt e;
     Execution.CompletedAt := Execution.CompletedAt e;
     Execution.RetryCount := Execution.RetryCount e;
     Execution.MaxRetries := Execution.MaxRetries e;
     Execution.RetryStrategy := Execution.RetryStrategy e;
     Execution.ErrorMsg := Execution.ErrorMsg e; Execution.ErrorCode := Execution.ErrorCode e;
     Execution.StackTrace := Execution.StackTrace e;
     Execution.ConfigSnapshot := Execution.ConfigSnapshot e;
     Execution.Priority := Execution.Priority e;
     Execution.Tags := Execution.Tags e; Execution.TagsData := Execution.TagsData e;
     Execution.CreatedAt := Execution.CreatedAt e;
     Execution.UpdatedAt := Execution.UpdatedAt e;
     Execution.DeletedAt := Execution.DeletedAt e;
     Execution.Workflow := Execution.Workflow e |}.

(** The node records of an execution (none when the field is nil). *)
Definition records_of (e : Execution.t) : list ExecutionNodeRecord.t :=
  match Execution.Nodes e with Some records => records | None => [] end.

(** [func (e *Execution) UpdateNodeExecution(nodeID string, status
    ExecutionStatus, errorMsg string)] *)
Definition UpdateNodeExecution (now : Z) (e : Execution.t) (nodeID : string)
    (status : ExecutionStatus) (errorMsg : string) : Execution.t :=
  with_Nodes_Metrics e (Some (update_nodes now (records_of e) nodeID status errorMsg))
    (Execution.Metrics e).

(** The number of records with the given status (the counters of the
    [switch] of [updateExecutionMetrics]). *)
Definition count_status (records : list ExecutionNodeRecord.t) (status : ExecutionStatus)
  : Z :=
  Z.of_nat (length (filter (fun node => ExecutionNodeRecord.Status node = status) records)).

(** [func (s *ExecutionService) updateExecutionMetrics(execution
    *models.Execution)] *)
Definition updateExecutionMetrics (now : Z) (e : Execution.t) : Execution.t :=
  let m := match Execution.Metrics e with Some m => m | None => zero_metrics end in
  let records := records_of e in
  with_Nodes_Metrics e (Execution.Nodes e)
    (Some
       {| ExecutionMetrics.TotalNodes := Z.of_nat (length records);
          ExecutionMetrics.CompletedNodes := count_status records ExecutionStatusCompleted;
          ExecutionMetrics.FailedNodes := count_status records ExecutionStatusFailed;
          ExecutionMetrics.SkippedNodes := count_status records ExecutionStatusCancelled;
          ExecutionMetrics.ExecutionTime :=
            match Execution.StartedAt e with
            | Some _ => GetDuration now e
            | None => ExecutionMetrics.ExecutionTime m
            end;
          ExecutionMetrics.QueueTime := ExecutionMetrics.QueueTime m;
          ExecutionMetrics.WaitTime := ExecutionMetrics.WaitTime m |}).

(** The first record of a node. *)
Definition record_of (records : list ExecutionNodeRecord.t) (nodeID : string)
  : option ExecutionNodeRecord.t :=
  List.find (fun node => bool_decide (ExecutionNodeRecord.NodeID node = nodeID)) records.

End execution_methods.

(** ** service/simple_scheduler.go: the table of tasks and the tick *)

Module scheduler_tasks.
Import golang simple_scheduler.

(** [func (s *SimpleScheduler) RemoveTask(workflowID string) error]: the
    error and the table of tasks after the call. *)
Definition RemoveTask (tasks : gmap string ScheduledTask) (workflowID : string)
  : option error * gmap string ScheduledTask :=
  let taskID := "task_" +:+ workflowID in
  match tasks !! taskID with
  | None => (Some ("task not found: " +:+ taskID), tasks)
  | Some _ => (None, delete taskID tasks)
  end.

(** [func (s *SimpleScheduler) checkAndTriggerTasks()]: the table after
    one tick. The tasks are held by pointer, so that a trigger changes the
    task of the table. *)
Definition checkAndTriggerTasks (now : Z) (tasks : gmap string ScheduledTask)
  : gmap string ScheduledTask :=
  (fun task => if due now task then fst (triggerTask now task) else task) <$> tasks.

(** The start of the window applied to a next run. *)
Definition clamped (schedule : WorkflowSchedule.t) (nextRun : Z) : Z :=
  match WorkflowSchedule.StartTime schedule with
  | Some startTime => if nextRun <? startTime then startTime else nextRun
  | None => nextRun
  end.

(** How [calculateNextRun] computes the next run before the window: the
    error, or the time that goes through the window. *)
Definition planned (now : Z) (schedule : WorkflowSchedule.t) : error + Z :=
  let type := WorkflowSchedule.Type_ schedule in
  if bool_decide (type = WorkflowSchedule.ScheduleTypeCron) then
    if bool_decide (WorkflowSchedule.CronExpression schedule = "")
    then inl "cron expression is empty" else inr (now + time.Hour)
  else if bool_decide (type = WorkflowSchedule.ScheduleTypeInterval) then
    if WorkflowSchedule.Interval schedule <=? 0
    then inl "interval must be positive"
    else inr (now + WorkflowSchedule.Interval schedule)
  else if bool_decide (type = WorkflowSchedule.ScheduleTypeOnce) then
    match WorkflowSchedule.ExecuteAt schedule with
    | None => inl "execute_at is required for once schedule"
    | Some executeAt => inr executeAt
    end
  else if bool_decide (type = WorkflowSchedule.ScheduleTypeManual) then inr time.zero
  else inl ("unsupported schedule type: " +:+ type).

End scheduler_tasks.

(** ** service/workflow_service.go: the schedule and the status changes *)

Module workflow_service_status.
Import golang models state_manager workflow_service.

(** [func (s *WorkflowService) validateSchedule(schedule
    *models.WorkflowSchedule) error] *)
Definition validateSchedule (now : Z) (schedule : option WorkflowSchedule.t)
  : option error :=
  match schedule with
  | None => Some "schedule cannot be nil"
  | Some schedule =>
      let type := WorkflowSchedule.Type_ schedule in
      let checked :=
        if bool_decide (type = WorkflowSchedule.ScheduleTypeCron) then
          if bool_decide (WorkflowSchedule.CronExpression schedule = "")
          then Some "cron_expression is required for cron schedule" else None
        else if bool_decide (type = WorkflowSchedule.ScheduleTypeInterval) then
          if WorkflowSchedule.Interval schedule <=? 0
          then Some "interval must be positive for interval schedule" else None
        else if bool_decide (type = WorkflowSchedule.ScheduleTypeOnce) then
          match WorkflowSchedule.ExecuteAt schedule with
          | None => Some "execute_at is required for once schedule"
          | Some executeAt =>
              if executeAt <? now then Some "execute_at must be in the future" else None
          end
        else if bool_decide (type = WorkflowSchedule.ScheduleTypeManual) then None
        else Some ("unsupported schedule type: " +:+ type) in
      match checked with
      | Some err => Some err
      | None =>
          if WorkflowSchedule.MaxInstances schedule <=? 0
          then Some "max_instances must be positive"
          else
            match WorkflowSchedule.StartTime schedule, WorkflowSchedule.EndTime schedule with
            | Some startTime, Some endTime =>
                if endTime <? startTime then Some "end_time must be after start_time"
                else None
            | _, _ => None
            end
      end
  end.

(** [unscheduleWorkflow]: returns nil. *)
Definition unscheduleWorkflow (workflow : Workflow.t) : option error := None.

(** [DeactivateWorkflow]: the error, the state manager and the database
    after the call. *)
Definition DeactivateWorkflow (now : Z) (sm : StateManager) (db : gmap string Workflow.t)
    (id : string) : option error * StateManager * gmap string Workflow.t :=
  match GetWorkflow db id with
  | (_, Some err) => (Some err, sm, db)
  | (None, None) => (Some ("workflow not found: " +:+ id), sm, db)
  | (Some workflow, None) =>
      match ValidateWorkflowTransition sm (Workflow.Status workflow)
              WorkflowStatusInactive with
      | Some err => (Some (wrap "invalid state transition" err), sm, db)
      | None =>
          match unscheduleWorkflow workflow with
          | Some err => (Some (wrap "failed to unschedule workflow" err), sm, db)
          | None =>
              let oldStatus := Workflow.Status workflow in
              let workflow := Workflow.with_Status workflow WorkflowStatusInactive now in
              let db := <[Workflow.ID workflow := workflow]> db in
              let '(_, sm) :=
                RecordWorkflowTransition now sm id oldStatus WorkflowStatusInactive
                  "manually deactivated" "system" in
              (None, sm, db)
          end
      end
  end.

(** [PauseWorkflow] *)
Definition PauseWorkflow (now : Z) (sm : StateManager) (db : gmap string Workflow.t)
    (id : string) : option error * StateManager * gmap string Workflow.t :=
  match GetWorkflow db id with
  | (_, Some err) => (Some err, sm, db)
  | (None, None) => (Some ("workflow not found: " +:+ id), sm, db)
  | (Some workflow, None) =>
      match ValidateWorkflowTransition sm (Workflow.Status workflow)
              WorkflowStatusPaused with
      | Some err => (Some (wrap "invalid state transition" err), sm, db)
      | None =>
          match unscheduleWorkflow workflow with
          | Some err => (Some (wrap "failed to unschedule workflow" err), sm, db)
          | None =>
              let oldStatus := Workflow.Status workflow in
              let workflow := Workflow.with_Status workflow WorkflowStatusPaused now in
              let db := <[Workflow.ID workflow := workflow]> db in
              let '(_, sm) :=
                RecordWorkflowTransition now sm id oldStatus WorkflowStatusPaused
                  "manually paused" "system" in
              (None, sm, db)
          end
      end
  end.

(** [ResumeWorkflow] *)
Definition ResumeWorkflow (now : Z) (sm : StateManager) (db : gmap string Workflow.t)
    (id : string) : option error * StateManager * gmap string Workflow.t :=
  match GetWorkflow db id with
  | (_, Some err) => (Some err, sm, db)
  | (None, None) => (Some ("workflow not found: " +:+ id), sm, db)
  | (Some workflow, None) =>
      match ValidateWorkflowTransition sm (Workflow.Status workflow) WorkflowStatusActive with
      | Some err => (Some (wrap "invalid state transition" err), sm, db)
      | None =>
          let oldStatus := Workflow.Status workflow in
          let workflow := Workflow.with_Status workflow WorkflowStatusActive now in
          let db := <[Workflow.ID workflow := workflow]> db in
          let '(_, sm) :=
            RecordWorkflowTransition now sm id oldStatus WorkflowStatusActive
              "manually resumed" "system" in
          let scheduled :=
            if Workflow.CanExecute workflow then scheduleWorkflow workflow else None in
          match scheduled with
          | Some err => (Some (wrap "failed to schedule workflow" err), sm, db)
          | None => (None, sm, db)
          end
      end
  end.

(** The workflow with its schedule and update time replaced. *)
Definition with_Schedule (w : Workflow.t) (schedule : option WorkflowSchedule.t)
    (updatedAt : Z) : Workflow.t :=
  {| Workflow.ID := Workflow.ID w; Workflow.Name := Workflow.Name w;
     Workflow.Type_ := Workflow.Type_ w; Workflow.Description := Workflow.Description w;
     Workflow.Version := Workflow.Version w; Workflow.NodesData := Workflow.NodesData w;
     Workflow.EdgesData := Workflow.EdgesData w;
     Workflow.Nodes := Workflow.Nodes w; Workflow.Edges := Workflow.Edges w;
     Workflow.ScheduleData := Workflow.ScheduleData w;
     Workflow.Schedule := schedule;
     Workflow.ConfigData := Workflow.ConfigData w; Workflow.Config := Workflow.Config w;
     Workflow.Status := Workflow.Status w;
     Workflow.StatisticsData := Workflow.StatisticsData w;
     Workflow.Statistics := Workflow.Statistics w;
     Workflow.Tags := Workflow.Tags w; Workflow.TagsList := Workflow.TagsList w;
     Workflow.Priority := Workflow.Priority w;
     Workflow.CreatedBy := Workflow.CreatedBy w; Workflow.UpdatedBy := Workflow.UpdatedBy w;
     Workflow.CreatedAt := Workflow.CreatedAt w;
     Workflow.UpdatedAt := updatedAt; Workflow.DeletedAt := Workflow.DeletedAt w |}.

(** One of the four calls of the service that change the status of a
    workflow. *)
Inductive status_call := Activate | Deactivate | Pause | Resume.

(** The status that the call asks for. *)
Definition target (call : status_call) : WorkflowStatus :=
  match call with
  | Activate | Resume => WorkflowStatusActive
  | Deactivate => WorkflowStatusInactive
  | Pause => WorkflowStatusPaused
  end.

(** The reason that the call records. *)
Definition reason (call : status_call) : string :=
  match call with
  | Activate => "manually activated"
  | Deactivate => "manually deactivated"
  | Pause => "manually paused"
  | Resume => "manually resumed"
  end.

Definition run (call : status_call) (now : Z) (sm : StateManager)
    (db : gmap string Workflow.t) (id : string)
  : option error * StateManager * gmap string Workflow.t :=
  match call with
  | Activate => ActivateWorkflow now sm db id
  | Deactivate => DeactivateWorkflow now sm db id
  | Pause => PauseWorkflow now sm db id
  | Resume => ResumeWorkflow now sm db id
  end.

(** The status of a stored workflow as [GetWorkflow] reads it. *)
Definition read_status (w : Workflow.t) : WorkflowStatus :=
  if bool_decide (Workflow.Status w = "") then WorkflowStatusInactive
  else Workflow.Status w.

End workflow_service_status.

(** ** Further examples *)

Module more_examples.
Import golang models examples.

(** An active workflow [wf1] without nodes that carries the given
    schedule. *)
Definition scheduled_workflow (schedule : WorkflowSchedule.t) : Workflow.t :=
  workflow_service_status.with_Schedule
    (plain_workflow "wf1" "scheduled" "active" None None "" 0) (Some schedule) 0.

(** A schedule of type once for the given time, without window. *)
Definition once_schedule (executeAt : Z) : WorkflowSchedule.t :=
  {| WorkflowSchedule.Type_ := WorkflowSchedule.ScheduleTypeOnce;
     WorkflowSchedule.CronExpression := ""; WorkflowSchedule.Timezone := "UTC";
     WorkflowSchedule.Interval := 0; WorkflowSchedule.ExecuteAt := Some executeAt;
     WorkflowSchedule.Enabled := true;
     WorkflowSchedule.StartTime := None; WorkflowSchedule.EndTime := None;
     WorkflowSchedule.MaxInstances := 1; WorkflowSchedule.MissedRunPolicy := "skip" |}.

(** The context of an execution of a workflow with the edge [a -> b], after
    node [a] has completed. *)
Definition context_after_a : workflow_engine.ExecutionContext :=
  {| workflow_engine.ExecutionID := "ex1"; workflow_engine.WorkflowID := "wf2";
     workflow_engine.Workflow :=
       plain_workflow "wf2" "chain" "active"
         (Some (<["a" := plain_node "a"]> (<["b" := plain_node "b"]> ∅)))
         (Some [ plain_edge "e1" "a" "b" "normal" ]) "" 0;
     workflow_engine.Execution := plain_execution "ex1" "running" 0 3;
     workflow_engine.Variables := ∅; workflow_engine.NodeStates := ∅;
     workflow_engine.NodeDependencies := ∅;
     workflow_engine.CompletedNodes := {[ "a" := true ]};
     workflow_engine.ExecutingNodes := ∅;
     workflow_engine.cancel := true; workflow_engine.ctx_done := false |}.

End more_examples.

(** ** service/workflow_engine.go: the dependency graph and the activation *)

Module engine_graph.
Import golang models workflow_engine.

(** The context with its node states and dependencies replaced. *)
Definition with_graph (c : ExecutionContext) (states : gmap string ExecutionStatus)
    (dependencies : gmap string (list string)) : ExecutionContext :=
  {| ExecutionID := ExecutionID c; WorkflowID := WorkflowID c; Workflow := Workflow c;
     Execution := Execution c; Variables := Variables c; NodeStates := states;
     NodeDependencies := dependencies; CompletedNodes := CompletedNodes c;
     ExecutingNodes := ExecutingNodes c; cancel := cancel c; ctx_done := ctx_done c |}.

(** [execCtx.Workflow.Nodes] as the [range] and the look-ups see it: a nil
    map has no entry. *)
Definition nodes_of (execCtx : ExecutionContext) : gmap string Node.t :=
  match Workflow.Nodes (Workflow execCtx) with Some nodes => nodes | None => ∅ end.

(** The body of the loop over the edges in [buildDependencyGraph]. *)
Definition add_dependency (nodes : gmap string Node.t)
    (dependencies : gmap string (list string)) (edge : Edge.t)
  : gmap string (list string) :=
  if negb (Edge.IsEnabled edge) then dependencies
  else
    let toNodeID := Edge.ToNodeID edge in
    let fromNodeID := Edge.FromNodeID edge in
    match nodes !! toNodeID with
    | None => dependencies
    | Some _ =>
        match nodes !! fromNodeID with
        | None => dependencies
        | Some _ =>
            <[toNodeID := (default [] (dependencies !! toNodeID) ++ [fromNodeID])%list]>
              dependencies
        end
    end.

(** [func (e *WorkflowEngine) buildDependencyGraph(execCtx
    *ExecutionContext) error]: the context after the call; the error
    returned is always nil. *)
Definition buildDependencyGraph (execCtx : ExecutionContext) : ExecutionContext :=
  let nodes := nodes_of execCtx in
  let dependencies := ((fun _ => []) <$> nodes) ∪ NodeDependencies execCtx in
  let states := ((fun _ => ExecutionStatusPending) <$> nodes) ∪ NodeStates execCtx in
  let dependencies :=
    match Workflow.Edges (Workflow execCtx) with
    | Some edges => fold_left (add_dependency nodes) edges dependencies
    | None => dependencies
    end in
  with_graph execCtx states dependencies.

(** [func (e *WorkflowEngine) findStartNodes(execCtx *ExecutionContext)
    []string]: the node ids collected. The slice is filled in the order of
    a [range] over a map, which Go leaves open; the caller uses its length
    and queues each element. *)
Definition findStartNodes (execCtx : ExecutionContext) : gset string :=
  dom (filter (fun entry => length (snd entry) = 0%nat) (NodeDependencies execCtx)).

(** [func (e *WorkflowEngine) executeWorkflowInternal(execCtx
    *ExecutionContext) error], up to the point where the start nodes are
    queued: the error returned before, or the context and the start nodes.
    The traversal that follows is concurrent. *)
Definition executeWorkflowInternal (execCtx : ExecutionContext)
  : error + ExecutionContext * gset string :=
  match Workflow.Nodes (Workflow execCtx) with
  | None => inl "workflow has no nodes"
  | Some nodes =>
      if bool_decide (size nodes = 0%nat) then inl "workflow has no nodes"
      else
        let execCtx := buildDependencyGraph execCtx in
        let startNodes := findStartNodes execCtx in
        if bool_decide (size startNodes = 0%nat)
        then inl "no start nodes found in workflow"
        else inr (execCtx, startNodes)
  end.

(** [func (e *WorkflowEngine) areAllDependenciesCompleted(execCtx
    *ExecutionContext, nodeID string) bool] *)
Definition areAllDependenciesCompleted (execCtx : ExecutionContext) (nodeID : string)
  : bool :=
  forallb (fun depNodeID => default false (CompletedNodes execCtx !! depNodeID))
          (default [] (NodeDependencies execCtx !! nodeID)).

(** [func (e *WorkflowEngine) evaluateEdgeCondition(execCtx
    *ExecutionContext, edge *models.Edge) (bool, error)] *)
Definition evaluateEdgeCondition (execCtx : ExecutionContext) (edge : Edge.t)
  : bool * option error :=
  if negb (Edge.IsConditional edge) then (true, None)
  else Edge.EvaluateCondition edge (Variables execCtx).

(** The body of the loop of [activateDownstreamNodes]: whether the target
    of the edge is sent to the queue of the ready nodes. *)
Definition activates (execCtx : ExecutionContext) (completedNodeID : string)
    (edge : Edge.t) : bool :=
  if bool_decide (Edge.FromNodeID edge <> completedNodeID) || negb (Edge.IsEnabled edge)
  then false
  else
    let met :=
      if Edge.IsConditional edge then
        match evaluateEdgeCondition execCtx edge with
        | (_, Some _) => false
        | (shouldExecute, None) => shouldExecute
        end
      else true in
    met && areAllDependenciesCompleted execCtx (Edge.ToNodeID edge).

(** [func (e *WorkflowEngine) activateDownstreamNodes(execCtx
    *ExecutionContext, completedNodeID string)]: the node ids that the
    loop sends to the queue, in its order, for a context that is not
    cancelled meanwhile (a send to a full queue is dropped). *)
Definition activateDownstreamNodes (execCtx : ExecutionContext) (completedNodeID : string)
  : list string :=
  match Workflow.Edges (Workflow execCtx) with
  | None => []
  | Some edges =>
      Edge.ToNodeID <$> List.filter (activates execCtx completedNodeID) edges
  end.

(** The sources of the enabled edges into [nodeID] whose two ends are
    nodes, in the order of the edges. *)
Definition enabled_sources (nodes : gmap string Node.t) (edges : list Edge.t)
    (nodeID : string) : list string :=
  Edge.FromNodeID <$>
    List.filter (fun edge =>
                   Edge.IsEnabled edge && bool_decide (Edge.ToNodeID edge = nodeID)
                   && bool_decide (is_Some (nodes !! Edge.FromNodeID edge)))
                edges.

(** [GetActiveExecutions]: the ids of the registered executions. *)
Definition GetActiveExecutions (e : WorkflowEngine) : gset string := dom (executions e).

(** The engine with its status replaced. *)
Definition with_status (e : WorkflowEngine) (s : EngineStatus) : WorkflowEngine :=
  {| status := s; executions := executions e; maxConcurrency := maxConcurrency e |}.

(** [func (e *WorkflowEngine) Start(ctx context.Context) error] *)
Definition Start (e : WorkflowEngine) : option error * WorkflowEngine :=
  match status e with
  | EngineStatusRunning => (Some "engine is already running", e)
  | _ => (None, with_status e EngineStatusRunning)
  end.

(** [func (e *WorkflowEngine) Stop() error]: every registered context
    that has a cancel function is cancelled. *)
Definition Stop (e : WorkflowEngine) : option error * WorkflowEngine :=
  match status e with
  | EngineStatusRunning =>
      (None,
       {| status := EngineStatusStopped;
          executions :=
            (fun execCtx => if cancel execCtx then cancelled execCtx else execCtx)
              <$> executions e;
          maxConcurrency := maxConcurrency e |})
  | _ => (Some "engine is not running", e)
  end.

End engine_graph.

(** ** service/workflow_engine.go: the parts of the input of a node *)

Module engine_variables.
Import golang models workflow_engine.

(** [node.Config.InputConfig], nil when either pointer is. *)
Definition input_config (node : Node.t) : option InputConfig.t :=
  match Node.Config node with
  | Some config => NodeConfig.InputConfig config
  | None => None
  end.

(** The value that the mapping of [inputConfig] gives to [key]: that of
    the source variable, if the key is mapped and the source is bound. *)
Definition mapped (execCtx : ExecutionContext) (inputConfig : InputConfig.t)
    (key : string) : option Value :=
  match InputConfig.Mapping inputConfig with
  | Some mapping =>
      match mapping !! key with
      | Some sourceKey => Variables execCtx !! sourceKey
      | None => None
      end
  | None => None
  end.

(** The default that [inputConfig] has for [key]. *)
Definition default_of (inputConfig : InputConfig.t) (key : string) : option Value :=
  match InputConfig.Defaults inputConfig with
  | Some defaults => defaults !! key
  | None => None
  end.

End engine_variables.

(** ** service/execution_service.go: the life cycle of a stored execution

    A call works on the state manager, the engine, the stored executions
    and the stored workflows. [None] is a run-time panic. *)

Module execution_service_life_cycle.
Import golang models state_manager execution_methods.

Record Service := {
  state : execution_service.State;
  workflows : gmap string Workflow.t
}.

Definition with_db (s : Service) (db : gmap string Execution.t) : Service :=
  {| state := {| execution_service.sm := execution_service.sm (state s);
                 execution_service.engine := execution_service.engine (state s);
                 execution_service.db := db |};
     workflows := workflows s |}.

(** [func (s *WorkflowService) UpdateWorkflowStatistics(id string,
    execTime time.Duration, success bool) error]: the error and the stored
    workflows after the call. *)
Definition UpdateWorkflowStatistics (now : Z) (db : gmap string Workflow.t) (id : string)
    (execTime : Z) (success : bool) : option (option error * gmap string Workflow.t) :=
  match workflow_service.GetWorkflow db id with
  | (_, Some err) => Some (Some err, db)
  | (None, None) => Some (Some ("workflow not found: " +:+ id), db)
  | (Some workflow, None) =>
      match Workflow.UpdateStatistics now workflow execTime success with
      | None => None
      | Some workflow => Some (None, <[Workflow.ID workflow := workflow]> db)
      end
  end.

(** [func (s *ExecutionService) StartExecution(id string) error] *)
Definition StartExecution (now : Z) (s : Service) (id : string) : option error * Service :=
  match execution_service.GetExecution (execution_service.db (state s)) id with
  | (_, Some err) => (Some err, s)
  | (None, None) => (Some ("execution not found: " +:+ id), s)
  | (Some execution, None) =>
      match Start now execution with
      | (Some err, _) => (Some (wrap "failed to start execution" err), s)
      | (None, execution) =>
          match execution_service.UpdateExecution now
                  (execution_service.db (state s)) execution with
          | (Some err, _) => (Some err, s)
          | (None, db) =>
              let execution := Execution.with_UpdatedAt execution now in
              let s := with_db s db in
              match execution_service.engine (state s) with
              | None => (None, s)
              | Some engine =>
                  match workflow_service.GetWorkflow (workflows s)
                          (Execution.WorkflowID execution) with
                  | (_, Some err) => (Some (wrap "failed to get workflow" err), s)
                  | (None, None) =>
                      (Some (wrap "failed to get workflow"
                               ("workflow not found: " +:+ Execution.WorkflowID execution)),
                       s)
                  | (Some workflow, None) =>
                      match workflow_engine.ExecuteWorkflow engine workflow execution with
                      | (Some err, _) =>
                          (Some (wrap "failed to start workflow execution" err), s)
                      | (None, engine) =>
                          (None,
                           {| state :=
                                {| execution_service.sm := execution_service.sm (state s);
                                   execution_service.engine := Some engine;
                                   execution_service.db := execution_service.db (state s) |};
                              workflows := workflows s |})
                      end
                  end
              end
          end
      end
  end.

(** The end that [CompleteExecution] and [FailExecution] share, after the
    model method has succeeded: the transition is recorded, the statistics
    of the workflow are updated if the execution has a start time (an
    error of either is printed and dropped), and the execution is saved. *)
Definition finished (now : Z) (s : Service) (id : string)
    (oldStatus newStatus : ExecutionStatus) (execution : Execution.t) (reason : string)
    (success : bool) : option (option error * Service) :=
  let '(_, sm) :=
    RecordExecutionTransition now (execution_service.sm (state s)) id oldStatus
      newStatus reason "system" in
  let updated :=
    match Execution.StartedAt execution with
    | Some _ =>
        match UpdateWorkflowStatistics now (workflows s) (Execution.WorkflowID execution)
                (GetDuration now execution) success with
        | None => None
        | Some (_, workflows) => Some workflows
        end
    | None => Some (workflows s)
    end in
  match updated with
  | None => None
  | Some workflows =>
      let '(err, db) :=
        execution_service.UpdateExecution now (execution_service.db (state s)) execution in
      Some (err,
            {| state := {| execution_service.sm := sm;
                           execution_service.engine := execution_service.engine (state s);
                           execution_service.db := db |};
               workflows := workflows |})
  end.

(** [func (s *ExecutionService) CompleteExecution(id string) error] *)
Definition CompleteExecution (now : Z) (s : Service) (id : string)
  : option (option error * Service) :=
  match execution_service.GetExecution (execution_service.db (state s)) id with
  | (_, Some err) => Some (Some err, s)
  | (None, None) => Some (Some ("execution not found: " +:+ id), s)
  | (Some execution, None) =>
      match ValidateExecutionTransition (execution_service.sm (state s))
              (Execution.Status execution) ExecutionStatusCompleted with
      | Some err => Some (Some (wrap "invalid state transition" err), s)
      | None =>
          let oldStatus := Execution.Status execution in
          match Complete now execution with
          | None => None
          | Some (Some err, _) => Some (Some (wrap "failed to complete execution" err), s)
          | Some (None, execution) =>
              finished now s id oldStatus ExecutionStatusCompleted execution
                "execution completed" true
          end
      end
  end.

(** [func (s *ExecutionService) FailExecution(id string, errorMsg string,
    errorCode string) error] *)
Definition FailExecution (now : Z) (s : Service) (id errorMsg errorCode : string)
  : option (option error * Service) :=
  match execution_service.GetExecution (execution_service.db (state s)) id with
  | (_, Some err) => Some (Some err, s)
  | (None, None) => Some (Some ("execution not found: " +:+ id), s)
  | (Some execution, None) =>
      match ValidateExecutionTransition (execution_service.sm (state s))
              (Execution.Status execution) ExecutionStatusFailed with
      | Some err => Some (Some (wrap "invalid state transition" err), s)
      | None =>
          let oldStatus := Execution.Status execution in
          match Fail now execution errorMsg errorCode with
          | None => None
          | Some (Some err, _) => Some (Some (wrap "failed to fail execution" err), s)
          | Some (None, execution) =>
              finished now s id oldStatus ExecutionStatusFailed execution
                ("execution failed: " +:+ errorMsg) false
          end
      end
  end.

(** The statistics of a stored workflow (zero when it has none). *)
Definition statistics_of (workflows : gmap string Workflow.t) (id : string)
  : WorkflowStatistics.t :=
  match workflows !! id with
  | Some workflow =>
      match Workflow.Statistics workflow with
      | Some statistics => statistics
      | None => WorkflowStatistics.zero
      end
  | None => WorkflowStatistics.zero
  end.

End execution_service_life_cycle.

(** ** Examples of the service *)

Module service_examples.
Import golang models examples.

(** A service with a stopped engine, the stored pending execution [ex1] of
    the stored workflow [wf1], and a State Manager without history. *)
Definition service_with_ex1 : execution_service_life_cycle.Service :=
  {| execution_service_life_cycle.state :=
       {| execution_service.sm := state_manager.NewStateManager;
          execution_service.engine := Some workflow_engine.NewWorkflowEngine;
          execution_service.db := {[ "ex1" := plain_execution "ex1" "pending" 0 3 ]} |};
     execution_service_life_cycle.workflows := {[ "wf1" := cyclic_workflow ]} |}.

(** The execution [ex1] of workflow [wf1] as [StartExecution] leaves it:
    running since time 10, with metrics. *)
Definition running_ex1 : Execution.t :=
  execution_methods.update (plain_execution "ex1" "running" 0 3) "running"
    (Some 10) None (Some execution_methods.zero_metrics) "" "".

(** A service without engine that stores [running_ex1] and its
    workflow. *)
Definition service_with_running_ex1 : execution_service_life_cycle.Service :=
  {| execution_service_life_cycle.state :=
       {| execution_service.sm := state_manager.NewStateManager;
          execution_service.engine := None;
          execution_service.db := {[ "ex1" := running_ex1 ]} |};
     execution_service_life_cycle.workflows := {[ "wf1" := cyclic_workflow ]} |}.

End service_examples.

(* ================================================================== *)
(** * Properties *)
(* ================================================================== *)

(** ** The transition rules of the State Manager *)

Section TransitionRules.
Import models state_manager.

Lemma lookup_initial_workflowTransitions (from : string) :
  initial_workflowTransitions !! from =
    if bool_decide (from = "inactive") then Some ["active"; "disabled"]
    else if bool_decide (from = "active") then Some ["inactive"; "paused"; "disabled"]
    else if bool_decide (from = "paused") then Some ["active"; "inactive"; "disabled"]
    else if bool_decide (from = "disabled") then Some ["inactive"]
    else None.
Proof.
  unfold initial_workflowTransitions, WorkflowStatusInactive, WorkflowStatusActive,
    WorkflowStatusPaused, WorkflowStatusDisabled.
  repeat case_bool_decide; simplify_map_eq; reflexivity.
Qed.

Lemma lookup_initial_executionTransitions (from : string) :
  initial_executionTransitions !! from =
    if bool_decide (from = "pending") then Some ["running"; "cancelled"]
    else if bool_decide (from = "running") then Some ["completed"; "failed"; "cancelled"]
    else if bool_decide (from = "failed") then Some ["pending"]
    else if bool_decide (from = "completed") then Some []
    else if bool_decide (from = "cancelled") then Some []
    else None.
Proof.
  unfold initial_executionTransitions, ExecutionStatusPending, ExecutionStatusRunning,
    ExecutionStatusFailed, ExecutionStatusCompleted, ExecutionStatusCancelled.
  repeat case_bool_decide; simplify_map_eq; reflexivity.
Qed.

Lemma range_allowed_In (allowedStates : list string) (to : string) :
  range_allowed allowedStates to = true <-> In to allowedStates.
Proof.
  induction allowedStates as [|a rest IH]; simpl.
  - split; [discriminate | tauto].
  - case_bool_decide as Heq.
    + split; auto.
    + rewrite IH. split; [auto | intros [H|H]; [contradiction | exact H]].
Qed.

End TransitionRules.

Section TransitionTables.
Import models state_manager.

Local Ltac pair_cases H :=
  simpl in H;
  repeat match type of H with
         | _ \/ _ => destruct H as [H|H]
         | (_, _) = (_, _) => injection H as <- <-
         | False => destruct H
         end.

Lemma ValidateWorkflowTransition_ok_iff (from to : string) :
  ValidateWorkflowTransition NewStateManager from to = None
  <-> In (from, to) spec_workflow_table.
Proof.
  unfold ValidateWorkflowTransition; simpl.
  rewrite lookup_initial_workflowTransitions.
  split.
  - repeat case_bool_decide; subst; try discriminate;
      (destruct (range_allowed _ to) eqn:E; [|discriminate]);
      apply range_allowed_In in E; intros _; pair_cases E; subst; simpl; tauto.
  - intros H; pair_cases H; reflexivity.
Qed.

Lemma ValidateExecutionTransition_ok_iff (from to : string) :
  ValidateExecutionTransition NewStateManager from to = None
  <-> In (from, to) spec_execution_table.
Proof.
  unfold ValidateExecutionTransition; simpl.
  rewrite lookup_initial_executionTransitions.
  split.
  - repeat case_bool_decide; subst; try discriminate;
      (destruct (range_allowed _ to) eqn:E; [|discriminate]);
      apply range_allowed_In in E; intros _; pair_cases E; subst; simpl; tauto.
  - intros H; pair_cases H; reflexivity.
Qed.

Lemma ValidateWorkflowTransition_unknown_from (from to : string) :
  ~ In from ["inactive"; "active"; "paused"; "disabled"] ->
  ValidateWorkflowTransition NewStateManager from to
  = Some ("invalid from status: " +:+ from).
Proof.
  intros Hn. unfold ValidateWorkflowTransition; simpl.
  rewrite lookup_initial_workflowTransitions.
  repeat case_bool_decide; subst; try reflexivity; exfalso; apply Hn; simpl; tauto.
Qed.

Lemma ValidateExecutionTransition_outside (from to : string) :
  ~ In from ["pending"; "running"; "failed"] ->
  ValidateExecutionTransition NewStateManager from to
  = Some (if bool_decide (from = "completed") || bool_decide (from = "cancelled")
          then "invalid execution state transition from " +:+ from +:+ " to " +:+ to
          else "invalid from status: " +:+ from).
Proof.
  intros Hn. unfold ValidateExecutionTransition; simpl.
  rewrite lookup_initial_executionTransitions.
  repeat case_bool_decide; subst; try reflexivity; exfalso; apply Hn; simpl; tauto.
Qed.

(** C1. The State Manager accepts a workflow transition exactly when the
    pair is in the table inactive -> {active, disabled}, active ->
    {inactive, paused, disabled}, paused -> {active, inactive, disabled},
    disabled -> {inactive}, and an execution transition exactly when the
    pair is in pending -> {running, cancelled}, running -> {completed,
    failed, cancelled}, failed -> {pending}.  For a from-status outside
    the tables the validation returns an error value (it is a total
    function: there is no panic); for the execution statuses timeout and
    archived, and for every unknown string, the error is
    "invalid from status". *)
Theorem C1_transition_tables :
  (forall from to : string,
      ValidateWorkflowTransition NewStateManager from to = None
      <-> In (from, to) spec_workflow_table)
  /\ (forall from to : string,
      ValidateExecutionTransition NewStateManager from to = None
      <-> In (from, to) spec_execution_table)
  /\ (forall from to : string,
      ~ In from ["inactive"; "active"; "paused"; "disabled"] ->
      ValidateWorkflowTransition NewStateManager from to
      = Some ("invalid from status: " +:+ from))
  /\ (forall from to : string,
      ~ In from ["pending"; "running"; "failed"] ->
      exists e, ValidateExecutionTransition NewStateManager from to = Some e)
  /\ (forall to : string,
      ValidateExecutionTransition NewStateManager ExecutionStatusTimeout to
      = Some "invalid from status: timeout"
      /\ ValidateExecutionTransition NewStateManager ExecutionStatusArchived to
         = Some "invalid from status: archived").
Proof.
  split; [exact ValidateWorkflowTransition_ok_iff|].
  split; [exact ValidateExecutionTransition_ok_iff|].
  split; [exact ValidateWorkflowTransition_unknown_from|].
  split.
  - intros from to Hn. eexists. apply ValidateExecutionTransition_outside, Hn.
  - intros to. split; reflexivity.
Qed.

Lemma C1_transition_tables_witness :
  ValidateWorkflowTransition NewStateManager "archived" "active"
  = Some "invalid from status: archived"
  /\ (exists e, ValidateExecutionTransition NewStateManager "completed" "running" = Some e)
  /\ ValidateExecutionTransition NewStateManager "failed" "pending" = None.
Proof.
  destruct C1_transition_tables as (_ & Hexec & Hwf & Hout & _).
  split; [|split].
  - apply (Hwf "archived" "active"). simpl. intuition discriminate.
  - apply (Hout "completed" "running"). simpl. intuition discriminate.
  - apply (Hexec "failed" "pending"). simpl. tauto.
Defined.
End TransitionTables.

(** ** Activation of a workflow *)

Section Activation.
Import golang models state_manager workflow_service spec examples.

Lemma with_Status_twice (w : Workflow.t) (s1 s2 : string) (t1 t2 : Z) :
  Workflow.with_Status (Workflow.with_Status w s1 t1) s2 t2 = Workflow.with_Status w s2 t2.
Proof. reflexivity. Qed.


Lemma ValidateWorkflowTransition_tables (sm : StateManager) (from to : string) :
  workflowTransitions sm = initial_workflowTransitions ->
  ValidateWorkflowTransition sm from to = ValidateWorkflowTransition NewStateManager from to.
Proof. intros H. unfold ValidateWorkflowTransition. rewrite H. reflexivity. Qed.

Lemma to_active_allowed (from : string) :
  ValidateWorkflowTransition NewStateManager from WorkflowStatusActive = None
  <-> from = "inactive" \/ from = "paused".
Proof.
  rewrite ValidateWorkflowTransition_ok_iff. unfold spec_workflow_table, WorkflowStatusActive.
  simpl. split.
  - intros H. repeat (destruct H as [H|H]); try contradiction;
      inversion H; subst; tauto.
  - intros [->| ->]; tauto.
Qed.



End Activation.

(** ** The condition language of conditional edges *)

Section EdgeConditions.
Import golang spec examples.

Lemma EvaluateCondition_enabled_simple (e : Edge.t) (expr : string)
    (context : gmap string Value) :
  enabled_simple_condition e expr ->
  Edge.EvaluateCondition e context = Edge.evaluateSimpleCondition expr context.
Proof.
  intros (Hty & config & condition & Hc & Hcond & Hen & Hsimple & Hexpr).
  unfold Edge.EvaluateCondition, Edge.IsConditional.
  rewrite Hty, Hc, Hcond, Hen, Hsimple, Hexpr. reflexivity.
Qed.

Lemma three_fields_not_literal (expr field op value : string) :
  Fields expr = [field; op; value] -> expr <> "true" /\ expr <> "false".
Proof.
  intros H; split; intros ->; vm_compute in H; discriminate.
Qed.

Lemma evaluateSimpleCondition_fields (expr field op value : string)
    (context : gmap string Value) :
  Fields expr = [field; op; value] ->
  Edge.evaluateSimpleCondition expr context =
    match context !! field with
    | None => (false, None)
    | Some contextValue =>
        match contextValue with
        | VInt n =>
            match Sscanf_d value with
            | None => (false, Some ("invalid target value: " +:+ value))
            | Some targetNum =>
                match Edge.compare op n targetNum with
                | Some b => (b, None)
                | None => (false, Some ("unsupported operator: " +:+ op))
                end
            end
        | VFloat64 f =>
            match Sscanf_d value with
            | None => (false, Some ("invalid target value: " +:+ value))
            | Some targetNum =>
                match Edge.compare op (int_of_float64 f) targetNum with
                | Some b => (b, None)
                | None => (false, Some ("unsupported operator: " +:+ op))
                end
            end
        | _ => (false, Some "cannot compare non-numeric value")
        end
    end.
Proof.
  intros HF. destruct (three_fields_not_literal _ _ _ _ HF) as [Ht Hf].
  unfold Edge.evaluateSimpleCondition.
  rewrite !bool_decide_eq_false_2 by assumption.
  rewrite HF. destruct (context !! field) as [[]|]; reflexivity.
Qed.

Lemma compare_holds (op : string) (n target : Z) :
  In op comparison_operators ->
  exists b, Edge.compare op n target = Some b /\ (b = true <-> comparison_holds op n target).
Proof.
  unfold comparison_operators, comparison_holds. simpl.
  intros H.
  repeat (destruct H as [<-|H]); try contradiction.
  - exists (target <? n). split; [reflexivity|]. rewrite Z.ltb_lt.
    split; [intros; left; split; [reflexivity|lia]|].
    intros H; repeat (destruct H as [H|H]); destruct H as [H1 H2];
      try discriminate; try lia; try (destruct H1; discriminate).
  - exists (target <=? n). split; [reflexivity|]. rewrite Z.leb_le.
    split; [intros; right; left; split; [reflexivity|lia]|].
    intros H; repeat (destruct H as [H|H]); destruct H as [H1 H2];
      try discriminate; try lia; try (destruct H1; discriminate).
  - exists (n <? target). split; [reflexivity|]. rewrite Z.ltb_lt.
    split; [intros; do 2 right; left; split; [reflexivity|lia]|].
    intros H; repeat (destruct H as [H|H]); destruct H as [H1 H2];
      try discriminate; try lia; try (destruct H1; discriminate).
  - exists (n <=? target). split; [reflexivity|]. rewrite Z.leb_le.
    split; [intros; do 3 right; left; split; [reflexivity|lia]|].
    intros H; repeat (destruct H as [H|H]); destruct H as [H1 H2];
      try discriminate; try lia; try (destruct H1; discriminate).
  - exists (n =? target). split; [reflexivity|]. rewrite Z.eqb_eq.
    split; [intros; do 4 right; left; split; [left; reflexivity|lia]|].
    intros H; repeat (destruct H as [H|H]); destruct H as [H1 H2];
      try discriminate; try lia.
  - exists (n =? target). split; [reflexivity|]. rewrite Z.eqb_eq.
    split; [intros; do 4 right; left; split; [right; reflexivity|lia]|].
    intros H; repeat (destruct H as [H|H]); destruct H as [H1 H2];
      try discriminate; try lia.
  - exists (negb (n =? target)). split; [reflexivity|].
    rewrite negb_true_iff, Z.eqb_neq.
    split; [intros; do 5 right; split; [reflexivity|lia]|].
    intros H; repeat (destruct H as [H|H]); destruct H as [H1 H2];
      try discriminate; try lia; try (destruct H1; discriminate).
Qed.

End EdgeConditions.

Section ConditionLanguage.
Import golang spec examples.

(** The integer part of a finite [float64]: the value [(+/-) m * 2^e]
    with its fraction discarded (a quotient truncated toward zero). *)
Lemma float64_trunc_finite (s : bool) (m : positive) (e : Z) :
  float64_trunc (S754_finite s m e)
  = Some (Z.quot ((if s then -1 else 1) * (Z.pos m * 2 ^ Z.max e 0)) (2 ^ Z.max (- e) 0)).
Proof.
  unfold float64_trunc. f_equal.
  destruct (Z.le_gt_cases 0 e) as [He|He].
  - rewrite Z.max_l, Z.max_r by lia. rewrite Z.shiftl_mul_pow2 by lia.
    change (2 ^ 0) with 1. rewrite Z.quot_1_r. reflexivity.
  - rewrite Z.max_r, Z.max_l by lia. change (2 ^ 0) with 1. rewrite Z.mul_1_r.
    assert (Hp : 0 < 2 ^ (- e)) by (apply Z.pow_pos_nonneg; lia).
    replace (Z.shiftl (Z.pos m) e) with (Z.shiftr (Z.pos m) (- e))
      by (unfold Z.shiftr; rewrite Z.opp_involutive; reflexivity).
    rewrite Z.shiftr_div_pow2 by lia.
    rewrite <- Z.quot_div_nonneg by lia.
    destruct s.
    + replace (-1 * Z.pos m) with (- Z.pos m) by lia.
      rewrite Z.quot_opp_l by lia. lia.
    + rewrite !Z.mul_1_l. reflexivity.
Qed.

Lemma int_of_float64_trunc (f : spec_float) (n : Z) :
  float64_trunc f = Some n -> in_int64 n -> int_of_float64 f = n.
Proof.
  intros Ht Hr. unfold int_of_float64. rewrite Ht.
  rewrite bool_decide_eq_true_2 by assumption. reflexivity.
Qed.

Lemma conditional_edge_enabled_simple (expr : string) :
  enabled_simple_condition (conditional_edge expr) expr.
Proof. split; [reflexivity|]. do 2 eexists. repeat split. Qed.

(** C3, as stated, fails: with the variables [{x: "abc"}] the well-formed
    expression [x > 1] makes the evaluation report the error "cannot
    compare non-numeric value" (next to the result false). *)
Lemma C3_counterexample :
  let e := conditional_edge "x > 1" in
  let context : gmap string Value := {[ "x" := VString "abc" ]} in
  enabled_simple_condition e "x > 1"
  /\ Fields "x > 1" = ["x"; ">"; "1"]
  /\ context !! "x" = Some (VString "abc")
  /\ ~ numeric (VString "abc")
  /\ Edge.EvaluateCondition e context = (false, Some "cannot compare non-numeric value")
  /\ Edge.EvaluateCondition e context <> (false, None).
Proof.
  cbv zeta. split; [apply conditional_edge_enabled_simple|].
  split; [reflexivity|]. split; [reflexivity|]. split.
  - intros [[n H]|[f H]]; discriminate.
  - split; [reflexivity | discriminate].
Qed.

(** C3, amended. For a conditional edge whose enabled simple expression
    has the three-token shape [field OP value]: when the field is absent
    from the variables the evaluation returns false and no error; when the
    field resolves to a value that is neither an int nor a float64 the
    evaluation returns false together with the error "cannot compare
    non-numeric value". *)
Theorem C3_unresolved_or_non_numeric
    (e : Edge.t) (expr field op value : string) (context : gmap string Value) :
  enabled_simple_condition e expr ->
  Fields expr = [field; op; value] ->
  (context !! field = None -> Edge.EvaluateCondition e context = (false, None))
  /\ (forall v, context !! field = Some v -> ~ numeric v ->
        Edge.EvaluateCondition e context
        = (false, Some "cannot compare non-numeric value")).
Proof.
  intros He HF. rewrite (EvaluateCondition_enabled_simple _ _ _ He).
  rewrite (evaluateSimpleCondition_fields _ _ _ _ _ HF).
  split.
  - intros ->. reflexivity.
  - intros v -> Hn. destruct v; try reflexivity; exfalso; apply Hn.
    + left; eauto.
    + right; eauto.
Qed.

Lemma C3_unresolved_or_non_numeric_witness :
  Edge.EvaluateCondition (conditional_edge "x > 1") ∅ = (false, None)
  /\ Edge.EvaluateCondition (conditional_edge "x > 1") {[ "x" := VBool true ]}
     = (false, Some "cannot compare non-numeric value").
Proof.
  split.
  - destruct (C3_unresolved_or_non_numeric (conditional_edge "x > 1") "x > 1" "x" ">" "1" ∅
                (conditional_edge_enabled_simple _) eq_refl) as [Habsent _].
    apply Habsent. reflexivity.
  - destruct (C3_unresolved_or_non_numeric (conditional_edge "x > 1") "x > 1" "x" ">" "1"
                {[ "x" := VBool true ]} (conditional_edge_enabled_simple _) eq_refl)
      as [_ Hother].
    apply (Hother (VBool true)).
    + reflexivity.
    + intros [[n H]|[f H]]; discriminate.
Defined.

Lemma scan_digits_fold (s : string) (acc : Z) :
  forallb is_digit (list_ascii_of_string s) = true ->
  scan_digits s acc
  = fold_left (fun acc c => 10 * acc + (byte_val c - 48)) (list_ascii_of_string s) acc.
Proof.
  revert acc. induction s as [|c s IH]; intros acc H; simpl in *; [reflexivity|].
  apply andb_prop in H as [Hc Hs]. rewrite Hc. apply IH, Hs.
Qed.

Lemma digits_value_scan (s : string) (v : Z) :
  digits_value s = Some v -> starts_with_digit s = true /\ scan_digits s 0 = v.
Proof.
  unfold digits_value. destruct (forallb _ _) eqn:Hall; [|discriminate].
  simpl. case_bool_decide as Hnil; [discriminate|]. simpl. intros [= <-].
  split; [|apply scan_digits_fold, Hall].
  destruct s as [|c s]; [contradiction Hnil; reflexivity|].
  simpl in Hall. apply andb_prop in Hall as [Hc _]. exact Hc.
Qed.

Lemma starts_with_digit_not_sign (s : string) :
  starts_with_digit s = true ->
  match s with
  | String "-" rest => (true, rest)
  | String "+" rest => (false, rest)
  | _ => (false, s)
  end = (false, s).
Proof.
  destruct s as [|c s]; [discriminate|]. simpl. intros H.
  destruct c as [[] [] [] [] [] [] [] []]; try reflexivity; discriminate.
Qed.

(** On a decimal numeral that denotes an [int64], [fmt.Sscanf] with the
    verb [%d] stores the integer that the numeral denotes. *)
Lemma Sscanf_d_numeral (s : string) (n : Z) :
  numeral_value s = Some n -> in_int64 n -> Sscanf_d s = Some n.
Proof.
  intros Hv Hr. unfold Sscanf_d.
  assert (Hplain : forall t, digits_value t = Some n ->
            (let '(negative, body) := (false, t) in
             if starts_with_digit body then
               let magnitude := scan_digits body 0 in
               let n := if negative then - magnitude else magnitude in
               if bool_decide (in_int64 n) then Some n else None
             else None) = Some n).
  { intros t Ht. apply digits_value_scan in Ht as [Hd <-]. cbv beta iota zeta.
    rewrite Hd. rewrite bool_decide_eq_true_2 by assumption. reflexivity. }
  destruct s as [|c rest].
  - discriminate.
  - destruct (ascii_dec c "-") as [->|Hm]; [|destruct (ascii_dec c "+") as [->|Hp]].
    + simpl in Hv. destruct (digits_value rest) as [v|] eqn:Hd; [|discriminate].
      injection Hv as <-. apply digits_value_scan in Hd as [Hd <-].
      cbv beta iota zeta. rewrite Hd.
      rewrite bool_decide_eq_true_2 by assumption. reflexivity.
    + simpl in Hv. apply Hplain, Hv.
    + assert (Hv' : digits_value (String c rest) = Some n).
      { revert Hv. clear - Hm Hp. simpl.
        destruct c as [[] [] [] [] [] [] [] []]; try (intros H; exact H);
          congruence. }
      pose proof (digits_value_scan _ _ Hv') as [Hd _].
      rewrite (starts_with_digit_not_sign _ Hd). apply Hplain, Hv'.
Qed.

Lemma evaluateSimpleCondition_other_shape (expr : string) (context : gmap string Value) :
  expr <> "true" -> expr <> "false" -> length (Fields expr) <> 3%nat ->
  Edge.evaluateSimpleCondition expr context
  = (false, Some ("invalid expression format: " +:+ expr)).
Proof.
  intros Ht Hf Hlen. unfold Edge.evaluateSimpleCondition.
  rewrite !bool_decide_eq_false_2 by assumption.
  destruct (Fields expr) as [|a [|b [|c [|d l]]]]; try reflexivity.
  contradiction Hlen; reflexivity.
Qed.

(** C4. For a conditional edge with an enabled simple condition: the
    literal [true] evaluates to true and [false] to false, without error;
    an expression of three tokens [field OP value], with OP one of
    [>, >=, <, <=, ==, =, !=], [value] a decimal numeral of an int and
    [field] bound to an int [n], or to a float64 whose integer part is
    the int [n], evaluates without error to the truth of the comparison of
    [n] with the integer; and an expression that is neither literal nor of
    exactly three white-space separated tokens gives the error "invalid
    expression format". *)
Theorem C4_simple_condition_language
    (e : Edge.t) (expr : string) (context : gmap string Value) :
  enabled_simple_condition e expr ->
  (expr = "true" -> Edge.EvaluateCondition e context = (true, None))
  /\ (expr = "false" -> Edge.EvaluateCondition e context = (false, None))
  /\ (forall (field op value : string) (target n : Z) (v : Value),
        Fields expr = [field; op; value] ->
        In op comparison_operators ->
        numeral_value value = Some target -> in_int64 target ->
        context !! field = Some v ->
        (v = VInt n
         \/ exists f, v = VFloat64 f /\ float64_trunc f = Some n /\ in_int64 n) ->
        exists b, Edge.EvaluateCondition e context = (b, None)
                  /\ (b = true <-> comparison_holds op n target))
  /\ (expr <> "true" -> expr <> "false" -> length (Fields expr) <> 3%nat ->
        Edge.EvaluateCondition e context
        = (false, Some ("invalid expression format: " +:+ expr))).
Proof.
  intros He. rewrite (EvaluateCondition_enabled_simple _ _ _ He).
  split; [intros ->; reflexivity|].
  split; [intros ->; reflexivity|].
  split; [|apply evaluateSimpleCondition_other_shape].
  intros field op value target n v HF Hop Hval Hrange Hv Hnum.
  rewrite (evaluateSimpleCondition_fields _ _ _ _ _ HF), Hv.
  destruct (compare_holds op n target Hop) as (b & Hb & Hiff).
  exists b. split; [|exact Hiff].
  destruct Hnum as [->|(f & -> & Htr & Hin)].
  - rewrite (Sscanf_d_numeral _ _ Hval Hrange), Hb. reflexivity.
  - rewrite (Sscanf_d_numeral _ _ Hval Hrange), (int_of_float64_trunc _ _ Htr Hin), Hb.
    reflexivity.
Qed.

Lemma C4_simple_condition_language_witness :
  Edge.EvaluateCondition (conditional_edge "true") ∅ = (true, None)
  /\ (exists b,
        Edge.EvaluateCondition (conditional_edge "count >= -3")
          {[ "count" := VFloat64 (S754_finite true 5 (-1)) ]} = (b, None)
        /\ (b = true <-> comparison_holds ">=" (-2) (-3)))
  /\ Edge.EvaluateCondition (conditional_edge "a > 1 and b < 2") ∅
     = (false, Some "invalid expression format: a > 1 and b < 2").
Proof.
  split; [|split].
  - destruct (C4_simple_condition_language (conditional_edge "true") "true" ∅
                (conditional_edge_enabled_simple _)) as (H & _).
    apply H. reflexivity.
  - destruct (C4_simple_condition_language (conditional_edge "count >= -3") "count >= -3"
                {[ "count" := VFloat64 (S754_finite true 5 (-1)) ]}
                (conditional_edge_enabled_simple _)) as (_ & _ & H & _).
    apply (H "count" ">=" "-3" (-3) (-2) (VFloat64 (S754_finite true 5 (-1)))).
    + reflexivity.
    + simpl. tauto.
    + reflexivity.
    + unfold in_int64, int64_min, int64_max. lia.
    + reflexivity.
    + right. eexists. split; [reflexivity|]. split; [reflexivity|].
      unfold in_int64, int64_min, int64_max. lia.
  - destruct (C4_simple_condition_language (conditional_edge "a > 1 and b < 2")
                "a > 1 and b < 2" ∅ (conditional_edge_enabled_simple _)) as (_ & _ & _ & H).
    apply H.
    + discriminate.
    + discriminate.
    + vm_compute. discriminate.
Defined.

End ConditionLanguage.

(** ** Cancellation of an execution *)

Section Cancellation.
Import golang models state_manager spec examples.

Lemma IsFinished_statuses (e : Execution.t) :
  Execution.IsFinished e = true
  <-> In (Execution.Status e) ["completed"; "failed"; "cancelled"; "timeout"].
Proof.
  unfold Execution.IsFinished, ExecutionStatus_IsFinished, ExecutionStatusCompleted,
    ExecutionStatusFailed, ExecutionStatusCancelled, ExecutionStatusTimeout.
  simpl. repeat case_bool_decide; simpl; intuition (try discriminate; congruence).
Qed.

Lemma to_cancelled_allowed (sm : StateManager) (from : string) :
  executionTransitions sm = initial_executionTransitions ->
  ValidateExecutionTransition sm from ExecutionStatusCancelled = None
  <-> from = "pending" \/ from = "running".
Proof.
  intros Htab.
  assert (Heq : ValidateExecutionTransition sm from ExecutionStatusCancelled
                = ValidateExecutionTransition NewStateManager from ExecutionStatusCancelled).
  { unfold ValidateExecutionTransition. rewrite Htab. reflexivity. }
  rewrite Heq, ValidateExecutionTransition_ok_iff.
  unfold spec_execution_table, ExecutionStatusCancelled. simpl. split.
  - intros H. repeat (destruct H as [H|H]); try contradiction;
      inversion H; subst; tauto.
  - intros [->| ->]; tauto.
Qed.

(** C5, as stated, fails: cancelling the stored execution [ex1], whose
    status is completed, returns an error, and the engine, in which a
    terminated execution is no longer registered, answers not found. *)
Lemma C5_counterexample :
  let s := {| execution_service.sm := NewStateManager;
              execution_service.engine :=
                Some (workflow_engine.cleanup engine_with_ex1 "ex1");
              execution_service.db := {[ "ex1" := plain_execution "ex1" "completed" 0 3 ]} |} in
  Execution.IsFinished (plain_execution "ex1" "completed" 0 3) = true
  /\ execution_service.CancelExecution 30 s "ex1"
     = (Some ("invalid state transition: "
              +:+ "invalid execution state transition from completed to cancelled"), s)
  /\ fst (execution_service.CancelExecution 30 s "ex1") <> None
  /\ fst (workflow_engine.CancelExecution
            (workflow_engine.cleanup engine_with_ex1 "ex1") "ex1")
     = Some "execution not found: ex1".
Proof.
  cbv zeta. split; [reflexivity|]. split; [reflexivity|].
  split; [discriminate | reflexivity].
Qed.

Lemma engine_cancel_twice (e : workflow_engine.WorkflowEngine) (id : string)
    (c : workflow_engine.ExecutionContext) :
  workflow_engine.executions e !! id = Some c ->
  fst (workflow_engine.CancelExecution e id) = None
  /\ workflow_engine.CancelExecution (snd (workflow_engine.CancelExecution e id)) id
     = (None, snd (workflow_engine.CancelExecution e id)).
Proof.
  intros Hc.
  assert (H1 : workflow_engine.CancelExecution e id
               = if workflow_engine.cancel c
                 then (None, workflow_engine.with_executions e
                               (<[id := workflow_engine.cancelled c]>
                                  (workflow_engine.executions e)))
                 else (None, e)).
  { unfold workflow_engine.CancelExecution. rewrite Hc. reflexivity. }
  rewrite H1. destruct (workflow_engine.cancel c) eqn:Hcancel; simpl.
  - split; [reflexivity|].
    unfold workflow_engine.CancelExecution. simpl.
    rewrite lookup_insert_eq. simpl. rewrite Hcancel.
    unfold workflow_engine.with_executions. simpl.
    rewrite insert_insert_eq. reflexivity.
  - split; [reflexivity|]. rewrite H1. reflexivity.
Qed.

(** C5, amended. Cancelling an execution that is already in a terminal
    state (completed, failed, cancelled or timeout) is refused with an
    error by the execution service and changes nothing, and the engine
    answers not found for an execution that it has deregistered at its
    termination; cancelling an id that was never known returns a not found
    error, from the service and from the engine; and cancelling twice an
    execution that is still registered in the engine is idempotent: both
    calls succeed and the second leaves the engine as the first left
    it. *)
Theorem C5_cancel_execution :
  (forall (now : Z) (s : execution_service.State) (id : string) (ex : Execution.t),
      executionTransitions (execution_service.sm s) = initial_executionTransitions ->
      execution_service.db s !! id = Some ex ->
      Execution.IsFinished ex = true ->
      exists err, execution_service.CancelExecution now s id = (Some err, s))
  /\ (forall (e : workflow_engine.WorkflowEngine) (id : string),
      workflow_engine.CancelExecution (workflow_engine.cleanup e id) id
      = (Some ("execution not found: " +:+ id), workflow_engine.cleanup e id))
  /\ (forall (now : Z) (s : execution_service.State) (id : string),
      execution_service.db s !! id = None ->
      execution_service.CancelExecution now s id
      = (Some ("execution not found: " +:+ id), s))
  /\ (forall (e : workflow_engine.WorkflowEngine) (id : string),
      workflow_engine.executions e !! id = None ->
      workflow_engine.CancelExecution e id = (Some ("execution not found: " +:+ id), e))
  /\ (forall (e : workflow_engine.WorkflowEngine) (id : string)
             (c : workflow_engine.ExecutionContext),
      workflow_engine.executions e !! id = Some c ->
      fst (workflow_engine.CancelExecution e id) = None
      /\ workflow_engine.CancelExecution (snd (workflow_engine.CancelExecution e id)) id
         = (None, snd (workflow_engine.CancelExecution e id))).
Proof.
  split; [|split; [|split; [|split]]].
  - intros now s id ex Htab Hdb Hfin.
    unfold execution_service.CancelExecution, execution_service.GetExecution.
    rewrite Hdb.
    assert (Hne : Execution.Status ex <> "").
    { intros H. apply IsFinished_statuses in Hfin. rewrite H in Hfin. simpl in Hfin.
      repeat (destruct Hfin as [Hfin|Hfin]); try discriminate; contradiction. }
    rewrite (bool_decide_eq_false_2 _ Hne).
    destruct (ValidateExecutionTransition _ _ _) as [err|] eqn:Hv.
    + eexists. reflexivity.
    + apply (to_cancelled_allowed _ _ Htab) in Hv.
      apply IsFinished_statuses in Hfin. simpl in Hfin.
      exfalso. destruct Hv as [Hv|Hv]; rewrite Hv in Hfin;
        repeat (destruct Hfin as [Hfin|Hfin]); try discriminate; contradiction.
  - intros e id. unfold workflow_engine.CancelExecution, workflow_engine.cleanup. simpl.
    rewrite lookup_delete_eq. reflexivity.
  - intros now s id Hdb.
    unfold execution_service.CancelExecution, execution_service.GetExecution.
    rewrite Hdb. reflexivity.
  - intros e id He. unfold workflow_engine.CancelExecution. rewrite He. reflexivity.
  - exact engine_cancel_twice.
Qed.

Lemma C5_cancel_execution_witness :
  (exists err,
      execution_service.CancelExecution 30
        {| execution_service.sm := NewStateManager;
           execution_service.engine := None;
           execution_service.db := {[ "ex1" := plain_execution "ex1" "timeout" 0 3 ]} |}
        "ex1"
      = (Some err,
         {| execution_service.sm := NewStateManager;
            execution_service.engine := None;
            execution_service.db := {[ "ex1" := plain_execution "ex1" "timeout" 0 3 ]} |}))
  /\ execution_service.CancelExecution 30
       {| execution_service.sm := NewStateManager;
          execution_service.engine := None;
          execution_service.db := ∅ |} "ex2"
     = (Some "execution not found: ex2",
        {| execution_service.sm := NewStateManager;
           execution_service.engine := None;
           execution_service.db := ∅ |})
  /\ fst (workflow_engine.CancelExecution engine_with_ex1 "ex1") = None.
Proof.
  destruct C5_cancel_execution as (Hterm & _ & Hunknown & _ & Htwice).
  split; [|split].
  - apply (Hterm 30 _ "ex1" (plain_execution "ex1" "timeout" 0 3)); reflexivity.
  - apply (Hunknown 30 _ "ex2"). reflexivity.
  - eapply Htwice. reflexivity.
Defined.

End Cancellation.

(** ** The timeout of a node *)

Section NodeTimeout.
Import golang models spec examples.

Lemma GetExecutionTimeout_positive (node : Node.t) : 0 < Node.GetExecutionTimeout node.
Proof.
  unfold Node.GetExecutionTimeout.
  destruct (Node.Config node) as [config|]; [|reflexivity].
  destruct (NodeConfig.TimeoutConfig config) as [tc|]; [|reflexivity].
  destruct (0 <? TimeoutConfig.ExecutionTimeout tc) eqn:H; [|reflexivity].
  apply Z.ltb_lt, H.
Qed.

Lemma node_timeout_eq (node : Node.t) :
  workflow_engine.node_timeout node = Node.GetExecutionTimeout node.
Proof.
  unfold workflow_engine.node_timeout.
  pose proof (GetExecutionTimeout_positive node) as Hpos.
  destruct (Node.GetExecutionTimeout node =? 0) eqn:H; [|reflexivity].
  apply Z.eqb_eq in H. lia.
Qed.

(** C6, as stated, fails: for a node configured with a timeout of 60
    seconds the plugin is called with a timeout of 60 seconds, which is
    more than 30 seconds and so is not the prescribed minimum, whatever
    the task timeout of the workflow configuration. *)
Lemma C6_counterexample :
  let node := node_with_timeout "n" (60 * time.Second) in
  let registry : gmap string nodes.NodePlugin := {[ "probe" := probe_plugin ]} in
  workflow_engine.node_timeout node = 60 * time.Second
  /\ (exists execCtx,
        workflow_engine.executeNode registry context_of_ex1 "n" node = Some (execCtx, None)
        /\ workflow_engine.Variables execCtx !! "n_timeout" = Some (VInt (60 * time.Second)))
  /\ (forall task_timeout,
        workflow_engine.node_timeout node
        <> spec_timeout (60 * time.Second) task_timeout).
Proof.
  cbv zeta. split; [reflexivity|]. split.
  - eexists. split; reflexivity.
  - intros task_timeout. unfold spec_timeout.
    change (workflow_engine.node_timeout _) with 60000000000.
    change (60 * time.Second) with 60000000000.
    change (30 * time.Second) with 30000000000. lia.
Qed.

(** C6, amended. For every node whose plugin is registered, the engine
    calls the plugin with a context whose timeout is the node's own
    execution timeout: the [execution_timeout] of the node's timeout
    configuration when that is positive, and 5 minutes otherwise. The
    workflow configuration plays no part and no minimum is taken. *)
Theorem C6_node_timeout
    (registry : gmap string nodes.NodePlugin) (execCtx : workflow_engine.ExecutionContext)
    (nodeID : string) (node : Node.t) (plugin : nodes.NodePlugin)
    (config : NodeConfig.t) :
  registry !! Node.Plugin node = Some plugin ->
  Node.Config node = Some config ->
  let configured :=
    match NodeConfig.TimeoutConfig config with
    | Some timeoutConfig => TimeoutConfig.ExecutionTimeout timeoutConfig
    | None => 0
    end in
  let applied := if 0 <? configured then configured else 5 * time.Minute in
  exists running input,
    workflow_engine.executeNode registry execCtx nodeID node
    = Some (workflow_engine.interpret_output running nodeID
              (plugin {| nodes.timeout := applied;
                         nodes.parent_done := workflow_engine.ctx_done execCtx |} input))
    /\ workflow_engine.node_timeout node = applied.
Proof.
  intros Hreg Hcfg configured applied.
  assert (Happlied : workflow_engine.node_timeout node = applied).
  { rewrite node_timeout_eq. unfold Node.GetExecutionTimeout. rewrite Hcfg.
    subst applied configured.
    destruct (NodeConfig.TimeoutConfig config) as [tc|]; reflexivity. }
  unfold workflow_engine.executeNode, nodes.Get. rewrite Hreg, Hcfg, Happlied.
  do 2 eexists. split; reflexivity.
Qed.

Lemma C6_node_timeout_witness :
  exists running input,
    workflow_engine.executeNode {[ "probe" := probe_plugin ]} context_of_ex1 "n"
      (node_with_timeout "n" (60 * time.Second))
    = Some (workflow_engine.interpret_output running "n"
              (probe_plugin {| nodes.timeout := 60 * time.Second;
                               nodes.parent_done := false |} input))
    /\ workflow_engine.node_timeout (node_with_timeout "n" (60 * time.Second))
       = 60 * time.Second.
Proof.
  apply (C6_node_timeout {[ "probe" := probe_plugin ]} context_of_ex1 "n"
           (node_with_timeout "n" (60 * time.Second)) probe_plugin
           {| NodeConfig.PluginConfig := None; NodeConfig.InputConfig := None;
              NodeConfig.RetryConfig := None;
              NodeConfig.TimeoutConfig := Some
                {| TimeoutConfig.ExecutionTimeout := 60 * time.Second;
                   TimeoutConfig.ConnectionTimeout := 0;
                   TimeoutConfig.ReadTimeout := 0;
                   TimeoutConfig.WriteTimeout := 0 |} |}).
  - reflexivity.
  - reflexivity.
Defined.

End NodeTimeout.

(** ** Retry of an execution *)

Section Retry.
Import golang models spec examples.

Lemma wrap64_in_range (x : Z) : in_int64 x -> wrap64 x = x.
Proof.
  unfold in_int64, int64_min, int64_max, wrap64. intros H.
  rewrite Z.mod_small; lia.
Qed.

Lemma CanRetry_iff (e : Execution.t) :
  Execution.CanRetry e = true
  <-> Execution.Status e = "failed" /\ Execution.RetryCount e < Execution.MaxRetries e.
Proof.
  unfold Execution.CanRetry, ExecutionStatusFailed.
  rewrite andb_true_iff, bool_decide_eq_true, Z.ltb_lt. reflexivity.
Qed.

(** C7. [Retry] succeeds exactly when the status is failed and the retry
    count is below the maximum. On success the status is pending, the
    retry count is one more, the start and completion times and the error
    message, code and stack trace are cleared, and every other field is
    as before; on failure the execution is unchanged. (The two counters
    are Go ints.) *)
Theorem C7_retry (e : Execution.t) :
  in_int64 (Execution.RetryCount e) ->
  in_int64 (Execution.MaxRetries e) ->
  let err := fst (Execution.Retry e) in
  let e' := snd (Execution.Retry e) in
  (err = None <->
     Execution.Status e = "failed" /\ Execution.RetryCount e < Execution.MaxRetries e)
  /\ (err <> None -> e' = e)
  /\ (err = None ->
      Execution.Status e' = "pending"
      /\ Execution.RetryCount e' = Execution.RetryCount e + 1
      /\ Execution.StartedAt e' = None
      /\ Execution.CompletedAt e' = None
      /\ Execution.ErrorMsg e' = ""
      /\ Execution.ErrorCode e' = ""
      /\ Execution.StackTrace e' = ""
      /\ Execution.ID e' = Execution.ID e
      /\ Execution.WorkflowID e' = Execution.WorkflowID e
      /\ Execution.WorkflowVer e' = Execution.WorkflowVer e
      /\ Execution.Name e' = Execution.Name e
      /\ Execution.Description e' = Execution.Description e
      /\ Execution.TriggerType e' = Execution.TriggerType e
      /\ Execution.TriggerBy e' = Execution.TriggerBy e
      /\ Execution.TriggerData e' = Execution.TriggerData e
      /\ Execution.Trigger e' = Execution.Trigger e
      /\ Execution.ContextData e' = Execution.ContextData e
      /\ Execution.Context e' = Execution.Context e
      /\ Execution.NodesData e' = Execution.NodesData e
      /\ Execution.Nodes e' = Execution.Nodes e
      /\ Execution.MetricsData e' = Execution.MetricsData e
      /\ Execution.Metrics e' = Execution.Metrics e
      /\ Execution.ScheduledAt e' = Execution.ScheduledAt e
      /\ Execution.MaxRetries e' = Execution.MaxRetries e
      /\ Execution.RetryStrategy e' = Execution.RetryStrategy e
      /\ Execution.ConfigSnapshot e' = Execution.ConfigSnapshot e
      /\ Execution.Priority e' = Execution.Priority e
      /\ Execution.Tags e' = Execution.Tags e
      /\ Execution.TagsData e' = Execution.TagsData e
      /\ Execution.CreatedAt e' = Execution.CreatedAt e
      /\ Execution.UpdatedAt e' = Execution.UpdatedAt e
      /\ Execution.DeletedAt e' = Execution.DeletedAt e
      /\ Execution.Workflow e' = Execution.Workflow e).
Proof.
  intros Hcount Hmax. cbv zeta. unfold Execution.Retry.
  destruct (Execution.CanRetry e) eqn:Hcan; simpl.
  - apply CanRetry_iff in Hcan as [Hst Hlt].
    split; [tauto|]. split; [congruence|]. intros _.
    rewrite wrap64_in_range
      by (unfold in_int64, int64_min, int64_max in *; lia).
    repeat split; reflexivity.
  - split.
    + split; [discriminate|]. intros H. apply CanRetry_iff in H. congruence.
    + split; [reflexivity | congruence].
Qed.

Lemma C7_retry_witness :
  fst (Execution.Retry (plain_execution "ex1" "failed" 1 3)) = None
  /\ Execution.Status (snd (Execution.Retry (plain_execution "ex1" "failed" 1 3)))
     = "pending"
  /\ Execution.RetryCount (snd (Execution.Retry (plain_execution "ex1" "failed" 1 3))) = 2
  /\ snd (Execution.Retry (plain_execution "ex1" "failed" 3 3))
     = plain_execution "ex1" "failed" 3 3.
Proof.
  assert (Hr : forall n, 0 <= n <= 3 -> in_int64 n)
    by (unfold in_int64, int64_min, int64_max; lia).
  destruct (C7_retry (plain_execution "ex1" "failed" 1 3)) as (Hiff & _ & Hok);
    [apply Hr; simpl; lia | apply Hr; simpl; lia |].
  destruct (C7_retry (plain_execution "ex1" "failed" 3 3)) as (_ & Hfail & _);
    [apply Hr; simpl; lia | apply Hr; simpl; lia |].
  assert (Hnone : fst (Execution.Retry (plain_execution "ex1" "failed" 1 3)) = None).
  { apply Hiff. simpl. split; [reflexivity | lia]. }
  destruct (Hok Hnone) as (Hst & Hcnt & _).
  split; [exact Hnone|]. split; [exact Hst|]. split; [exact Hcnt|].
  apply Hfail. discriminate.
Defined.

End Retry.

(** ** The next run of a scheduled task *)

Section NextRun.
Import golang models simple_scheduler spec examples.

Lemma apply_window_outcome (schedule : WorkflowSchedule.t) (task : ScheduledTask)
    (nextRun : Z) :
  window_outcome schedule task nextRun (apply_window schedule task nextRun).
Proof.
  unfold window_outcome, apply_window.
  set (clamped := match WorkflowSchedule.StartTime schedule with
                  | Some startTime => if nextRun <? startTime then startTime else nextRun
                  | None => nextRun
                  end).
  exists clamped. split.
  - subst clamped. destruct (WorkflowSchedule.StartTime schedule) as [st|].
    + destruct (nextRun <? st) eqn:H.
      * left. exists st. apply Z.ltb_lt in H. auto.
      * right. apply Z.ltb_ge in H. split; [right; exists st; auto | reflexivity].
    + right. auto.
  - destruct (WorkflowSchedule.EndTime schedule) as [et|].
    + destruct (et <? clamped) eqn:H; simpl.
      * split; [reflexivity|]. left. exists et. apply Z.ltb_lt in H.
        repeat split; auto.
      * split; [reflexivity|]. right. apply Z.ltb_ge in H.
        split; [right; exists et; auto | reflexivity].
    + simpl. split; [reflexivity|]. right. auto.
Qed.



(** The trigger during which the next run passes the end time still
    reaches the point where the execution is triggered: it is the run that
    was due; the task is disabled for the ticks that follow. *)
Lemma triggerTask_last_run :
  let task := task_of (interval_schedule 60 None (Some 1050)) in
  due 1000 task = true
  /\ snd (triggerTask 1000 task) = true
  /\ Enabled (fst (triggerTask 1000 task)) = false
  /\ forall now', due now' (fst (triggerTask 1000 task)) = false.
Proof. cbv zeta. repeat split. Qed.

End NextRun.

(** ** The rolled average of the execution time *)

Section RolledAverage.
Import golang models spec examples.

(** C9, as stated, fails: with an average of 2^62 nanoseconds over two
    executions, a third observation of duration 0 gives a negative
    average, because the product [avgOld * (n-1)] wraps around in int64;
    it is neither the quotient of [avgOld*(n-1) + d] by [n] nor a number
    whose product with [n] is that sum. *)
Lemma C9_counterexample :
  let w := Workflow.with_Statistics cyclic_workflow (statistics_of 2 (2 ^ 62)) in
  exists w',
    Workflow.UpdateStatistics 1 w 0 true = Some w'
    /\ total_of w' = 3
    /\ average_of w' = -3074457345618258602
    /\ average_of w' <> (2 ^ 62 * (3 - 1) + 0) / 3
    /\ average_of w' <> Z.quot (2 ^ 62 * (3 - 1) + 0) 3
    /\ average_of w' * 3 <> 2 ^ 62 * (3 - 1) + 0.
Proof.
  cbv zeta. eexists. split; [reflexivity|].
  split; [reflexivity|]. split; [reflexivity|].
  repeat split; vm_compute; discriminate.
Qed.

(** The quotient of Go is exact up to its remainder only: an average of 1
    over one execution and an observation of 2 give the average 1. *)
Lemma average_is_truncated :
  let w := Workflow.with_Statistics cyclic_workflow (statistics_of 1 1) in
  exists w',
    Workflow.UpdateStatistics 1 w 2 true = Some w'
    /\ average_of w' = 1
    /\ average_of w' * 2 <> 1 * (2 - 1) + 2.
Proof. cbv zeta. eexists. repeat split. vm_compute. discriminate. Qed.

Lemma quot_in_int64 (x n : Z) : in_int64 x -> 1 <= n -> in_int64 (Z.quot x n).
Proof.
  unfold in_int64, int64_min, int64_max. intros Hx Hn.
  destruct (Z.le_gt_cases 0 x) as [Hpos|Hneg].
  - rewrite Z.quot_div_nonneg by lia.
    pose proof (Z.div_pos x n Hpos ltac:(lia)).
    pose proof (Z.div_le_upper_bound x n x ltac:(lia) ltac:(nia)). lia.
  - assert (Hq : Z.quot x n = - (Z.quot (- x) n)).
    { rewrite Z.quot_opp_l by lia. lia. }
    rewrite Hq. rewrite Z.quot_div_nonneg by lia.
    pose proof (Z.div_pos (- x) n ltac:(lia) ltac:(lia)).
    pose proof (Z.div_le_upper_bound (- x) n (- x) ltac:(lia) ltac:(nia)). lia.
Qed.

(** C9, amended. Let [n] be the number of executions after counting the
    newest observation, [n >= 1] and an int64. When [avgOld*(n-1)] and
    [avgOld*(n-1) + d] are int64 values the update succeeds and the new
    average is the integer quotient of [avgOld*(n-1) + d] by [n],
    truncated toward zero: it differs from the exact mean by the
    remainder of that division. For [n = 1] it is [d]. *)
Theorem C9_rolled_average (now : Z) (w : Workflow.t) (d : Z) (success : bool) :
  let avgOld := average_of w in
  let n := total_of w + 1 in
  1 <= n -> in_int64 n ->
  in_int64 (avgOld * (n - 1)) -> in_int64 (avgOld * (n - 1) + d) ->
  exists w',
    Workflow.UpdateStatistics now w d success = Some w'
    /\ total_of w' = n
    /\ average_of w' = Z.quot (avgOld * (n - 1) + d) n
    /\ average_of w' * n = avgOld * (n - 1) + d - Z.rem (avgOld * (n - 1) + d) n
    /\ (n = 1 -> average_of w' = d).
Proof.
  intros avgOld n Hn Hrn Hprod Hsum.
  assert (Hquot : forall q, q = Z.quot (avgOld * (n - 1) + d) n ->
            q * n = avgOld * (n - 1) + d - Z.rem (avgOld * (n - 1) + d) n
            /\ (n = 1 -> q = d)).
  { intros q ->. split.
    - pose proof (Z.quot_rem' (avgOld * (n - 1) + d) n). lia.
    - intros H1. rewrite H1. rewrite Z.quot_1_r. lia. }
  unfold Workflow.UpdateStatistics.
  set (st := match Workflow.Statistics w with
             | Some st => st
             | None => WorkflowStatistics.zero
             end).
  assert (Havg : WorkflowStatistics.AverageExecTime st = avgOld).
  { subst st avgOld. unfold average_of. destruct (Workflow.Statistics w); reflexivity. }
  assert (Htot : WorkflowStatistics.TotalExecutions st + 1 = n).
  { subst st n. unfold total_of. destruct (Workflow.Statistics w); reflexivity. }
  rewrite Htot, Havg, (wrap64_in_range n Hrn).
  assert (Hroll : Workflow.rolled_average avgOld n d
                  = Some (Z.quot (avgOld * (n - 1) + d) n)).
  { unfold Workflow.rolled_average.
    destruct (n =? 1) eqn:H1.
    - apply Z.eqb_eq in H1. rewrite H1. rewrite Z.quot_1_r. f_equal. lia.
    - destruct (n =? 0) eqn:H0; [apply Z.eqb_eq in H0; lia|].
      unfold div64.
      assert (Hn1 : in_int64 (n - 1))
        by (unfold in_int64, int64_min, int64_max in *; lia).
      rewrite (wrap64_in_range _ Hn1), (wrap64_in_range _ Hprod),
        (wrap64_in_range _ Hsum).
      rewrite wrap64_in_range by (apply quot_in_int64; assumption).
      reflexivity. }
  rewrite Hroll. eexists. split; [reflexivity|].
  split; [reflexivity|]. split; [reflexivity|].
  apply Hquot. reflexivity.
Qed.

Lemma C9_rolled_average_witness :
  exists w',
    Workflow.UpdateStatistics 1
      (Workflow.with_Statistics cyclic_workflow (statistics_of 3 10)) 40 true = Some w'
    /\ total_of w' = 4
    /\ average_of w' = 17.
Proof.
  destruct (C9_rolled_average 1
              (Workflow.with_Statistics cyclic_workflow (statistics_of 3 10)) 40 true)
    as (w' & Hw & Ht & Ha & _).
  - vm_compute. discriminate.
  - vm_compute. split; discriminate.
  - vm_compute. split; discriminate.
  - vm_compute. split; discriminate.
  - exists w'. split; [exact Hw|]. split; [exact Ht | exact Ha].
Defined.

End RolledAverage.

(** ** The frame of UpdateWorkflow *)

Section UpdateWorkflowFrame.
Import golang models workflow_service spec examples.

Lemma merge_frame (existing req : Workflow.t) :
  let m := merge existing req in
  (Workflow.Name req = "" -> Workflow.Name m = Workflow.Name existing)
  /\ (Workflow.Description req = "" -> Workflow.Description m = Workflow.Description existing)
  /\ (Workflow.Version req = "" -> Workflow.Version m = Workflow.Version existing)
  /\ (Workflow.Nodes req = None -> Workflow.Nodes m = Workflow.Nodes existing)
  /\ (Workflow.Edges req = None -> Workflow.Edges m = Workflow.Edges existing)
  /\ (Workflow.Schedule req = None -> Workflow.Schedule m = Workflow.Schedule existing)
  /\ (Workflow.Config req = None -> Workflow.Config m = Workflow.Config existing)
  /\ (Workflow.TagsList req = None -> Workflow.TagsList m = Workflow.TagsList existing)
  /\ (Workflow.Priority req = 0 -> Workflow.Priority m = Workflow.Priority existing)
  /\ (Workflow.Priority existing <> 0 -> Workflow.Priority m <> 0)
  /\ (Workflow.Description existing <> "" -> Workflow.Description m <> "").
Proof.
  cbv zeta. unfold merge. simpl.
  repeat split; try (intros ->; reflexivity);
    intros H; case_bool_decide; congruence.
Qed.

(** C10. Let a workflow be stored under the id of the request. After
    [UpdateWorkflow], whether it succeeds or fails, every field of the
    request that holds its zero value (empty name, description or
    version; nil nodes, edges, schedule, config or tags; priority 0) has
    left the corresponding field of the stored workflow unchanged. In
    particular a priority that is not 0 is never set to 0 and a
    description that is not empty is never cleared. *)
Theorem C10_zero_fields_keep_stored
    (now : Z) (db : gmap string Workflow.t) (req existing : Workflow.t) :
  db !! Workflow.ID req = Some existing ->
  Workflow.ID existing = Workflow.ID req ->
  exists stored,
    snd (fst (UpdateWorkflow now db req)) !! Workflow.ID req = Some stored
    /\ (Workflow.Name req = "" -> Workflow.Name stored = Workflow.Name existing)
    /\ (Workflow.Description req = "" ->
        Workflow.Description stored = Workflow.Description existing)
    /\ (Workflow.Version req = "" -> Workflow.Version stored = Workflow.Version existing)
    /\ (Workflow.Nodes req = None -> Workflow.Nodes stored = Workflow.Nodes existing)
    /\ (Workflow.Edges req = None -> Workflow.Edges stored = Workflow.Edges existing)
    /\ (Workflow.Schedule req = None ->
        Workflow.Schedule stored = Workflow.Schedule existing)
    /\ (Workflow.Config req = None -> Workflow.Config stored = Workflow.Config existing)
    /\ (Workflow.TagsList req = None ->
        Workflow.TagsList stored = Workflow.TagsList existing)
    /\ (Workflow.Priority req = 0 -> Workflow.Priority stored = Workflow.Priority existing)
    /\ (Workflow.Priority existing <> 0 -> Workflow.Priority stored <> 0)
    /\ (Workflow.Description existing <> "" -> Workflow.Description stored <> "").
Proof.
  intros Hdb Hid.
  set (read := if bool_decide (Workflow.Status existing = "")
               then Workflow.with_Status existing WorkflowStatusInactive
                      (Workflow.UpdatedAt existing)
               else existing).
  assert (Hget : GetWorkflow db (Workflow.ID req) = (Some read, None)).
  { unfold GetWorkflow. rewrite Hdb. subst read. case_bool_decide; reflexivity. }
  assert (Hframe : forall stored,
             stored = existing
             \/ stored = Workflow.with_Status (merge read req)
                          (Workflow.Status (merge read req)) now ->
             (Workflow.Name req = "" -> Workflow.Name stored = Workflow.Name existing)
             /\ (Workflow.Description req = "" ->
                 Workflow.Description stored = Workflow.Description existing)
             /\ (Workflow.Version req = "" ->
                 Workflow.Version stored = Workflow.Version existing)
             /\ (Workflow.Nodes req = None -> Workflow.Nodes stored = Workflow.Nodes existing)
             /\ (Workflow.Edges req = None -> Workflow.Edges stored = Workflow.Edges existing)
             /\ (Workflow.Schedule req = None ->
                 Workflow.Schedule stored = Workflow.Schedule existing)
             /\ (Workflow.Config req = None ->
                 Workflow.Config stored = Workflow.Config existing)
             /\ (Workflow.TagsList req = None ->
                 Workflow.TagsList stored = Workflow.TagsList existing)
             /\ (Workflow.Priority req = 0 ->
                 Workflow.Priority stored = Workflow.Priority existing)
             /\ (Workflow.Priority existing <> 0 -> Workflow.Priority stored <> 0)
             /\ (Workflow.Description existing <> "" -> Workflow.Description stored <> "")).
  { intros stored [->| ->].
    - repeat split; auto.
    - pose proof (merge_frame existing req) as Hm. cbv zeta in Hm.
      assert (Hread : merge read req
                      = Workflow.with_Status (merge existing req) (Workflow.Status read)
                          (Workflow.UpdatedAt existing)).
      { subst read. case_bool_decide; reflexivity. }
      rewrite Hread. exact Hm. }
  unfold UpdateWorkflow. rewrite Hget.
  destruct (Workflow.ValidateForUpdate (merge read req)) as [err|] eqn:Hval.
  - exists existing. split; [exact Hdb|]. apply Hframe. left. reflexivity.
  - eexists. split.
    + assert (Hkey : Workflow.ID (Workflow.with_Status (merge read req)
                                    (Workflow.Status (merge read req)) now)
                     = Workflow.ID req).
      { simpl. subst read. case_bool_decide; simpl; exact Hid. }
      unfold scheduleWorkflow.
      destruct (Workflow.IsActive _ && Workflow.CanExecute _);
        cbn [fst snd]; rewrite Hkey; apply lookup_insert_eq.
    + apply Hframe. right. reflexivity.
Qed.

Lemma C10_zero_fields_keep_stored_witness :
  let existing := plain_workflow "wf7" "orders" "inactive" None None "nightly import" 5 in
  let req := plain_workflow "wf7" "renamed" "" None None "" 0 in
  exists stored,
    snd (fst (UpdateWorkflow 9 {[ "wf7" := existing ]} req)) !! "wf7" = Some stored
    /\ Workflow.Description stored = "nightly import"
    /\ Workflow.Priority stored = 5
    /\ Workflow.Name stored = "renamed".
Proof.
  cbv zeta.
  assert (Hdb : ({[ "wf7" := plain_workflow "wf7" "orders" "inactive" None None
                               "nightly import" 5 ]} : gmap string Workflow.t)
                !! Workflow.ID (plain_workflow "wf7" "renamed" "" None None "" 0)
                = Some (plain_workflow "wf7" "orders" "inactive" None None
                          "nightly import" 5)) by reflexivity.
  destruct (C10_zero_fields_keep_stored 9 _ _ _ Hdb eq_refl)
    as (stored & Hst & _ & Hdesc & _ & _ & _ & _ & _ & _ & Hprio & _).
  exists stored. split; [exact Hst|].
  split; [apply Hdesc; reflexivity|]. split; [apply Hprio; reflexivity|].
  vm_compute in Hst. injection Hst as <-. reflexivity.
Defined.

End UpdateWorkflowFrame.

(** ** The history of the State Manager *)

Section TransitionHistory.
Import models state_manager state_manager_queries.

Lemma record_workflow_cases (now : Z) (sm : StateManager) (id from to reason operator : string) :
  (ValidateWorkflowTransition sm from to = None
   /\ RecordWorkflowTransition now sm id from to reason operator
      = (None, {| workflowTransitions := workflowTransitions sm;
                  executionTransitions := executionTransitions sm;
                  transitionHistory :=
                    transitionHistory sm ++
                    [{| EntityType := "workflow"; EntityID := id; FromStatus := from;
                        ToStatus := to; Reason := reason; Operator := operator;
                        Timestamp := now |}] |}))
  \/ (exists err, ValidateWorkflowTransition sm from to = Some err
                  /\ RecordWorkflowTransition now sm id from to reason operator
                     = (Some err, sm)).
Proof.
  unfold RecordWorkflowTransition.
  destruct (ValidateWorkflowTransition sm from to) as [err|]; [right; eauto | left; auto].
Qed.

Lemma record_execution_cases (now : Z) (sm : StateManager) (id from to reason operator : string) :
  (ValidateExecutionTransition sm from to = None
   /\ RecordExecutionTransition now sm id from to reason operator
      = (None, {| workflowTransitions := workflowTransitions sm;
                  executionTransitions := executionTransitions sm;
                  transitionHistory :=
                    transitionHistory sm ++
                    [{| EntityType := "execution"; EntityID := id; FromStatus := from;
                        ToStatus := to; Reason := reason; Operator := operator;
                        Timestamp := now |}] |}))
  \/ (exists err, ValidateExecutionTransition sm from to = Some err
                  /\ RecordExecutionTransition now sm id from to reason operator
                     = (Some err, sm)).
Proof.
  unfold RecordExecutionTransition.
  destruct (ValidateExecutionTransition sm from to) as [err|]; [right; eauto | left; auto].
Qed.

Lemma record_all_sound (calls : list (Z * record_call)) (sm : StateManager) :
  sound sm -> sound (record_all sm calls).
Proof.
  revert sm. induction calls as [|[now call] rest IH]; intros sm Hs; [exact Hs|].
  destruct Hs as (Hw & He & Hl).
  destruct call as [id from to reason operator|id from to reason operator]; simpl; apply IH.
  - destruct (record_workflow_cases now sm id from to reason operator)
      as [[Hv ->]|(err & _ & ->)]; simpl; [|repeat split; assumption].
    repeat split; try assumption.
    apply Forall_app; split; [exact Hl|]. constructor; [|constructor].
    left. simpl. split; [reflexivity|].
    apply ValidateWorkflowTransition_ok_iff.
    unfold ValidateWorkflowTransition in *. simpl. rewrite <- Hw. exact Hv.
  - destruct (record_execution_cases now sm id from to reason operator)
      as [[Hv ->]|(err & _ & ->)]; simpl; [|repeat split; assumption].
    repeat split; try assumption.
    apply Forall_app; split; [exact Hl|]. constructor; [|constructor].
    right. simpl. split; [reflexivity|].
    apply ValidateExecutionTransition_ok_iff.
    unfold ValidateExecutionTransition in *. simpl. rewrite <- He. exact Hv.
Qed.

(** X1. Whatever calls of [RecordWorkflowTransition] and
    [RecordExecutionTransition] are made on a new State Manager, every
    transition of its history is a pair of the transition table of its
    entity type: an illegal transition is never recorded. *)
Theorem recorded_transitions_are_legal (calls : list (Z * record_call)) :
  forall transition,
    In transition (transitionHistory (record_all NewStateManager calls)) ->
    legal transition.
Proof.
  assert (Hs : sound (record_all NewStateManager calls)).
  { apply record_all_sound. repeat split. constructor. }
  destruct Hs as (_ & _ & Hl). intros transition Hin.
  rewrite Forall_forall in Hl. apply Hl. apply list_elem_of_In, Hin.
Qed.

Lemma recorded_transitions_are_legal_witness :
  In {| EntityType := "execution"; EntityID := "e1"; FromStatus := "pending";
        ToStatus := "running"; Reason := "start"; Operator := "admin"; Timestamp := 3 |}
     (transitionHistory
        (record_all NewStateManager
           [(1, RecordWorkflow "w1" "inactive" "active" "go live" "admin");
            (2, RecordExecution "e1" "completed" "running" "again" "admin");
            (3, RecordExecution "e1" "pending" "running" "start" "admin")]))
  /\ legal {| EntityType := "execution"; EntityID := "e1"; FromStatus := "pending";
              ToStatus := "running"; Reason := "start"; Operator := "admin";
              Timestamp := 3 |}.
Proof.
  assert (Hin :
    In {| EntityType := "execution"; EntityID := "e1"; FromStatus := "pending";
          ToStatus := "running"; Reason := "start"; Operator := "admin"; Timestamp := 3 |}
       (transitionHistory
          (record_all NewStateManager
             [(1, RecordWorkflow "w1" "inactive" "active" "go live" "admin");
              (2, RecordExecution "e1" "completed" "running" "again" "admin");
              (3, RecordExecution "e1" "pending" "running" "start" "admin")]))).
  { vm_compute. right. left. reflexivity. }
  split; [exact Hin|].
  exact (recorded_transitions_are_legal _ _ Hin).
Defined.

Lemma allowed_iff_validated (o : option (list string)) (to : string) (e1 e2 : error) :
  In to (match o with None => [] | Some allowed => allowed end)
  <-> match o with
      | None => Some e1
      | Some allowed => if range_allowed allowed to then None else Some e2
      end = None.
Proof.
  destruct o as [allowed|].
  - rewrite <- range_allowed_In. destruct (range_allowed allowed to);
      split; intros Hto; congruence.
  - split; [contradiction | discriminate].
Qed.

(** X2. The targets that [GetAllowedWorkflowTransitions] and
    [GetAllowedExecutionTransitions] list for a status are exactly the
    targets that the validation accepts from that status, whatever the
    tables of the manager. *)
Theorem allowed_targets_agree_with_validation (sm : StateManager) (from to : string) :
  (In to (GetAllowedWorkflowTransitions sm from)
   <-> ValidateWorkflowTransition sm from to = None)
  /\ (In to (GetAllowedExecutionTransitions sm from)
      <-> ValidateExecutionTransition sm from to = None).
Proof.
  split.
  - exact (allowed_iff_validated (workflowTransitions sm !! from) to _ _).
  - exact (allowed_iff_validated (executionTransitions sm !! from) to _ _).
Qed.

(** X3. For the State Manager the final execution states are completed
    and cancelled and no others (failed and timeout are finished for the
    execution model but not final here), and no workflow state is final;
    from a final state the validation accepts no target. *)
Theorem final_states (status : string) :
  (IsExecutionFinalState NewStateManager status = true
   <-> status = "completed" \/ status = "cancelled")
  /\ IsWorkflowFinalState NewStateManager status = false
  /\ (IsExecutionFinalState NewStateManager status = true ->
      forall to, ValidateExecutionTransition NewStateManager status to <> None)
  /\ ExecutionStatus_IsFinished "failed" = true
  /\ IsExecutionFinalState NewStateManager "failed" = false.
Proof.
  assert (Hfin : IsExecutionFinalState NewStateManager status = true
                 <-> status = "completed" \/ status = "cancelled").
  { unfold IsExecutionFinalState. simpl. rewrite lookup_initial_executionTransitions.
    repeat case_bool_decide; subst; simpl in *;
      intuition (try discriminate; try congruence). }
  split; [exact Hfin|]. split; [|split; [|split; reflexivity]].
  - unfold IsWorkflowFinalState. simpl. rewrite lookup_initial_workflowTransitions.
    repeat case_bool_decide; subst; simpl in *; try reflexivity; discriminate.
  - intros H to Hv. apply Hfin in H.
    apply ValidateExecutionTransition_ok_iff in Hv. simpl in Hv.
    destruct H as [-> | ->];
      repeat (destruct Hv as [Hv|Hv]); try discriminate; contradiction.
Qed.

Lemma cleanup_loop_spec (history : list StateTransition) (beforeTime : Z) :
  fst (cleanup_loop history beforeTime)
  = filter (fun transition => beforeTime < Timestamp transition) history
  /\ snd (cleanup_loop history beforeTime)
     + Z.of_nat (length (fst (cleanup_loop history beforeTime)))
     = Z.of_nat (length history)
  /\ 0 <= snd (cleanup_loop history beforeTime).
Proof.
  induction history as [|transition rest (IH1 & IH2 & IH3)]; simpl; [repeat split; lia|].
  destruct (cleanup_loop rest beforeTime) as [remaining cleanedCount]. simpl in *.
  destruct (beforeTime <? Timestamp transition) eqn:Hlt; simpl.
  - apply Z.ltb_lt in Hlt. rewrite filter_cons_True by exact Hlt.
    split; [f_equal; exact IH1|]. split; simpl; lia.
  - apply Z.ltb_ge in Hlt. rewrite filter_cons_False by lia.
    split; [exact IH1|]. split; simpl; lia.
Qed.

(** X4. [CleanupHistory] keeps, in their order, exactly the transitions
    whose timestamp is after the given time, returns the number of
    transitions it dropped and leaves the tables alone; cleaning again
    with the same time drops nothing. *)
Theorem cleanup_history (sm : StateManager) (beforeTime : Z) :
  let cleaned := snd (CleanupHistory sm beforeTime) in
  transitionHistory cleaned
  = filter (fun transition => beforeTime < Timestamp transition) (transitionHistory sm)
  /\ fst (CleanupHistory sm beforeTime)
     = Z.of_nat (length (transitionHistory sm))
       - Z.of_nat (length (transitionHistory cleaned))
  /\ workflowTransitions cleaned = workflowTransitions sm
  /\ executionTransitions cleaned = executionTransitions sm
  /\ CleanupHistory cleaned beforeTime = (0, cleaned).
Proof.
  cbv zeta. unfold CleanupHistory.
  pose proof (cleanup_loop_spec (transitionHistory sm) beforeTime) as (H1 & H2 & _).
  destruct (cleanup_loop (transitionHistory sm) beforeTime) as [remaining n] eqn:Hloop.
  simpl in *. split; [exact H1|]. split; [lia|]. split; [reflexivity|].
  split; [reflexivity|].
  pose proof (cleanup_loop_spec remaining beforeTime) as (H3 & H4 & H5).
  destruct (cleanup_loop remaining beforeTime) as [remaining' n'] eqn:Hloop'.
  simpl in *.
  assert (Hsame : remaining' = remaining).
  { rewrite H3, H1. apply list_filter_filter_l. auto. }
  subst remaining'. rewrite Hsame in H4 |- *. f_equal. lia.
Qed.

(** X5. A call of [RecordWorkflowTransition] succeeds exactly when the
    validation accepts the transition. Then the history that
    [GetTransitionHistory] gives for the workflow is the former one
    followed by the new transition, and the history of every other entity
    id is as before; when the call fails the manager is unchanged. *)
Theorem record_then_query
    (now : Z) (sm : StateManager) (id from to reason operator : string) :
  let result := RecordWorkflowTransition now sm id from to reason operator in
  (fst result = None <-> ValidateWorkflowTransition sm from to = None)
  /\ (fst result <> None -> snd result = sm)
  /\ (fst result = None ->
      GetTransitionHistory (snd result) "workflow" id
      = (GetTransitionHistory sm "workflow" id
         ++ [{| EntityType := "workflow"; EntityID := id; FromStatus := from;
                ToStatus := to; Reason := reason; Operator := operator;
                Timestamp := now |}])%list
      /\ forall other, other <> id -> other <> "" ->
           GetTransitionHistory (snd result) "workflow" other
           = GetTransitionHistory sm "workflow" other).
Proof.
  cbv zeta.
  destruct (record_workflow_cases now sm id from to reason operator)
    as [[Hv ->]|(err & Hv & ->)]; simpl; rewrite Hv.
  - split; [tauto|]. split; [congruence|]. intros _.
    unfold GetTransitionHistory. simpl. split.
    + rewrite filter_app. f_equal. rewrite filter_cons_True by (simpl; tauto).
      reflexivity.
    + intros other Hne Hnonempty. rewrite filter_app.
      rewrite filter_cons_False by (simpl; intros [_ [H|H]]; congruence).
      rewrite filter_nil. apply app_nil_r.
  - split; [split; discriminate|]. split; [reflexivity|]. congruence.
Qed.

End TransitionHistory.

(** ** The status machine and the retry budget of a node *)

Section NodeMethods.
Import golang node_methods.

Lemma lookup_node_transitions (s : string) :
  transitions !! s =
    if bool_decide (s = "pending") then Some ["running"; "skipped"; "cancelled"]
    else if bool_decide (s = "running")
    then Some ["completed"; "failed"; "cancelled"; "retrying"]
    else if bool_decide (s = "retrying") then Some ["running"; "failed"; "cancelled"]
    else if bool_decide (s = "completed") then Some []
    else if bool_decide (s = "failed") then Some ["pending"; "retrying"]
    else if bool_decide (s = "skipped") then Some []
    else if bool_decide (s = "cancelled") then Some ["pending"]
    else None.
Proof.
  unfold transitions, NodeStatusPending, NodeStatusRunning, NodeStatusRetrying,
    NodeStatusCompleted, NodeStatusFailed, NodeStatusSkipped, NodeStatusCancelled.
  repeat case_bool_decide; simplify_map_eq; reflexivity.
Qed.

Lemma CanTransitionTo_pairs (s target : string) :
  CanTransitionTo s target = true <-> In (s, target) transition_pairs.
Proof.
  unfold CanTransitionTo. rewrite lookup_node_transitions. split.
  - repeat case_bool_decide; subst; try discriminate;
      intros E; apply range_allowed_In in E; simpl in E;
      repeat (destruct E as [E|E]); try contradiction; subst; simpl; tauto.
  - intros H. simpl in H.
    repeat (destruct H as [H|H]); try contradiction; injection H as <- <-; reflexivity.
Qed.

(** X6. The status machine of a node: no status can transition to
    itself; the final states completed and skipped have no successor; the
    status inactive is isolated, no transition leaves it and none reaches
    it, so that [UpdateStatus] always fails on an inactive node and never
    makes a node inactive; and a transition joins valid statuses only. *)
Theorem node_status_machine (s target : string) :
  CanTransitionTo s s = false
  /\ (IsFinalState s = true -> CanTransitionTo s target = false)
  /\ CanTransitionTo "inactive" target = false
  /\ CanTransitionTo s "inactive" = false
  /\ (forall n, Node.Status n = "inactive" ->
        exists err, UpdateStatus n target = (Some err, n))
  /\ (forall n, fst (UpdateStatus n "inactive") <> None)
  /\ (CanTransitionTo s target = true ->
      NodeStatusEnum_IsValid s = true /\ NodeStatusEnum_IsValid target = true).
Proof.
  assert (Hno : forall a b, ~ In (a, b) transition_pairs -> CanTransitionTo a b = false).
  { intros a b H. destruct (CanTransitionTo a b) eqn:E; [|reflexivity].
    apply CanTransitionTo_pairs in E. contradiction. }
  assert (Hinactive : forall t, CanTransitionTo "inactive" t = false).
  { intros t. apply Hno. simpl. intros H.
    repeat (destruct H as [H|H]); try contradiction; discriminate. }
  assert (Hto : forall a, CanTransitionTo a "inactive" = false).
  { intros a. apply Hno. simpl. intros H.
    repeat (destruct H as [H|H]); try contradiction; discriminate. }
  split; [|split; [|split; [|split; [|split; [|split]]]]].
  - apply Hno. simpl. intros H.
    repeat (destruct H as [H|H]); try contradiction;
      injection H as H1 H2; rewrite <- H1 in H2; discriminate.
  - unfold IsFinalState, NodeStatusCompleted, NodeStatusSkipped.
    intros H. apply orb_prop in H.
    apply Hno. simpl. intros Hin.
    destruct H as [H|H]; apply bool_decide_eq_true in H; subst;
      repeat (destruct Hin as [Hin|Hin]); try contradiction; discriminate.
  - apply Hinactive.
  - apply Hto.
  - intros n Hst. unfold UpdateStatus. rewrite Hst, Hinactive. simpl. eauto.
  - intros n. unfold UpdateStatus. rewrite Hto. simpl. discriminate.
  - intros H. apply CanTransitionTo_pairs in H. simpl in H.
    repeat (destruct H as [H|H]); try contradiction; injection H as <- <-;
      split; reflexivity.
Qed.

Lemma increment_times_count (k : nat) (n : Node.t) :
  Node.RetryCount n = 0 -> Z.of_nat k <= int64_max ->
  Node.RetryCount (increment_times k n) = Z.of_nat k
  /\ Node.Config (increment_times k n) = Node.Config n.
Proof.
  intros H0. induction k as [|k IH]; intros Hk; [split; [exact H0|reflexivity]|].
  destruct IH as [IHc IHcfg]; [lia|].
  simpl. rewrite IHc, IHcfg. split; [|reflexivity].
  rewrite wrap64_in_range; [lia|].
  unfold in_int64, int64_min, int64_max in *. lia.
Qed.

(** X7. The retry budget of a node: starting from a retry count of 0, after
    [k] calls of [IncrementRetryCount] the node can still be retried
    exactly when [k] is below [GetMaxRetries], which is the configured
    maximum and 3 without a retry configuration. *)
Theorem node_retry_budget (n : Node.t) (k : nat) :
  Node.RetryCount n = 0 ->
  Z.of_nat k <= int64_max ->
  (CanRetry (increment_times k n) = true <-> Z.of_nat k < Node.GetMaxRetries n)
  /\ (Node.Config n = None -> Node.GetMaxRetries n = 3).
Proof.
  intros H0 Hk. destruct (increment_times_count k n H0 Hk) as [Hc Hcfg].
  split.
  - unfold CanRetry, Node.GetMaxRetries. rewrite Hc, Hcfg.
    destruct (Node.Config n) as [config|]; [|apply Z.ltb_lt].
    destruct (NodeConfig.RetryConfig config); apply Z.ltb_lt.
  - intros Hnone. unfold Node.GetMaxRetries. rewrite Hnone. reflexivity.
Qed.

Lemma node_retry_budget_witness :
  CanRetry (increment_times 2 (examples.plain_node "a")) = true
  /\ CanRetry (increment_times 3 (examples.plain_node "a")) = false.
Proof.
  assert (H2 : Z.of_nat 2 <= int64_max) by (vm_compute; discriminate).
  assert (H3 : Z.of_nat 3 <= int64_max) by (vm_compute; discriminate).
  destruct (node_retry_budget (examples.plain_node "a") 2 eq_refl H2) as [Hiff2 Hmax].
  destruct (node_retry_budget (examples.plain_node "a") 3 eq_refl H3) as [Hiff3 _].
  split.
  - apply Hiff2. rewrite Hmax by reflexivity. simpl. lia.
  - destruct (CanRetry (increment_times 3 (examples.plain_node "a"))) eqn:E;
      [|reflexivity].
    pose proof (proj1 Hiff3 eq_refl) as Hlt.
    rewrite Hmax in Hlt by reflexivity. simpl in Hlt. lia.
Defined.

(** X8. A node without dependencies is ready whatever has completed, and
    readiness is monotone: a node that is ready stays ready when more
    nodes are marked completed. *)
Theorem node_readiness (n : Node.t) (completedNodes completedNodes' : gmap string bool) :
  (Node.Dependencies n = [] -> IsReady n completedNodes = true)
  /\ ((forall dep, completed completedNodes dep = true ->
                   completed completedNodes' dep = true) ->
      IsReady n completedNodes = true -> IsReady n completedNodes' = true)
  /\ (IsReady n completedNodes = true <->
      forall dep, In dep (Node.Dependencies n) -> completedNodes !! dep = Some true).
Proof.
  unfold IsReady. split; [|split].
  - intros ->. reflexivity.
  - intros Hmono. rewrite !forallb_forall. intros H dep Hin. apply Hmono, H, Hin.
  - rewrite forallb_forall. unfold completed. split; intros H dep Hin.
    + specialize (H dep Hin). destruct (completedNodes !! dep) as [[]|];
        congruence.
    + rewrite (H dep Hin). reflexivity.
Qed.

Lemma node_readiness_witness :
  IsReady (examples.plain_node "a") ∅ = true.
Proof.
  destruct (node_readiness (examples.plain_node "a") ∅ ∅) as [H _].
  apply H. reflexivity.
Defined.

End NodeMethods.

(** ** Validation, evaluation and counters of an edge *)

Section EdgeMethods.
Import golang spec edge_methods.

(** X9. [Edge.Validate] accepts an edge exactly when its id and both node
    ids are not empty, it does not connect a node to itself, its type and
    status are valid and, if it is conditional, it carries a condition
    with an expression that is not empty. Hence a workflow all of whose
    edges pass [Validate] has no self-loop and its conditional edges carry
    expressions. *)
Theorem edge_validate_characterised :
  (forall e : Edge.t,
      Edge.Validate e = None <->
      Edge.ID e <> "" /\ Edge.FromNodeID e <> "" /\ Edge.ToNodeID e <> ""
      /\ Edge.FromNodeID e <> Edge.ToNodeID e
      /\ Edge.EdgeTypeEnum_IsValid (Edge.Type_ e) = true
      /\ Edge.EdgeStatusEnum_IsValid (Edge.Status e) = true
      /\ (Edge.Type_ e = "conditional" ->
          exists config condition,
            Edge.Config e = Some config
            /\ EdgeConfig.Condition config = Some condition
            /\ EdgeCondition.Expression condition <> ""))
  /\ (forall w : Workflow.t,
        (forall e, In e (edges_of w) -> Edge.Validate e = None) ->
        conditional_edges_have_expressions w
        /\ forall e, In e (edges_of w) -> Edge.FromNodeID e <> Edge.ToNodeID e).
Proof.
  assert (Hchar : forall e : Edge.t,
      Edge.Validate e = None <->
      Edge.ID e <> "" /\ Edge.FromNodeID e <> "" /\ Edge.ToNodeID e <> ""
      /\ Edge.FromNodeID e <> Edge.ToNodeID e
      /\ Edge.EdgeTypeEnum_IsValid (Edge.Type_ e) = true
      /\ Edge.EdgeStatusEnum_IsValid (Edge.Status e) = true
      /\ (Edge.Type_ e = "conditional" ->
          exists config condition,
            Edge.Config e = Some config
            /\ EdgeConfig.Condition config = Some condition
            /\ EdgeCondition.Expression condition <> "")).
  { intros e. unfold Edge.Validate, Edge.EdgeTypeConditional.
    do 4 (case_bool_decide; [split; [discriminate | tauto]|]).
    destruct (Edge.EdgeTypeEnum_IsValid (Edge.Type_ e)); simpl;
      [|split; [discriminate | intros (_ & _ & _ & _ & ? & _); discriminate]].
    destruct (Edge.EdgeStatusEnum_IsValid (Edge.Status e)); simpl;
      [|split; [discriminate | intros (_ & _ & _ & _ & _ & ? & _); discriminate]].
    case_bool_decide as Hcond.
    - destruct (Edge.Config e) as [config|] eqn:Hcfg.
      + destruct (EdgeConfig.Condition config) as [condition|] eqn:Hcnd.
        * case_bool_decide as Hexpr.
          -- split; [discriminate|].
             intros (_ & _ & _ & _ & _ & _ & Himp).
             destruct (Himp Hcond) as (c & d & ? & ? & Hne). simplify_eq.
          -- split; [|reflexivity]. intros _. repeat split; auto.
             intros _. eauto.
        * split; [discriminate|]. intros (_ & _ & _ & _ & _ & _ & Himp).
          destruct (Himp Hcond) as (c & d & ? & ? & _). simplify_eq.
      + split; [discriminate|]. intros (_ & _ & _ & _ & _ & _ & Himp).
        destruct (Himp Hcond) as (c & d & ? & _). simplify_eq.
    - split; [|reflexivity]. intros _. repeat split; auto. contradiction. }
  split; [exact Hchar|].
  intros w Hall. split.
  - intros e Hin Hc. apply Hall, Hchar in Hin as (_ & _ & _ & _ & _ & _ & H).
    apply H. unfold Edge.IsConditional, Edge.EdgeTypeConditional in Hc.
    apply bool_decide_eq_true in Hc. exact Hc.
  - intros e Hin. apply Hall, Hchar in Hin. tauto.
Qed.

(** X10. [EvaluateCondition] never answers true together with an error.
    An edge that is not conditional evaluates to true whatever its
    configuration and the variables; a conditional edge whose condition
    is disabled, or is not of type "simple", evaluates to the default
    value of the condition without reading the expression; a conditional
    edge without condition gives an error. *)
Theorem evaluate_condition_outcomes (e : Edge.t) (context : gmap string Value) :
  (forall b err, Edge.EvaluateCondition e context = (b, Some err) -> b = false)
  /\ (Edge.Type_ e <> "conditional" -> Edge.EvaluateCondition e context = (true, None))
  /\ (forall config condition,
        Edge.Type_ e = "conditional" -> Edge.Config e = Some config ->
        EdgeConfig.Condition config = Some condition ->
        EdgeCondition.Enabled condition = false
        \/ EdgeCondition.Type_ condition <> "simple" ->
        Edge.EvaluateCondition e context = (EdgeCondition.DefaultValue condition, None))
  /\ (Edge.Type_ e = "conditional" ->
      Edge.Config e = None
      \/ (exists config, Edge.Config e = Some config
                         /\ EdgeConfig.Condition config = None) ->
      Edge.EvaluateCondition e context
      = (false, Some "conditional edge missing condition config")).
Proof.
  split; [|split; [|split]].
  - intros b err. unfold Edge.EvaluateCondition.
    destruct (negb (Edge.IsConditional e)); [discriminate|].
    destruct (Edge.Config e) as [config|]; [|intros [= <- _]; reflexivity].
    destruct (EdgeConfig.Condition config) as [condition|];
      [|intros [= <- _]; reflexivity].
    destruct (negb (EdgeCondition.Enabled condition)); [discriminate|].
    case_bool_decide; [|discriminate].
    unfold Edge.evaluateSimpleCondition.
    repeat case_bool_decide; try discriminate.
    destruct (Fields _) as [|f [|o [|v [|x l]]]]; try (intros [= <- _]; reflexivity).
    destruct (context !! f) as [val|]; [|discriminate].
    destruct val; try (intros [= <- _]; reflexivity);
      (destruct (Sscanf_d v); [|intros [= <- _]; reflexivity]);
      (destruct (Edge.compare o _ _); [discriminate | intros [= <- _]; reflexivity]).
  - intros Hne. unfold Edge.EvaluateCondition, Edge.IsConditional,
      Edge.EdgeTypeConditional.
    rewrite bool_decide_eq_false_2 by exact Hne. reflexivity.
  - intros config condition Hty Hc Hcond Hor.
    unfold Edge.EvaluateCondition, Edge.IsConditional, Edge.EdgeTypeConditional.
    rewrite Hty, Hc, Hcond. simpl.
    destruct (EdgeCondition.Enabled condition); simpl; [|reflexivity].
    destruct Hor as [Hor|Hor]; [discriminate|].
    rewrite bool_decide_eq_false_2 by exact Hor. reflexivity.
  - intros Hty Hor.
    unfold Edge.EvaluateCondition, Edge.IsConditional, Edge.EdgeTypeConditional.
    rewrite Hty. simpl.
    destruct Hor as [-> | (config & -> & ->)]; reflexivity.
Qed.

Lemma compare_table (n t : Z) :
  Edge.compare ">" n t = Some (t <? n) /\ Edge.compare ">=" n t = Some (t <=? n)
  /\ Edge.compare "<" n t = Some (n <? t) /\ Edge.compare "<=" n t = Some (n <=? t)
  /\ Edge.compare "==" n t = Some (n =? t) /\ Edge.compare "=" n t = Some (n =? t)
  /\ Edge.compare "!=" n t = Some (negb (n =? t)).
Proof. repeat split. Qed.

Lemma compare_unsupported (op : string) (n t : Z) :
  ~ In op comparison_operators -> Edge.compare op n t = None.
Proof.
  unfold comparison_operators, Edge.compare. simpl. intros H.
  repeat case_bool_decide; simpl; try reflexivity; exfalso; apply H; subst; tauto.
Qed.

Lemma complementary_results
    (op op' : string) (f : Z -> Z -> bool) (e1 e2 field value : string)
    (context : gmap string Value) :
  (forall n t, Edge.compare op n t = Some (f n t)) ->
  (forall n t, Edge.compare op' n t = Some (negb (f n t))) ->
  Fields e1 = [field; op; value] -> Fields e2 = [field; op'; value] ->
  forall b, Edge.evaluateSimpleCondition e1 context = (b, None) ->
            context !! field <> None ->
            Edge.evaluateSimpleCondition e2 context = (negb b, None).
Proof.
  intros H1 H2 HF1 HF2 b.
  rewrite (evaluateSimpleCondition_fields _ _ _ _ _ HF1),
    (evaluateSimpleCondition_fields _ _ _ _ _ HF2).
  destruct (context !! field) as [v|]; [|congruence].
  destruct v; try discriminate; (destruct (Sscanf_d value); [|discriminate]);
    rewrite H1, H2; intros [= <-] _; reflexivity.
Qed.


End EdgeMethods.

(** ** The counters of edges and workflows *)

Section Counters.
Import golang spec edge_methods.

Lemma quot_between (a d n : Z) :
  1 <= n -> Z.min a d <= Z.quot (a * (n - 1) + d) n <= Z.max a d.
Proof.
  intros Hn.
  assert (Hlo : forall lo x, lo * n <= x -> lo <= Z.quot x n).
  { intros lo x H. rewrite <- (Z.quot_mul lo n) by lia. apply Z.quot_le_mono; lia. }
  assert (Hhi : forall hi x, x <= hi * n -> Z.quot x n <= hi).
  { intros hi x H. rewrite <- (Z.quot_mul hi n) by lia. apply Z.quot_le_mono; lia. }
  destruct (Z.le_gt_cases a d) as [Hle|Hgt].
  - rewrite Z.min_l, Z.max_r by lia. split; [apply Hlo | apply Hhi]; nia.
  - rewrite Z.min_r, Z.max_l by lia. split; [apply Hlo | apply Hhi]; nia.
Qed.

(** X12. One call of [RecordExecution] on the counters of an edge, as
    long as the counters stay within int64: the execution count grows by
    one and so does the sum of the success and failure counts, so that
    "executions = successes + failures" is kept; the last execution time
    is the time of the call; and, when the accumulated time fits an int64,
    the new average lies between the old average and the new duration (it
    is the duration itself for the first execution). *)
Theorem edge_record_execution
    (now : Z) (execution : option EdgeExecution.t) (success : bool) (duration : Z)
    (err : option error) :
  let x := match execution with Some x => x | None => EdgeExecution.zero end in
  let x' := RecordExecution now execution success duration err in
  let n := EdgeExecution.ExecutionCount x + 1 in
  0 <= EdgeExecution.ExecutionCount x -> in_int64 n ->
  in_int64 (EdgeExecution.SuccessCount x + 1) ->
  in_int64 (EdgeExecution.FailureCount x + 1) ->
  EdgeExecution.ExecutionCount x' = n
  /\ EdgeExecution.SuccessCount x' + EdgeExecution.FailureCount x'
     = EdgeExecution.SuccessCount x + EdgeExecution.FailureCount x + 1
  /\ (EdgeExecution.ExecutionCount x
      = EdgeExecution.SuccessCount x + EdgeExecution.FailureCount x ->
      EdgeExecution.ExecutionCount x'
      = EdgeExecution.SuccessCount x' + EdgeExecution.FailureCount x')
  /\ EdgeExecution.LastExecutionTime x' = Some now
  /\ (in_int64 ((n - 1) * EdgeExecution.AverageExecutionTime x) ->
      in_int64 ((n - 1) * EdgeExecution.AverageExecutionTime x + duration) ->
      Z.min (EdgeExecution.AverageExecutionTime x) duration
      <= EdgeExecution.AverageExecutionTime x'
      <= Z.max (EdgeExecution.AverageExecutionTime x) duration
      /\ (EdgeExecution.ExecutionCount x = 0 ->
          EdgeExecution.AverageExecutionTime x' = duration)).
Proof.
  intros x x' n Hpos Hn Hs Hf.
  assert (Hcount : EdgeExecution.ExecutionCount x' = n).
  { subst x' x n. unfold RecordExecution. simpl. apply wrap64_in_range, Hn. }
  assert (Hsum : EdgeExecution.SuccessCount x' + EdgeExecution.FailureCount x'
                 = EdgeExecution.SuccessCount x + EdgeExecution.FailureCount x + 1).
  { subst x' x. unfold RecordExecution. simpl.
    destruct success; rewrite wrap64_in_range by assumption; lia. }
  split; [exact Hcount|]. split; [exact Hsum|]. split; [lia|].
  split; [reflexivity|].
  intros Hprod Htotal.
  assert (Havg : EdgeExecution.AverageExecutionTime x'
                 = Z.quot (EdgeExecution.AverageExecutionTime x * (n - 1) + duration) n).
  { subst x'. unfold RecordExecution. simpl. fold x. fold n.
    rewrite (wrap64_in_range n Hn).
    replace (0 <? n) with true by (symmetry; apply Z.ltb_lt; lia).
    assert (Hn1 : in_int64 (n - 1))
      by (unfold in_int64, int64_min, int64_max in *; lia).
    unfold div64.
    rewrite (wrap64_in_range _ Hn1), (wrap64_in_range _ Hprod),
      (wrap64_in_range _ Htotal).
    rewrite wrap64_in_range by (apply quot_in_int64; [assumption | lia]).
    f_equal. lia. }
  rewrite Havg. split; [apply quot_between; lia|].
  intros H0. subst n. rewrite H0. simpl. rewrite Z.mul_0_r, Z.quot_1_r. reflexivity.
Qed.

Lemma edge_record_execution_witness :
  EdgeExecution.ExecutionCount
    (RecordExecution 7 None true 40 None) = 1
  /\ EdgeExecution.AverageExecutionTime (RecordExecution 7 None true 40 None) = 40.
Proof.
  destruct (edge_record_execution 7 None true 40 None) as (Hc & _ & _ & _ & Havg).
  - simpl. lia.
  - vm_compute. split; discriminate.
  - vm_compute. split; discriminate.
  - vm_compute. split; discriminate.
  - split; [exact Hc|]. apply Havg.
    + vm_compute. split; discriminate.
    + vm_compute. split; discriminate.
    + reflexivity.
Defined.

(** X13. One call of [UpdateStatistics] on a workflow whose counters stay
    within int64: it does not panic, the total grows by one and so does
    the sum of the successful and failed runs, so that "total =
    successful + failed" is kept; and, when the accumulated time fits an
    int64, the new average lies between the old average and the new
    duration. *)
Theorem workflow_update_statistics (now : Z) (w : Workflow.t) (d : Z) (success : bool) :
  let st := match Workflow.Statistics w with
            | Some st => st
            | None => WorkflowStatistics.zero
            end in
  let n := WorkflowStatistics.TotalExecutions st + 1 in
  0 <= WorkflowStatistics.TotalExecutions st -> in_int64 n ->
  in_int64 (WorkflowStatistics.SuccessfulRuns st + 1) ->
  in_int64 (WorkflowStatistics.FailedRuns st + 1) ->
  exists w' st',
    Workflow.UpdateStatistics now w d success = Some w'
    /\ Workflow.Statistics w' = Some st'
    /\ WorkflowStatistics.TotalExecutions st' = n
    /\ WorkflowStatistics.SuccessfulRuns st' + WorkflowStatistics.FailedRuns st'
       = WorkflowStatistics.SuccessfulRuns st + WorkflowStatistics.FailedRuns st + 1
    /\ WorkflowStatistics.SuccessfulRuns st'
       = WorkflowStatistics.SuccessfulRuns st + (if success then 1 else 0)
    /\ WorkflowStatistics.LastExecutionTime st' = Some now
    /\ (in_int64 (WorkflowStatistics.AverageExecTime st * (n - 1)) ->
        in_int64 (WorkflowStatistics.AverageExecTime st * (n - 1) + d) ->
        Z.min (WorkflowStatistics.AverageExecTime st) d
        <= WorkflowStatistics.AverageExecTime st'
        <= Z.max (WorkflowStatistics.AverageExecTime st) d).
Proof.
  intros st n Hpos Hn Hs Hf.
  unfold Workflow.UpdateStatistics. fold st. fold n.
  rewrite (wrap64_in_range n Hn).
  assert (Hroll : exists average,
             Workflow.rolled_average (WorkflowStatistics.AverageExecTime st) n d
             = Some average
             /\ (in_int64 (WorkflowStatistics.AverageExecTime st * (n - 1)) ->
                 in_int64 (WorkflowStatistics.AverageExecTime st * (n - 1) + d) ->
                 average = Z.quot (WorkflowStatistics.AverageExecTime st * (n - 1) + d) n)).
  { unfold Workflow.rolled_average.
    destruct (n =? 1) eqn:H1.
    - apply Z.eqb_eq in H1. eexists. split; [reflexivity|]. intros _ _.
      rewrite H1, Z.quot_1_r. lia.
    - destruct (n =? 0) eqn:H0; [apply Z.eqb_eq in H0; lia|].
      eexists. split; [reflexivity|]. intros Hprod Hsum.
      assert (Hn1 : in_int64 (n - 1))
        by (unfold in_int64, int64_min, int64_max in *; lia).
      unfold div64.
      rewrite (wrap64_in_range _ Hn1), (wrap64_in_range _ Hprod),
        (wrap64_in_range _ Hsum).
      apply wrap64_in_range, quot_in_int64; [assumption | lia]. }
  destruct Hroll as (average & -> & Havg).
  do 2 eexists. split; [reflexivity|]. split; [reflexivity|]. simpl.
  split; [reflexivity|]. split.
  { destruct success; rewrite wrap64_in_range by assumption; lia. }
  split.
  { destruct success; [rewrite wrap64_in_range by assumption|]; lia. }
  split; [reflexivity|].
  intros Hprod Hsum. rewrite (Havg Hprod Hsum). apply quot_between. lia.
Qed.

Lemma workflow_update_statistics_witness :
  exists w' st',
    Workflow.UpdateStatistics 1
      (Workflow.with_Statistics examples.cyclic_workflow (examples.statistics_of 3 10))
      40 false = Some w'
    /\ Workflow.Statistics w' = Some st'
    /\ WorkflowStatistics.TotalExecutions st' = 4
    /\ WorkflowStatistics.SuccessfulRuns st' + WorkflowStatistics.FailedRuns st' = 4.
Proof.
  destruct (workflow_update_statistics 1
              (Workflow.with_Statistics examples.cyclic_workflow
                 (examples.statistics_of 3 10)) 40 false)
    as (w' & st' & Hw & Hst & Ht & Hsum & _).
  - vm_compute. discriminate.
  - vm_compute. split; discriminate.
  - vm_compute. split; discriminate.
  - vm_compute. split; discriminate.
  - exists w', st'. repeat split; assumption.
Defined.

End Counters.

(** ** The life cycle of an execution and its node records *)

Section ExecutionLifeCycle.
Import golang models state_manager execution_methods.

Lemma Sub_exact (t u : Z) : in_int64 (t - u) -> Sub t u = t - u.
Proof.
  unfold Sub, in_int64. intros [Hlo Hhi].
  destruct (Z.ltb_spec (t - u) int64_min); [lia|].
  destruct (Z.ltb_spec int64_max (t - u)); [lia|reflexivity].
Qed.

Lemma Sub_in_int64 (t u : Z) : in_int64 (Sub t u).
Proof.
  unfold Sub, in_int64.
  destruct (Z.ltb_spec (t - u) int64_min); [vm_compute; split; discriminate|].
  destruct (Z.ltb_spec int64_max (t - u)); [vm_compute; split; discriminate|lia].
Qed.

Lemma execution_table_validated (from to : ExecutionStatus) :
  In (from, to) spec_execution_table
  <-> ValidateExecutionTransition NewStateManager from to = None.
Proof.
  symmetry. apply ValidateExecutionTransition_ok_iff.
Qed.


(** X15. An execution that is started at [t1] and completed at [t2]: both
    calls succeed without panic, whatever the metrics were before; the
    execution is completed, carries both times, and its execution time,
    like the duration that [GetDuration] reports at any later moment, is
    [t2 - t1] (saturated to the range of a Duration). *)
Theorem start_then_complete (t1 t2 now : Z) (e : Execution.t) :
  Execution.Status e = ExecutionStatusPending ->
  exists e1 e2 m,
    Start t1 e = (None, e1)
    /\ Complete t2 e1 = Some (None, e2)
    /\ Execution.Status e2 = ExecutionStatusCompleted
    /\ Execution.StartedAt e2 = Some t1
    /\ Execution.CompletedAt e2 = Some t2
    /\ Execution.Metrics e2 = Some m
    /\ ExecutionMetrics.ExecutionTime m = Sub t2 t1
    /\ GetDuration now e2 = Sub t2 t1
    /\ (in_int64 (t2 - t1) -> GetDuration now e2 = t2 - t1)
    /\ Execution.IsFinished e2 = true.
Proof.
  intros Hs. unfold Start. rewrite Hs. simpl.
  destruct (Execution.Metrics e) as [m|] eqn:Hm.
  - eexists _, _, _. split; [reflexivity|]. unfold Complete, finish. simpl.
    split; [reflexivity|]. simpl. unfold GetDuration. simpl.
    repeat split; try reflexivity. apply Sub_exact.
  - eexists _, _, _. split; [reflexivity|]. unfold Complete, finish. simpl.
    split; [reflexivity|]. simpl. unfold GetDuration. simpl.
    repeat split; try reflexivity. apply Sub_exact.
Qed.

Lemma start_then_complete_witness :
  Execution.Status (examples.plain_execution "ex1" "pending" 0 3) = ExecutionStatusPending
  /\ exists e1 e2 m,
       Start 10 (examples.plain_execution "ex1" "pending" 0 3) = (None, e1)
       /\ Complete 25 e1 = Some (None, e2)
       /\ Execution.Status e2 = ExecutionStatusCompleted
       /\ Execution.StartedAt e2 = Some 10
       /\ Execution.CompletedAt e2 = Some 25
       /\ Execution.Metrics e2 = Some m
       /\ ExecutionMetrics.ExecutionTime m = Sub 25 10
       /\ GetDuration 40 e2 = Sub 25 10
       /\ (in_int64 (25 - 10) -> GetDuration 40 e2 = 25 - 10)
       /\ Execution.IsFinished e2 = true.
Proof.
  split; [reflexivity|].
  exact (start_then_complete 10 25 40 (examples.plain_execution "ex1" "pending" 0 3) eq_refl).
Defined.

(** X16. [Complete] and [Fail] panic (a write through the nil [Metrics])
    exactly on a running execution that has a start time and no metrics;
    an execution that went through [Start] is never in that case. *)
Theorem complete_and_fail_panic (now : Z) (e : Execution.t) (errorMsg errorCode : string) :
  (Complete now e = None
   <-> Execution.Status e = ExecutionStatusRunning
       /\ Execution.StartedAt e <> None /\ Execution.Metrics e = None)
  /\ (Fail now e errorMsg errorCode = None <-> Complete now e = None)
  /\ (forall t e1, Start t e = (None, e1) ->
        Complete now e1 <> None /\ Fail now e1 errorMsg errorCode <> None).
Proof.
  assert (Hc : forall e0 status msg code,
             finish now e0 status msg code = None
             <-> Execution.StartedAt e0 <> None /\ Execution.Metrics e0 = None).
  { intros e0 status msg code. unfold finish.
    destruct (Execution.StartedAt e0); [destruct (Execution.Metrics e0)|];
      split; try discriminate; try tauto; try (intros [? ?]; congruence).
    intros _. split; congruence. }
  assert (HC : Complete now e = None
               <-> Execution.Status e = ExecutionStatusRunning
                   /\ Execution.StartedAt e <> None /\ Execution.Metrics e = None).
  { unfold Complete. case_bool_decide as Hs.
    - split; [discriminate|tauto].
    - rewrite Hc. destruct (decide (Execution.Status e = ExecutionStatusRunning)); tauto. }
  split; [exact HC|]. split.
  - rewrite HC. unfold Fail. case_bool_decide as Hs.
    + split; [discriminate|tauto].
    + rewrite Hc. destruct (decide (Execution.Status e = ExecutionStatusRunning)); tauto.
  - intros t e1. unfold Start. case_bool_decide; [discriminate|].
    intros [= <-]. unfold Complete, Fail. simpl.
    split; intros Hp; apply Hc in Hp; simpl in Hp; destruct Hp as [_ Hp];
      destruct (Execution.Metrics e); discriminate.
Qed.

Lemma record_of_update_nodes (now : Z) (records : list ExecutionNodeRecord.t)
    (nodeID : string) (status : ExecutionStatus) (errorMsg : string) :
  record_of (update_nodes now records nodeID status errorMsg) nodeID
  = Some (match record_of records nodeID with
          | Some old => update_record now old status errorMsg
          | None => new_record now nodeID status errorMsg
          end).
Proof.
  unfold record_of. induction records as [|node rest IH]; simpl.
  - rewrite bool_decide_eq_true_2 by reflexivity. reflexivity.
  - case_bool_decide as Hn; simpl.
    + rewrite bool_decide_eq_true_2 by exact Hn. reflexivity.
    + rewrite bool_decide_eq_false_2 by exact Hn. exact IH.
Qed.

Lemma record_of_update_nodes_other (now : Z) (records : list ExecutionNodeRecord.t)
    (nodeID other : string) (status : ExecutionStatus) (errorMsg : string) :
  other <> nodeID ->
  record_of (update_nodes now records nodeID status errorMsg) other
  = record_of records other.
Proof.
  intros Hne. unfold record_of. induction records as [|node rest IH]; simpl.
  - rewrite bool_decide_eq_false_2 by congruence. reflexivity.
  - case_bool_decide as Hn; simpl.
    + rewrite !bool_decide_eq_false_2 by congruence. reflexivity.
    + case_bool_decide; [reflexivity|exact IH].
Qed.

Lemma length_update_nodes (now : Z) (records : list ExecutionNodeRecord.t)
    (nodeID : string) (status : ExecutionStatus) (errorMsg : string) :
  length (update_nodes now records nodeID status errorMsg)
  = match record_of records nodeID with
    | Some _ => length records
    | None => S (length records)
    end.
Proof.
  unfold record_of. induction records as [|node rest IH]; simpl; [reflexivity|].
  case_bool_decide; simpl; [reflexivity|].
  rewrite IH. destruct (find _ rest); reflexivity.
Qed.

(** X17. [UpdateNodeExecution] then a look-up. The execution has a record
    of the node afterwards, with the status given, and with the error
    message given unless that is empty; the records of the other nodes are
    as before; the number of records grows by one exactly when the node
    had no record. A start time is written only when the record is
    created, and only with the status running: a node first recorded with
    another status keeps no start time through its later updates, so that
    no end time or duration is written for it either. *)
Theorem update_node_execution (now : Z) (e : Execution.t) (nodeID : string)
    (status : ExecutionStatus) (errorMsg : string) :
  let e' := UpdateNodeExecution now e nodeID status errorMsg in
  (exists r,
      record_of (records_of e') nodeID = Some r
      /\ ExecutionNodeRecord.NodeID r = nodeID
      /\ ExecutionNodeRecord.Status r = status
      /\ (errorMsg <> "" -> ExecutionNodeRecord.ErrorMsg r = errorMsg)
      /\ ExecutionNodeRecord.StartTime r
         = match record_of (records_of e) nodeID with
           | Some old => ExecutionNodeRecord.StartTime old
           | None => if bool_decide (status = ExecutionStatusRunning)
                     then Some now else None
           end
      /\ (ExecutionNodeRecord.StartTime r = None ->
          match record_of (records_of e) nodeID with
          | Some old =>
              ExecutionNodeRecord.EndTime r = ExecutionNodeRecord.EndTime old
              /\ ExecutionNodeRecord.Duration r = ExecutionNodeRecord.Duration old
          | None =>
              ExecutionNodeRecord.EndTime r = None /\ ExecutionNodeRecord.Duration r = 0
          end))
  /\ (forall other, other <> nodeID ->
        record_of (records_of e') other = record_of (records_of e) other)
  /\ length (records_of e')
     = match record_of (records_of e) nodeID with
       | Some _ => length (records_of e)
       | None => S (length (records_of e))
       end
  /\ Execution.Status e' = Execution.Status e.
Proof.
  cbv zeta.
  assert (Hr : records_of (UpdateNodeExecution now e nodeID status errorMsg)
               = update_nodes now (records_of e) nodeID status errorMsg) by reflexivity.
  rewrite Hr. repeat match goal with |- _ /\ _ => split end.
  - rewrite record_of_update_nodes. eexists. split; [reflexivity|].
    destruct (record_of (records_of e) nodeID) as [old|] eqn:Hold.
    + apply find_some in Hold as [_ Hid]. apply bool_decide_eq_true in Hid.
      simpl. repeat split; try assumption; try reflexivity.
      * intros Hm. rewrite bool_decide_eq_true_2 by exact Hm. reflexivity.
      * rewrite H. reflexivity.
      * rewrite H. reflexivity.
    + simpl. repeat split; reflexivity.
  - intros other Hne. apply record_of_update_nodes_other, Hne.
  - apply length_update_nodes.
  - reflexivity.
Qed.

Lemma count_status_cons (node : ExecutionNodeRecord.t)
    (rest : list ExecutionNodeRecord.t) (s : ExecutionStatus) :
  count_status (node :: rest) s
  = count_status rest s
    + (if bool_decide (ExecutionNodeRecord.Status node = s) then 1 else 0).
Proof.
  unfold count_status. case_bool_decide as Hs.
  - rewrite filter_cons_True by exact Hs. simpl length. lia.
  - rewrite filter_cons_False by exact Hs. lia.
Qed.

Lemma count_status_bound (records : list ExecutionNodeRecord.t) (s1 s2 s3 : ExecutionStatus) :
  s1 <> s2 -> s1 <> s3 -> s2 <> s3 ->
  0 <= count_status records s1 /\ 0 <= count_status records s2
  /\ 0 <= count_status records s3
  /\ count_status records s1 + count_status records s2 + count_status records s3
     <= Z.of_nat (length records)
  /\ (count_status records s1 + count_status records s2 + count_status records s3
      = Z.of_nat (length records)
      <-> Forall (fun node => ExecutionNodeRecord.Status node = s1
                              \/ ExecutionNodeRecord.Status node = s2
                              \/ ExecutionNodeRecord.Status node = s3) records).
Proof.
  intros H12 H13 H23.
  induction records as [|node rest IH].
  - unfold count_status. rewrite !filter_nil. simpl. repeat split; try lia. constructor.
  - destruct IH as (I1 & I2 & I3 & I4 & I5).
    rewrite Forall_cons, !count_status_cons.
    replace (Z.of_nat (length (node :: rest))) with (Z.of_nat (length rest) + 1)
      by (simpl length; lia).
    repeat case_bool_decide; try congruence;
      (repeat split; try lia;
       first [ intros [Hn Hf]; try (exfalso; tauto); apply I5 in Hf; lia
             | tauto
             | apply I5; lia ]).
Qed.

(** X18. The metrics that [updateExecutionMetrics] writes: the total is the
    number of node records; the completed, failed and skipped counts are
    not negative and together at most the total, with equality exactly
    when every record is completed, failed or cancelled (a record that
    timed out is counted in none of the three); the execution time is
    taken from [GetDuration] when the execution has a start time and is
    kept otherwise; the status and the records are not touched. *)
Theorem metrics_counts (now : Z) (e : Execution.t) :
  exists m,
    Execution.Metrics (updateExecutionMetrics now e) = Some m
    /\ ExecutionMetrics.TotalNodes m = Z.of_nat (length (records_of e))
    /\ 0 <= ExecutionMetrics.CompletedNodes m
    /\ 0 <= ExecutionMetrics.FailedNodes m
    /\ 0 <= ExecutionMetrics.SkippedNodes m
    /\ ExecutionMetrics.CompletedNodes m + ExecutionMetrics.FailedNodes m
       + ExecutionMetrics.SkippedNodes m <= ExecutionMetrics.TotalNodes m
    /\ (ExecutionMetrics.CompletedNodes m + ExecutionMetrics.FailedNodes m
        + ExecutionMetrics.SkippedNodes m = ExecutionMetrics.TotalNodes m
        <-> Forall (fun node =>
                      ExecutionNodeRecord.Status node = ExecutionStatusCompleted
                      \/ ExecutionNodeRecord.Status node = ExecutionStatusFailed
                      \/ ExecutionNodeRecord.Status node = ExecutionStatusCancelled)
                   (records_of e))
    /\ ExecutionMetrics.ExecutionTime m
       = match Execution.StartedAt e, Execution.Metrics e with
         | Some _, _ => GetDuration now e
         | None, Some old => ExecutionMetrics.ExecutionTime old
         | None, None => 0
         end
    /\ Execution.Status (updateExecutionMetrics now e) = Execution.Status e
    /\ Execution.Nodes (updateExecutionMetrics now e) = Execution.Nodes e.
Proof.
  eexists. split; [reflexivity|]. simpl.
  destruct (count_status_bound (records_of e) ExecutionStatusCompleted
              ExecutionStatusFailed ExecutionStatusCancelled) as (H1 & H2 & H3 & H4 & H5);
    try discriminate.
  repeat split; try assumption; try apply H5.
  destruct (Execution.StartedAt e); [reflexivity|].
  destruct (Execution.Metrics e); reflexivity.
Qed.

End ExecutionLifeCycle.

(** ** The scheduler: the tick, the schedules and the table of tasks *)

Section Scheduler.
Import golang models simple_scheduler scheduler_tasks workflow_service_status.

Lemma clamped_ge (schedule : WorkflowSchedule.t) (nextRun : Z) :
  nextRun <= clamped schedule nextRun.
Proof.
  unfold clamped. destruct (WorkflowSchedule.StartTime schedule) as [startTime|]; [|lia].
  destruct (Z.ltb_spec nextRun startTime); lia.
Qed.

Lemma apply_window_cases (schedule : WorkflowSchedule.t) (task : ScheduledTask)
    (nextRun : Z) :
  (apply_window schedule task nextRun = (None, with_Enabled task false)
   /\ exists endTime, WorkflowSchedule.EndTime schedule = Some endTime
                      /\ endTime < clamped schedule nextRun)
  \/ (apply_window schedule task nextRun
      = (None, with_NextRun task (clamped schedule nextRun))
      /\ forall endTime, WorkflowSchedule.EndTime schedule = Some endTime ->
                         clamped schedule nextRun <= endTime).
Proof.
  unfold apply_window. fold (clamped schedule nextRun).
  destruct (WorkflowSchedule.EndTime schedule) as [endTime|].
  - destruct (Z.ltb_spec endTime (clamped schedule nextRun)).
    + left. split; [reflexivity|]. exists endTime. split; [reflexivity|lia].
    + right. split; [reflexivity|]. intros ? [= <-]. lia.
  - right. split; [reflexivity|]. intros ? [=].
Qed.

Lemma apply_window_enabled_irrelevant (schedule : WorkflowSchedule.t)
    (task task' : ScheduledTask) (nextRun : Z) :
  Enabled (snd (apply_window schedule task nextRun)) = true ->
  Enabled task' = true ->
  Enabled (snd (apply_window schedule task' nextRun)) = true
  /\ NextRun (snd (apply_window schedule task' nextRun)) = clamped schedule nextRun
  /\ NextRun (snd (apply_window schedule task nextRun)) = clamped schedule nextRun.
Proof.
  unfold apply_window. fold (clamped schedule nextRun).
  destruct (match WorkflowSchedule.EndTime schedule with
            | Some endTime => endTime <? clamped schedule nextRun
            | None => false
            end); simpl; [discriminate|].
  intros _ He'. repeat split. exact He'.
Qed.

Lemma calculateNextRun_planned (now : Z) (task : ScheduledTask)
    (schedule : WorkflowSchedule.t) :
  Schedule task = Some schedule ->
  calculateNextRun now task
  = match planned now schedule with
    | inl err => (Some err, task)
    | inr nextRun => apply_window schedule task nextRun
    end.
Proof.
  intros Hs. unfold calculateNextRun, planned. rewrite Hs. cbv zeta.
  repeat (case_bool_decide; try reflexivity).
  - destruct (_ <=? 0); reflexivity.
  - destruct (WorkflowSchedule.ExecuteAt schedule); reflexivity.
Qed.

Lemma validated_planned (now0 now : Z) (schedule : WorkflowSchedule.t) :
  validateSchedule now0 (Some schedule) = None ->
  exists nextRun, planned now schedule = inr nextRun.
Proof.
  unfold validateSchedule, planned. cbv zeta.
  repeat (case_bool_decide; try discriminate); eauto.
  - destruct (_ <=? 0); [discriminate|eauto].
  - destruct (WorkflowSchedule.ExecuteAt schedule); [eauto|discriminate].
Qed.

(** X19. A schedule that [validateSchedule] of the workflow service has
    accepted, if it is enabled, is accepted by the scheduler at any time:
    [AddTask] stores a task for the workflow under the key "task_<id>",
    with no run yet, and every later trigger of that task computes its
    next run without error. The stored task is disabled from the start
    only when the schedule has an end time, and its next run is then the
    zero time. *)
Theorem validated_schedule_is_schedulable (now0 now : Z)
    (tasks : gmap string ScheduledTask) (workflowID : string) (workflow : Workflow.t)
    (schedule : WorkflowSchedule.t) :
  Workflow.Schedule workflow = Some schedule ->
  WorkflowSchedule.Enabled schedule = true ->
  validateSchedule now0 (Some schedule) = None ->
  exists task,
    AddTask now tasks workflowID workflow
    = (None, <["task_" +:+ workflowID := task]> tasks)
    /\ WorkflowID task = workflowID
    /\ Schedule task = Some schedule
    /\ RunCount task = 0 /\ LastRun task = None
    /\ (Enabled task = false ->
        NextRun task = time.zero
        /\ exists endTime, WorkflowSchedule.EndTime schedule = Some endTime)
    /\ forall now', snd (triggerTask now' task) = true.
Proof.
  intros Hs He Hv. unfold AddTask. rewrite Hs, He. cbv zeta. simpl negb. cbv iota.
  destruct (validated_planned now0 now schedule Hv) as [nextRun Hp].
  match goal with |- context [calculateNextRun now ?t] =>
    rewrite (calculateNextRun_planned now t schedule eq_refl), Hp
  end.
  assert (Ht : forall task, Schedule task = Some schedule ->
                 forall now', snd (triggerTask now' task) = true).
  { intros task Hst now'. unfold triggerTask.
    destruct (validated_planned now0 now' schedule Hv) as [nextRun' Hp'].
    match goal with |- context [calculateNextRun now' ?t] =>
      rewrite (calculateNextRun_planned now' t schedule Hst), Hp'
    end.
    destruct (apply_window_cases schedule
                {| ID := ID task; WorkflowID := WorkflowID task; Name := Name task;
                   Schedule := Schedule task; NextRun := NextRun task;
                   LastRun := Some now'; RunCount := wrap64 (RunCount task + 1);
                   Enabled := Enabled task |} nextRun') as [[-> _]|[-> _]]; reflexivity. }
  match goal with |- context [apply_window schedule ?t nextRun] =>
    destruct (apply_window_cases schedule t nextRun) as [[-> (endTime & Hend & _)]|[-> _]]
  end.
  - eexists. split; [reflexivity|]. simpl. repeat split; eauto.
  - eexists. split; [reflexivity|]. simpl. repeat split; eauto; discriminate.
Qed.

Lemma validated_schedule_is_schedulable_witness :
  exists task,
    AddTask 1000 ∅ "wf1" (more_examples.scheduled_workflow
                            (examples.interval_schedule 60 None None))
    = (None, <["task_" +:+ "wf1" := task]> ∅)
    /\ WorkflowID task = "wf1"
    /\ Schedule task = Some (examples.interval_schedule 60 None None)
    /\ RunCount task = 0 /\ LastRun task = None
    /\ (Enabled task = false ->
        NextRun task = time.zero
        /\ exists endTime,
             WorkflowSchedule.EndTime (examples.interval_schedule 60 None None)
             = Some endTime)
    /\ forall now', snd (triggerTask now' task) = true.
Proof.
  exact (validated_schedule_is_schedulable 900 1000 ∅ "wf1"
           (more_examples.scheduled_workflow (examples.interval_schedule 60 None None))
           (examples.interval_schedule 60 None None) eq_refl eq_refl eq_refl).
Defined.

Lemma lookup_tick (now : Z) (tasks : gmap string ScheduledTask) (id : string) :
  checkAndTriggerTasks now tasks !! id
  = (fun task => if due now task then fst (triggerTask now task) else task)
      <$> (tasks !! id).
Proof. unfold checkAndTriggerTasks. apply lookup_fmap. Qed.

(** X20. The spacing of an interval schedule. When a tick at [now]
    triggers a task whose schedule has the positive interval [d], the run
    is counted and dated, and the task is not selected again by any tick up
    to [now + d], nor before the start time of its schedule: those ticks
    leave it as it is. *)
Theorem interval_spacing (now now' : Z) (tasks : gmap string ScheduledTask)
    (id : string) (task : ScheduledTask) (schedule : WorkflowSchedule.t) :
  tasks !! id = Some task ->
  Schedule task = Some schedule ->
  WorkflowSchedule.Type_ schedule = WorkflowSchedule.ScheduleTypeInterval ->
  0 < WorkflowSchedule.Interval schedule ->
  due now task = true ->
  exists task',
    checkAndTriggerTasks now tasks !! id = Some task'
    /\ RunCount task' = wrap64 (RunCount task + 1)
    /\ LastRun task' = Some now
    /\ (now' <= now + WorkflowSchedule.Interval schedule
        \/ (exists startTime, WorkflowSchedule.StartTime schedule = Some startTime
                              /\ now' <= startTime) ->
        due now' task' = false
        /\ checkAndTriggerTasks now' (checkAndTriggerTasks now tasks) !! id = Some task').
Proof.
  intros Hl Hs Hty Hd Hdue.
  rewrite lookup_tick, Hl. simpl. rewrite Hdue.
  eexists. split; [reflexivity|].
  unfold triggerTask.
  match goal with |- context [calculateNextRun now ?t] =>
    rewrite (calculateNextRun_planned now t schedule Hs)
  end.
  unfold planned. rewrite Hty. simpl.
  apply Z.leb_gt in Hd as Hd'. rewrite Hd'.
  match goal with |- context [apply_window schedule ?t ?n] =>
    destruct (apply_window_cases schedule t n) as [[Hw _]|[Hw _]]; rewrite Hw; simpl
  end.
  - repeat split; try reflexivity.
    rewrite lookup_tick, lookup_tick, Hl. simpl. rewrite Hdue.
    unfold triggerTask.
    match goal with |- context [calculateNextRun now ?t] =>
      rewrite (calculateNextRun_planned now t schedule Hs)
    end.
    unfold planned. rewrite Hty. simpl. rewrite Hd', Hw. reflexivity.
  - assert (Hnot : now' <= now + WorkflowSchedule.Interval schedule
                   \/ (exists startTime,
                         WorkflowSchedule.StartTime schedule = Some startTime
                         /\ now' <= startTime) ->
                   due now' (with_NextRun
                               {| ID := ID task; WorkflowID := WorkflowID task;
                                  Name := Name task; Schedule := Schedule task;
                                  NextRun := NextRun task; LastRun := Some now;
                                  RunCount := wrap64 (RunCount task + 1);
                                  Enabled := Enabled task |}
                               (clamped schedule (now + WorkflowSchedule.Interval schedule)))
                   = false).
    { intros Hwhen. unfold due. simpl. apply andb_false_intro2. apply Z.ltb_ge.
      pose proof (clamped_ge schedule (now + WorkflowSchedule.Interval schedule)) as Hge.
      destruct Hwhen as [Hle|(startTime & Hst & Hle)]; [lia|].
      unfold clamped in *. rewrite Hst in *.
      destruct (Z.ltb_spec (now + WorkflowSchedule.Interval schedule) startTime); lia. }
    repeat split; try reflexivity; [apply Hnot, H|].
    rewrite lookup_tick, lookup_tick, Hl. simpl. rewrite Hdue.
    unfold triggerTask.
    match goal with |- context [calculateNextRun now ?t] =>
      rewrite (calculateNextRun_planned now t schedule Hs)
    end.
    unfold planned. rewrite Hty. simpl. rewrite Hd', Hw. simpl.
    rewrite (Hnot H). reflexivity.
Qed.

Lemma interval_spacing_witness :
  exists task',
    checkAndTriggerTasks 1000
      {[ "task_wf1" := examples.task_of (examples.interval_schedule 60 None None) ]}
      !! "task_wf1" = Some task'
    /\ RunCount task'
       = wrap64 (RunCount (examples.task_of (examples.interval_schedule 60 None None)) + 1)
    /\ LastRun task' = Some 1000
    /\ (1030 <= 1000 + WorkflowSchedule.Interval (examples.interval_schedule 60 None None)
        \/ (exists startTime,
              WorkflowSchedule.StartTime (examples.interval_schedule 60 None None)
              = Some startTime /\ 1030 <= startTime) ->
        due 1030 task' = false
        /\ checkAndTriggerTasks 1030
             (checkAndTriggerTasks 1000
                {[ "task_wf1" :=
                     examples.task_of (examples.interval_schedule 60 None None) ]})
             !! "task_wf1" = Some task').
Proof.
  assert (Hl : ({[ "task_wf1" := examples.task_of (examples.interval_schedule 60 None None) ]}
                : gmap string ScheduledTask) !! "task_wf1"
               = Some (examples.task_of (examples.interval_schedule 60 None None)))
    by reflexivity.
  assert (Hd : 0 < WorkflowSchedule.Interval (examples.interval_schedule 60 None None))
    by (simpl; lia).
  exact (interval_spacing 1000 1030 _ "task_wf1" _ _ Hl eq_refl eq_refl Hd eq_refl).
Defined.

Lemma calculateNextRun_frame (now : Z) (t : ScheduledTask) :
  Schedule (snd (calculateNextRun now t)) = Schedule t
  /\ ID (snd (calculateNextRun now t)) = ID t
  /\ WorkflowID (snd (calculateNextRun now t)) = WorkflowID t
  /\ RunCount (snd (calculateNextRun now t)) = RunCount t
  /\ LastRun (snd (calculateNextRun now t)) = LastRun t.
Proof.
  unfold calculateNextRun, apply_window.
  repeat case_match; simpl; repeat split; congruence.
Qed.

Lemma triggerTask_frame (now : Z) (t : ScheduledTask) :
  Schedule (fst (triggerTask now t)) = Schedule t
  /\ ID (fst (triggerTask now t)) = ID t
  /\ WorkflowID (fst (triggerTask now t)) = WorkflowID t.
Proof.
  unfold triggerTask.
  match goal with |- context [calculateNextRun now ?u] =>
    destruct (calculateNextRun_frame now u) as (H1 & H2 & H3 & _);
    destruct (calculateNextRun now u) as [[err|] t']
  end; simpl in *; auto.
Qed.

(** X21. A schedule of type once or manual is not spent by a run: its next
    run does not depend on the time of the trigger. When a tick has
    triggered such a task and a later tick at [now2] selects it again, the
    task is triggered anew, its run count grows by one, and it is due at
    every time from [now2] on, so that each following tick triggers it
    once more. *)
Theorem once_and_manual_tasks_fire_at_every_tick (now1 now2 now3 : Z)
    (tasks : gmap string ScheduledTask) (id : string) (task : ScheduledTask)
    (schedule : WorkflowSchedule.t) :
  tasks !! id = Some task ->
  Schedule task = Some schedule ->
  WorkflowSchedule.Type_ schedule = WorkflowSchedule.ScheduleTypeOnce
  \/ WorkflowSchedule.Type_ schedule = WorkflowSchedule.ScheduleTypeManual ->
  due now1 task = true ->
  forall task1,
    checkAndTriggerTasks now1 tasks !! id = Some task1 ->
    due now2 task1 = true ->
    now2 <= now3 ->
    exists task2,
      checkAndTriggerTasks now2 (checkAndTriggerTasks now1 tasks) !! id = Some task2
      /\ RunCount task2 = wrap64 (RunCount task1 + 1)
      /\ RunCount task1 = wrap64 (RunCount task + 1)
      /\ LastRun task2 = Some now2
      /\ NextRun task2 = NextRun task1
      /\ due now3 task2 = true.
Proof.
  intros Hl Hs Hty Hdue1 task1 Hl1 Hdue2 Hle.
  rewrite lookup_tick, Hl in Hl1. simpl in Hl1. rewrite Hdue1 in Hl1.
  injection Hl1 as Hl1.
  rewrite lookup_tick, lookup_tick, Hl. simpl. rewrite Hdue1, Hl1, Hdue2.
  eexists. split; [reflexivity|].
  assert (Hs1 : Schedule task1 = Some schedule).
  { rewrite <- Hl1. rewrite (proj1 (triggerTask_frame now1 task)). exact Hs. }
  assert (Hp : forall now, planned now schedule = planned 0 schedule).
  { intros now. unfold planned.
    destruct Hty as [-> | ->]; reflexivity. }
  assert (Hgen : forall now t, Schedule t = Some schedule ->
            RunCount (fst (triggerTask now t)) = wrap64 (RunCount t + 1)
            /\ LastRun (fst (triggerTask now t)) = Some now
            /\ match planned 0 schedule with
               | inl _ => NextRun (fst (triggerTask now t)) = NextRun t
                          /\ Enabled (fst (triggerTask now t)) = Enabled t
               | inr nextRun =>
                   fst (triggerTask now t)
                   = snd (apply_window schedule
                            {| ID := ID t; WorkflowID := WorkflowID t; Name := Name t;
                               Schedule := Schedule t; NextRun := NextRun t;
                               LastRun := Some now; RunCount := wrap64 (RunCount t + 1);
                               Enabled := Enabled t |} nextRun)
               end).
  { intros now t Hst. unfold triggerTask.
    match goal with |- context [calculateNextRun now ?u] =>
      rewrite (calculateNextRun_planned now u schedule Hst), (Hp now)
    end.
    destruct (planned 0 schedule) as [err|nextRun]; simpl; [repeat split|].
    match goal with |- context [apply_window schedule ?u nextRun] =>
      destruct (apply_window_cases schedule u nextRun) as [[Hw _]|[Hw _]]; rewrite Hw
    end; simpl; repeat split. }
  destruct (Hgen now1 task Hs) as (Hr1 & _ & Hn1).
  destruct (Hgen now2 task1 Hs1) as (Hr2 & Hlast2 & Hn2).
  rewrite Hl1 in Hr1, Hn1.
  split; [exact Hr2|]. split; [exact Hr1|]. split; [exact Hlast2|].
  unfold due in Hdue2 |- *. apply andb_prop in Hdue2 as [Hen Hlt].
  apply Z.ltb_lt in Hlt.
  destruct (planned 0 schedule) as [err|nextRun].
  - destruct Hn2 as [-> ->]. split; [reflexivity|]. rewrite Hen. simpl.
    apply Z.ltb_lt. lia.
  - assert (Hen1 : Enabled (snd (apply_window schedule
              {| ID := ID task; WorkflowID := WorkflowID task; Name := Name task;
                 Schedule := Schedule task; NextRun := NextRun task;
                 LastRun := Some now1; RunCount := wrap64 (RunCount task + 1);
                 Enabled := Enabled task |} nextRun)) = true)
      by (rewrite <- Hn1; exact Hen).
    destruct (apply_window_enabled_irrelevant schedule _
                {| ID := ID task1; WorkflowID := WorkflowID task1; Name := Name task1;
                   Schedule := Schedule task1; NextRun := NextRun task1;
                   LastRun := Some now2; RunCount := wrap64 (RunCount task1 + 1);
                   Enabled := Enabled task1 |} nextRun Hen1 Hen)
      as (He2 & Hnr2 & Hnr1).
    pose proof (f_equal NextRun Hn1) as Hq1. rewrite Hnr1 in Hq1.
    pose proof (f_equal NextRun Hn2) as Hq2. rewrite Hnr2 in Hq2.
    pose proof (f_equal Enabled Hn2) as Hq3. rewrite He2 in Hq3.
    rewrite Hq2, Hq3, <- Hq1. split; [reflexivity|]. simpl. apply Z.ltb_lt. lia.
Qed.

Lemma once_and_manual_tasks_fire_at_every_tick_witness :
  exists task2,
    checkAndTriggerTasks 2000
      (checkAndTriggerTasks 1000
         {[ "task_wf1" := examples.task_of (more_examples.once_schedule 500) ]})
      !! "task_wf1" = Some task2
    /\ RunCount task2 = 2
    /\ NextRun task2 = 500
    /\ due 3000 task2 = true.
Proof.
  assert (Hl : ({[ "task_wf1" := examples.task_of (more_examples.once_schedule 500) ]}
                : gmap string ScheduledTask) !! "task_wf1"
               = Some (examples.task_of (more_examples.once_schedule 500)))
    by reflexivity.
  assert (Hle : 2000 <= 3000) by lia.
  destruct (once_and_manual_tasks_fire_at_every_tick 1000 2000 3000 _ "task_wf1" _
              (more_examples.once_schedule 500) Hl eq_refl (or_introl eq_refl) eq_refl
              (fst (triggerTask 1000 (examples.task_of (more_examples.once_schedule 500))))
              eq_refl eq_refl Hle)
    as (task2 & H2 & Hr2 & Hr1 & _ & Hn & Hd).
  exists task2. split; [exact H2|]. split; [|split; [|exact Hd]].
  - rewrite Hr2, Hr1. reflexivity.
  - rewrite Hn. reflexivity.
Defined.

Lemma task_key_inj (a b : string) : "task_" +:+ a = "task_" +:+ b -> a = b.
Proof. intros H. injection H as H. exact H. Qed.

(** X22. The table of tasks. [RemoveTask] for a workflow without task
    fails with "task not found: task_<id>" and leaves the table alone.
    After a successful [AddTask] the workflow has exactly one task,
    whatever was there before, [RemoveTask] succeeds and gives the table
    without a task for that workflow, which is the former table if the
    workflow had none; the tasks of the other workflows are not touched.
    A failed [AddTask] leaves the table alone. *)
Theorem add_then_remove_task (now : Z) (tasks : gmap string ScheduledTask)
    (workflowID : string) (workflow : Workflow.t) :
  (tasks !! ("task_" +:+ workflowID) = None ->
     RemoveTask tasks workflowID
     = (Some ("task not found: task_" +:+ workflowID), tasks))
  /\ (forall tasks', AddTask now tasks workflowID workflow = (None, tasks') ->
        is_Some (tasks' !! ("task_" +:+ workflowID))
        /\ RemoveTask tasks' workflowID = (None, delete ("task_" +:+ workflowID) tasks)
        /\ (tasks !! ("task_" +:+ workflowID) = None ->
            snd (RemoveTask tasks' workflowID) = tasks)
        /\ forall other, other <> workflowID ->
             tasks' !! ("task_" +:+ other) = tasks !! ("task_" +:+ other))
  /\ (fst (AddTask now tasks workflowID workflow) <> None ->
      snd (AddTask now tasks workflowID workflow) = tasks).
Proof.
  split; [|split].
  - intros Hn. unfold RemoveTask. cbv zeta. rewrite Hn. reflexivity.
  - intros tasks' Ha. unfold AddTask in Ha.
    destruct (Workflow.Schedule workflow) as [schedule|]; [|discriminate].
    destruct (negb (WorkflowSchedule.Enabled schedule)); [discriminate|].
    cbv zeta in Ha.
    destruct (calculateNextRun now _) as [[err|] task] eqn:Hc; [discriminate|].
    assert (Hid : ID task = "task_" +:+ workflowID).
    { match type of Hc with calculateNextRun now ?u = _ =>
        destruct (calculateNextRun_frame now u) as (_ & Hid & _)
      end.
      rewrite Hc in Hid. exact Hid. }
    injection Ha as <-. rewrite Hid.
    assert (Hr : RemoveTask (<["task_" +:+ workflowID := task]> tasks) workflowID
                 = (None, delete ("task_" +:+ workflowID) tasks)).
    { unfold RemoveTask. cbv zeta. rewrite lookup_insert_eq, delete_insert_eq.
      reflexivity. }
    split; [rewrite lookup_insert_eq; eauto|]. split; [exact Hr|]. split.
    + intros Hn. rewrite Hr. simpl. apply delete_id, Hn.
    + intros other Hne. apply lookup_insert_ne. intros Heq.
      apply task_key_inj in Heq. congruence.
  - intros Hf. unfold AddTask in *.
    destruct (Workflow.Schedule workflow) as [schedule|]; [|reflexivity].
    destruct (negb (WorkflowSchedule.Enabled schedule)); [reflexivity|].
    cbv zeta in *.
    destruct (calculateNextRun now _) as [[err|] task]; [reflexivity|].
    simpl in Hf. congruence.
Qed.

End Scheduler.

(** ** The status changes of the workflow service *)

Section WorkflowStatusChanges.
Import golang models state_manager workflow_service workflow_service_status.

Lemma GetWorkflow_stored (db : gmap string Workflow.t) (id : string) (w : Workflow.t) :
  db !! id = Some w ->
  exists w', GetWorkflow db id = (Some w', None)
             /\ Workflow.Status w' = read_status w
             /\ Workflow.ID w' = Workflow.ID w
             /\ Workflow.Name w' = Workflow.Name w.
Proof.
  intros Hl. unfold GetWorkflow, read_status. rewrite Hl.
  case_bool_decide; eexists; (split; [reflexivity|]); split; try split; reflexivity.
Qed.

Lemma run_stored (call : status_call) (now : Z) (sm : StateManager)
    (db : gmap string Workflow.t) (id : string) (w : Workflow.t) :
  GetWorkflow db id = (Some w, None) ->
  run call now sm db id
  = match ValidateWorkflowTransition sm (Workflow.Status w) (target call) with
    | Some err => (Some (wrap "invalid state transition" err), sm, db)
    | None =>
        (None,
         snd (RecordWorkflowTransition now sm id (Workflow.Status w) (target call)
                (reason call) "system"),
         <[Workflow.ID w := Workflow.with_Status w (target call) now]> db)
    end.
Proof.
  intros Hg.
  destruct call; simpl; unfold ActivateWorkflow, DeactivateWorkflow, PauseWorkflow,
    ResumeWorkflow, unscheduleWorkflow, scheduleWorkflow; rewrite Hg;
    destruct (ValidateWorkflowTransition sm (Workflow.Status w) _); try reflexivity;
    cbv zeta;
    destruct (RecordWorkflowTransition now sm id _ _ _ _) as [e sm']; simpl;
    try destruct (Workflow.CanExecute _); reflexivity.
Qed.

(** X23. The four calls of the workflow service that change a status
    ([ActivateWorkflow], [DeactivateWorkflow], [PauseWorkflow],
    [ResumeWorkflow]), on a State Manager with the initial tables. For a
    workflow that is not stored the call fails with "workflow not found"
    and changes nothing. For a stored workflow the call succeeds exactly
    when the pair of its status (inactive if empty) and the status asked
    for is in the transition table; then the stored workflow has the new
    status and update time, and exactly that transition is appended to the
    history; a failed call changes neither the database nor the history.
    No call touches another workflow, and none asks for the status
    disabled. [ResumeWorkflow] differs from [ActivateWorkflow] in the
    recorded reason only: it also activates an inactive workflow. *)
Theorem status_calls_follow_table (call : status_call) (now : Z) (sm : StateManager)
    (db : gmap string Workflow.t) (id : string) :
  workflowTransitions sm = initial_workflowTransitions ->
  (db !! id = None ->
     run call now sm db id = (Some ("workflow not found: " +:+ id), sm, db))
  /\ (forall w, db !! id = Some w -> Workflow.ID w = id ->
        (fst (fst (run call now sm db id)) = None
         <-> In (read_status w, target call) spec_workflow_table)
        /\ (fst (fst (run call now sm db id)) = None ->
              (exists w', snd (run call now sm db id) !! id = Some w'
                          /\ Workflow.Status w' = target call
                          /\ Workflow.UpdatedAt w' = now
                          /\ Workflow.Name w' = Workflow.Name w)
              /\ transitionHistory (snd (fst (run call now sm db id)))
                 = (transitionHistory sm
                    ++ [{| EntityType := "workflow"; EntityID := id;
                           FromStatus := read_status w; ToStatus := target call;
                           Reason := reason call; Operator := "system";
                           Timestamp := now |}])%list)
        /\ (fst (fst (run call now sm db id)) <> None ->
              snd (fst (run call now sm db id)) = sm
              /\ snd (run call now sm db id) = db)
        /\ (forall other, other <> id ->
              snd (run call now sm db id) !! other = db !! other))
  /\ target call <> WorkflowStatusDisabled
  /\ (fst (fst (run Resume now sm db id)) = None
      <-> fst (fst (run Activate now sm db id)) = None).
Proof.
  intros Htab. split; [|split; [|split; [destruct call; discriminate|]]].
  - intros Hn.
    destruct call; simpl; unfold ActivateWorkflow, DeactivateWorkflow, PauseWorkflow,
      ResumeWorkflow, GetWorkflow; rewrite Hn; reflexivity.
  - intros w Hl Hid.
    destruct (GetWorkflow_stored db id w Hl) as (w' & Hg & Hst & Hid' & Hname).
    rewrite (run_stored call now sm db id w' Hg), Hst, Hid', Hid.
    assert (Hv : ValidateWorkflowTransition sm (read_status w) (target call)
                 = ValidateWorkflowTransition NewStateManager (read_status w) (target call)).
    { unfold ValidateWorkflowTransition. rewrite Htab. reflexivity. }
    pose proof (ValidateWorkflowTransition_ok_iff (read_status w) (target call)) as Hiff.
    unfold RecordWorkflowTransition. rewrite Hv in *.
    destruct (ValidateWorkflowTransition NewStateManager (read_status w) (target call))
      as [err|] eqn:Hval; simpl.
    + split; [split; [discriminate | intros Hin; apply Hiff in Hin; discriminate]|].
      split; [discriminate|]. split; [intros _; split; reflexivity|].
      intros other _. reflexivity.
    + split; [split; [intros _; apply Hiff; reflexivity | reflexivity]|].
      split.
      { intros _. split; [|reflexivity].
        rewrite lookup_insert_eq. eexists. split; [reflexivity|].
        split; [reflexivity|]. split; [reflexivity|]. exact Hname. }
      split; [intros Hc; congruence|].
      intros other Hne. apply lookup_insert_ne. congruence.
  - destruct (db !! id) as [w|] eqn:Hl.
    + destruct (GetWorkflow_stored db id w Hl) as (w' & Hg & _).
      rewrite (run_stored Resume now sm db id w' Hg),
        (run_stored Activate now sm db id w' Hg). simpl target.
      destruct (ValidateWorkflowTransition sm (Workflow.Status w') WorkflowStatusActive);
        simpl; split; intros; congruence.
    + simpl. unfold ActivateWorkflow, ResumeWorkflow, GetWorkflow. rewrite Hl. simpl.
      split; intros; congruence.
Qed.

Lemma status_calls_follow_table_witness :
  workflowTransitions NewStateManager = initial_workflowTransitions
  /\ fst (fst (run Pause 7 NewStateManager
                 {[ "wf1" := more_examples.scheduled_workflow
                               (examples.interval_schedule 60 None None) ]} "wf1"))
     = None
  /\ fst (fst (run Pause 7 NewStateManager
                 {[ "wf1" := more_examples.scheduled_workflow
                               (examples.interval_schedule 60 None None) ]} "wf2"))
     = Some "workflow not found: wf2".
Proof.
  split; [reflexivity|].
  destruct (status_calls_follow_table Pause 7 NewStateManager
              {[ "wf1" := more_examples.scheduled_workflow
                            (examples.interval_schedule 60 None None) ]} "wf1" eq_refl)
    as (_ & Hstored & _).
  destruct (status_calls_follow_table Pause 7 NewStateManager
              {[ "wf1" := more_examples.scheduled_workflow
                            (examples.interval_schedule 60 None None) ]} "wf2" eq_refl)
    as (Hmissing & _).
  split.
  - assert (Hl : ({[ "wf1" := more_examples.scheduled_workflow
                               (examples.interval_schedule 60 None None) ]}
                  : gmap string Workflow.t) !! "wf1"
                 = Some (more_examples.scheduled_workflow
                           (examples.interval_schedule 60 None None))) by reflexivity.
    destruct (Hstored _ Hl eq_refl) as (Hiff & _). apply Hiff.
    vm_compute. tauto.
  - assert (Hn : ({[ "wf1" := more_examples.scheduled_workflow
                               (examples.interval_schedule 60 None None) ]}
                  : gmap string Workflow.t) !! "wf2" = None) by reflexivity.
    rewrite (Hmissing Hn). reflexivity.
Defined.

End WorkflowStatusChanges.

(** ** The dependency graph of the engine *)

Section DependencyGraph.
Import golang models workflow_engine engine_graph.

Lemma fold_add_dependency (nodes : gmap string Node.t) (edges : list Edge.t)
    (dependencies : gmap string (list string)) (nodeID : string) :
  fold_left (add_dependency nodes) edges dependencies !! nodeID
  = match nodes !! nodeID, enabled_sources nodes edges nodeID with
    | Some _, source :: sources =>
        Some (default [] (dependencies !! nodeID) ++ source :: sources)%list
    | _, _ => dependencies !! nodeID
    end.
Proof.
  revert dependencies.
  induction edges as [|edge rest IH]; intros dependencies.
  - simpl. destruct (nodes !! nodeID); reflexivity.
  - simpl fold_left. rewrite IH. clear IH.
    unfold enabled_sources, add_dependency. simpl List.filter.
    destruct (Edge.IsEnabled edge); simpl; [|reflexivity].
    destruct (nodes !! Edge.ToNodeID edge) as [toNode|] eqn:Hto.
    + destruct (nodes !! Edge.FromNodeID edge) as [fromNode|] eqn:Hfrom.
      * rewrite (bool_decide_eq_true_2 (is_Some (Some fromNode))) by eauto.
        rewrite andb_true_r.
        case_bool_decide as Heq.
        -- subst nodeID. rewrite Hto, lookup_insert_eq. cbn [andb].
           rewrite fmap_cons.
           match goal with |- context [Edge.FromNodeID <$> List.filter ?f rest] =>
             generalize (Edge.FromNodeID <$> List.filter f rest)
           end.
           intros [|source sources]; simpl; [reflexivity|].
           rewrite <- app_assoc. reflexivity.
        -- rewrite lookup_insert_ne by exact Heq. reflexivity.
      * rewrite (bool_decide_eq_false_2 (is_Some None)) by (intros [? ?]; discriminate).
        rewrite andb_false_r. reflexivity.
    + case_bool_decide as Heq; simpl; [|reflexivity].
      subst nodeID. rewrite Hto. reflexivity.
Qed.

Lemma enabled_sources_In (w : Workflow.t) (a b : string) :
  In a (enabled_sources (spec.nodes_of w) (spec.edges_of w) b)
  <-> spec.enabled_edge w a b /\ is_Some (spec.nodes_of w !! a).
Proof.
  unfold enabled_sources, spec.enabled_edge.
  rewrite <- list_elem_of_In, list_elem_of_fmap. split.
  - intros (edge & -> & Hin). apply list_elem_of_In, filter_In in Hin as [Hin Hf].
    apply andb_prop in Hf as [Hf H3]. apply andb_prop in Hf as [H1 H2].
    apply bool_decide_eq_true in H2, H3. split; [|exact H3].
    exists edge. repeat split; assumption.
  - intros [(edge & Hin & H1 & H2 & H3) Hs]. exists edge. split; [congruence|].
    apply list_elem_of_In, filter_In. split; [exact Hin|].
    cbv beta. rewrite H1, H2, H3. simpl.
    rewrite bool_decide_eq_true_2 by reflexivity.
    rewrite bool_decide_eq_true_2 by exact Hs. reflexivity.
Qed.

Lemma built_dependencies (execCtx : ExecutionContext) (nodeID : string) :
  NodeDependencies (buildDependencyGraph execCtx) !! nodeID
  = match spec.nodes_of (Workflow execCtx) !! nodeID with
    | Some _ =>
        Some (enabled_sources (spec.nodes_of (Workflow execCtx))
                (spec.edges_of (Workflow execCtx)) nodeID)
    | None => NodeDependencies execCtx !! nodeID
    end.
Proof.
  unfold buildDependencyGraph, spec.edges_of, spec.nodes_of, nodes_of. cbv zeta.
  simpl NodeDependencies.
  set (nodes := match Workflow.Nodes (Workflow execCtx) with
                | Some nodes => nodes | None => ∅ end).
  assert (Hinit : (((fun _ => []) <$> nodes) ∪ NodeDependencies execCtx) !! nodeID
                  = match nodes !! nodeID with
                    | Some _ => Some []
                    | None => NodeDependencies execCtx !! nodeID
                    end).
  { rewrite lookup_union, lookup_fmap.
    destruct (nodes !! nodeID); simpl.
    - destruct (NodeDependencies execCtx !! nodeID); reflexivity.
    - destruct (NodeDependencies execCtx !! nodeID); reflexivity. }
  destruct (Workflow.Edges (Workflow execCtx)) as [edges|].
  - rewrite fold_add_dependency, Hinit.
    destruct (nodes !! nodeID); [|reflexivity].
    destruct (enabled_sources nodes edges nodeID); reflexivity.
  - rewrite Hinit. destruct (nodes !! nodeID); reflexivity.
Qed.

(** X24. The graph that [buildDependencyGraph] leaves in the context. Every
    node of the workflow is pending, and its dependencies are the sources
    of the enabled edges that lead to it from a node of the workflow, in
    the order of the edges and with their repetitions; an edge that is
    disabled, or one of whose ends is not a node, contributes nothing. The
    entries of ids that are not nodes, the variables and the completed
    nodes are as before. *)
Theorem dependency_graph (execCtx : ExecutionContext) (nodeID : string) :
  NodeDependencies (buildDependencyGraph execCtx) !! nodeID
  = match spec.nodes_of (Workflow execCtx) !! nodeID with
    | Some _ =>
        Some (enabled_sources (spec.nodes_of (Workflow execCtx))
                (spec.edges_of (Workflow execCtx)) nodeID)
    | None => NodeDependencies execCtx !! nodeID
    end
  /\ NodeStates (buildDependencyGraph execCtx) !! nodeID
     = match spec.nodes_of (Workflow execCtx) !! nodeID with
       | Some _ => Some ExecutionStatusPending
       | None => NodeStates execCtx !! nodeID
       end
  /\ (forall a,
        In a (enabled_sources (spec.nodes_of (Workflow execCtx))
                (spec.edges_of (Workflow execCtx)) nodeID)
        <-> spec.enabled_edge (Workflow execCtx) a nodeID
            /\ is_Some (spec.nodes_of (Workflow execCtx) !! a))
  /\ Variables (buildDependencyGraph execCtx) = Variables execCtx
  /\ CompletedNodes (buildDependencyGraph execCtx) = CompletedNodes execCtx.
Proof.
  split; [|split; [|split; [|split; reflexivity]]].
  - apply built_dependencies.
  - unfold buildDependencyGraph, spec.nodes_of, nodes_of. cbv zeta. simpl NodeStates.
    rewrite lookup_union, lookup_fmap.
    destruct (_ !! nodeID); simpl; destruct (NodeStates execCtx !! nodeID); reflexivity.
  - intros a. apply enabled_sources_In.
Qed.

Lemma start_node_iff (execCtx : ExecutionContext) (n : string) :
  NodeDependencies execCtx = ∅ ->
  n ∈ findStartNodes (buildDependencyGraph execCtx)
  <-> is_Some (spec.nodes_of (Workflow execCtx) !! n)
      /\ enabled_sources (spec.nodes_of (Workflow execCtx))
           (spec.edges_of (Workflow execCtx)) n = [].
Proof.
  intros Hfresh. unfold findStartNodes.
  rewrite elem_of_dom. unfold is_Some at 1.
  setoid_rewrite map_lookup_filter_Some.
  rewrite (built_dependencies execCtx n), Hfresh.
  destruct (spec.nodes_of (Workflow execCtx) !! n) as [node|]; simpl.
  - split.
    + intros (l & [= <-] & Hlen). split; [eauto|]. apply nil_length_inv, Hlen.
    + intros [_ ->]. exists []. split; reflexivity.
  - rewrite lookup_empty. split.
    + intros (l & Hl & _). discriminate.
    + intros [[? ?] _]. discriminate.
Qed.

(** X25. The start of an execution, for a context as [ExecuteWorkflow]
    creates it (no dependencies yet). The start nodes are the nodes that
    no enabled edge reaches from a node of the workflow. The execution is
    refused with "workflow has no nodes" exactly when the workflow has no
    node, and with "no start nodes found in workflow" exactly when it has
    nodes and each of them is reached by an enabled edge from a node. When
    the enabled edges form no cycle and there is a node, neither happens:
    the execution starts with a set of start nodes that is not empty. *)
Theorem start_nodes (execCtx : ExecutionContext) :
  NodeDependencies execCtx = ∅ ->
  (forall n,
      n ∈ findStartNodes (buildDependencyGraph execCtx)
      <-> is_Some (spec.nodes_of (Workflow execCtx) !! n)
          /\ forall a, is_Some (spec.nodes_of (Workflow execCtx) !! a) ->
                       ~ spec.enabled_edge (Workflow execCtx) a n)
  /\ (executeWorkflowInternal execCtx = inl "workflow has no nodes"
      <-> spec.nodes_of (Workflow execCtx) = ∅)
  /\ (executeWorkflowInternal execCtx = inl "no start nodes found in workflow"
      <-> spec.nodes_of (Workflow execCtx) <> ∅
          /\ forall n, is_Some (spec.nodes_of (Workflow execCtx) !! n) ->
               exists a, is_Some (spec.nodes_of (Workflow execCtx) !! a)
                         /\ spec.enabled_edge (Workflow execCtx) a n)
  /\ (spec.acyclic (Workflow execCtx) ->
      spec.nodes_of (Workflow execCtx) <> ∅ ->
      exists startNodes,
        executeWorkflowInternal execCtx = inr (buildDependencyGraph execCtx, startNodes)
        /\ startNodes = findStartNodes (buildDependencyGraph execCtx)
        /\ exists n, n ∈ startNodes).
Proof.
  intros Hfresh.
  set (w := Workflow execCtx).
  set (nodes := spec.nodes_of w).
  assert (Hstart : forall n,
             n ∈ findStartNodes (buildDependencyGraph execCtx)
             <-> is_Some (nodes !! n)
                 /\ forall a, is_Some (nodes !! a) -> ~ spec.enabled_edge w a n).
  { intros n. rewrite (start_node_iff execCtx n Hfresh). fold w nodes.
    split; intros [Hn Hno]; (split; [exact Hn|]).
    - intros a Ha He.
      assert (Hin : In a (enabled_sources nodes (spec.edges_of w) n))
        by (apply enabled_sources_In; split; assumption).
      rewrite Hno in Hin. exact Hin.
    - destruct (enabled_sources nodes (spec.edges_of w) n) as [|a l] eqn:Hs;
        [reflexivity|].
      assert (Hin : In a (enabled_sources nodes (spec.edges_of w) n))
        by (rewrite Hs; left; reflexivity).
      apply enabled_sources_In in Hin as [He Ha]. destruct (Hno a Ha He). }
  assert (Hempty : size (findStartNodes (buildDependencyGraph execCtx)) = 0%nat
                   <-> forall n, is_Some (nodes !! n) ->
                         exists a, is_Some (nodes !! a) /\ spec.enabled_edge w a n).
  { rewrite size_empty_iff, elem_of_equiv_empty. split.
    - intros He n Hn.
      destruct (enabled_sources nodes (spec.edges_of w) n) as [|a l] eqn:Hs.
      + exfalso. apply (He n). apply (start_node_iff execCtx n Hfresh). fold w nodes.
        split; assumption.
      + assert (Hin : In a (enabled_sources nodes (spec.edges_of w) n))
          by (rewrite Hs; left; reflexivity).
        apply enabled_sources_In in Hin as [Hedge Ha]. eauto.
    - intros Hall n Hin. apply Hstart in Hin as [Hn Hno].
      destruct (Hall n Hn) as (a & Ha & He). exact (Hno a Ha He). }
  assert (Hnodes : executeWorkflowInternal execCtx
                   = if bool_decide (nodes = ∅) then inl "workflow has no nodes"
                     else if bool_decide
                               (size (findStartNodes (buildDependencyGraph execCtx)) = 0%nat)
                          then inl "no start nodes found in workflow"
                          else inr (buildDependencyGraph execCtx,
                                    findStartNodes (buildDependencyGraph execCtx))).
  { unfold executeWorkflowInternal, nodes, w, spec.nodes_of.
    destruct (Workflow.Nodes (Workflow execCtx)) as [m|].
    - destruct (decide (m = ∅)) as [->|Hne].
      + rewrite map_size_empty. reflexivity.
      + rewrite (bool_decide_eq_false_2 (size m = 0%nat))
          by (intros Hs; apply map_size_empty_iff in Hs; contradiction).
        rewrite (bool_decide_eq_false_2 (m = ∅)) by exact Hne. reflexivity.
    - reflexivity. }
  split; [exact Hstart|]. split; [|split].
  - rewrite Hnodes. case_bool_decide as Hn; [tauto|].
    case_bool_decide; split; try discriminate; intros; contradiction.
  - rewrite Hnodes. case_bool_decide as Hn.
    + split; [discriminate|]. intros [Hne _]. contradiction.
    + case_bool_decide as Hs.
      * split; [|reflexivity]. intros _. split; [exact Hn|]. apply Hempty, Hs.
      * split; [discriminate|]. intros [_ Hall]. apply Hempty in Hall. contradiction.
  - intros Hacyclic Hne.
    rewrite Hnodes. rewrite (bool_decide_eq_false_2 _ Hne).
    assert (Hex : exists n, n ∈ findStartNodes (buildDependencyGraph execCtx)).
    { apply map_choose in Hne as (x & node & Hx).
      assert (Hsn : Acc (fun a b => is_Some (nodes !! a) /\ spec.enabled_edge w a b) x).
      { assert (Hfin : pred_finite
                         (tc (fun b a => is_Some (nodes !! a) /\ spec.enabled_edge w a b) x)).
        { exists (elements (dom nodes)). intros y Hy.
          apply elem_of_elements, elem_of_dom.
          clear -Hy. induction Hy as [? ? [Hy _]|? ? ? _ _ IH]; [exact Hy|exact IH]. }
        change (sn (fun b a => is_Some (nodes !! a) /\ spec.enabled_edge w a b) x).
        apply tc_finite_sn; [|exact Hfin].
        assert (Hflip : forall u v,
                  tc (fun b a => is_Some (nodes !! a) /\ spec.enabled_edge w a b) u v ->
                  tc (spec.enabled_edge w) v u).
        { intros u v Huv. induction Huv as [a b [_ He]|a b c [_ He] _ IH].
          - apply tc_once, He.
          - eapply tc_r; [exact IH|exact He]. }
        intros y Hy. apply (Hacyclic y). apply (Hflip y y Hy). }
      assert (Hx' : is_Some (nodes !! x)) by eauto. clear Hx node.
      induction Hsn as [x _ IH].
      destruct (enabled_sources nodes (spec.edges_of w) x) as [|a l] eqn:Hs.
      - exists x. apply (start_node_iff execCtx x Hfresh). fold w nodes.
        split; assumption.
      - assert (Hin : In a (enabled_sources nodes (spec.edges_of w) x))
          by (rewrite Hs; left; reflexivity).
        apply enabled_sources_In in Hin as [He Ha]. fold nodes in Ha.
        apply (IH a); [split; assumption|exact Ha]. }
    rewrite bool_decide_eq_false_2.
    + eexists. split; [reflexivity|]. split; [reflexivity|exact Hex].
    + intros Hs. apply size_empty_iff in Hs. rewrite elem_of_equiv_empty in Hs.
      destruct Hex as [n Hn]. exact (Hs n Hn).
Qed.

Lemma start_nodes_witness :
  NodeDependencies examples.context_of_ex1 = ∅
  /\ spec.nodes_of (Workflow examples.context_of_ex1) <> ∅
  /\ forall n, is_Some (spec.nodes_of (Workflow examples.context_of_ex1) !! n) ->
       exists a, is_Some (spec.nodes_of (Workflow examples.context_of_ex1) !! a)
                 /\ spec.enabled_edge (Workflow examples.context_of_ex1) a n.
Proof.
  split; [reflexivity|].
  destruct (start_nodes examples.context_of_ex1 eq_refl) as (_ & _ & Hno & _).
  apply Hno. vm_compute. reflexivity.
Defined.

Lemma forallb_completed (completedNodes : gmap string bool) (l : list string) :
  forallb (fun depNodeID => default false (completedNodes !! depNodeID)) l = true
  <-> forall dep, In dep l -> completedNodes !! dep = Some true.
Proof.
  rewrite forallb_forall. split; intros H dep Hin.
  - specialize (H dep Hin). destruct (completedNodes !! dep) as [[|]|]; simpl in H;
      congruence.
  - rewrite (H dep Hin). reflexivity.
Qed.



(** X27. The registration of executions in the engine. [ExecuteWorkflow]
    succeeds exactly when the engine is running and has fewer registered
    executions than its maximum; it then registers under the id of the
    execution a context without variables, states or dependencies that is
    not cancelled, and an engine within its maximum stays within it. A
    refused call changes nothing. [Stop] keeps the executions registered
    and cancels each of them, after which [ExecuteWorkflow] is refused
    until [Start] is called; a second [Start] fails. *)
Theorem engine_registration (e : WorkflowEngine) (workflow : Workflow.t)
    (execution : Execution.t) :
  (fst (ExecuteWorkflow e workflow execution) = None
   <-> status e = EngineStatusRunning
       /\ Z.of_nat (size (executions e)) < maxConcurrency e)
  /\ (fst (ExecuteWorkflow e workflow execution) = None ->
      (exists execCtx,
          executions (snd (ExecuteWorkflow e workflow execution))
            !! Execution.ID execution = Some execCtx
          /\ Workflow execCtx = workflow /\ Execution execCtx = execution
          /\ Variables execCtx = ∅ /\ NodeDependencies execCtx = ∅
          /\ CompletedNodes execCtx = ∅ /\ ctx_done execCtx = false)
      /\ GetActiveExecutions (snd (ExecuteWorkflow e workflow execution))
         = {[ Execution.ID execution ]} ∪ GetActiveExecutions e
      /\ Z.of_nat (size (executions (snd (ExecuteWorkflow e workflow execution))))
         <= maxConcurrency e)
  /\ (fst (ExecuteWorkflow e workflow execution) <> None ->
      snd (ExecuteWorkflow e workflow execution) = e)
  /\ (status e = EngineStatusRunning ->
      fst (Stop e) = None
      /\ GetActiveExecutions (snd (Stop e)) = GetActiveExecutions e
      /\ (forall id execCtx, executions (snd (Stop e)) !! id = Some execCtx ->
            cancel execCtx = true -> ctx_done execCtx = true)
      /\ ExecuteWorkflow (snd (Stop e)) workflow execution
         = (Some "engine is not running", snd (Stop e))
      /\ fst (Start (snd (Stop e))) = None
      /\ fst (Start e) = Some "engine is already running").
Proof.
  split; [|split; [|split]].
  - unfold ExecuteWorkflow. destruct (status e); simpl;
      try (split; [discriminate|intros [? _]; discriminate]).
    destruct (Z.leb_spec (maxConcurrency e) (Z.of_nat (size (executions e)))); simpl.
    + split; [discriminate|]. intros [_ ?]. lia.
    + split; [|reflexivity]. intros _. split; [reflexivity|lia].
  - unfold ExecuteWorkflow. destruct (status e); simpl; try discriminate.
    destruct (Z.leb_spec (maxConcurrency e) (Z.of_nat (size (executions e)))); simpl;
      [discriminate|].
    intros _. split; [|split].
    + rewrite lookup_insert_eq. eexists. split; [reflexivity|]. repeat split.
    + unfold GetActiveExecutions. simpl. apply leibniz_equiv, dom_insert.
    + destruct (executions e !! Execution.ID execution) as [old|] eqn:Hold.
      * rewrite map_size_insert_Some by eauto. lia.
      * rewrite map_size_insert_None by exact Hold. lia.
  - unfold ExecuteWorkflow. destruct (status e); simpl; try reflexivity.
    destruct (_ <=? _); simpl; [reflexivity|]. intros Hc. congruence.
  - intros Hrun. unfold Stop, Start. rewrite Hrun. simpl.
    split; [reflexivity|]. split; [|split; [|split; [|split]]]; try reflexivity.
    + unfold GetActiveExecutions. simpl. apply leibniz_equiv, dom_fmap.
    + intros id execCtx Hl Hc. rewrite lookup_fmap in Hl.
      destruct (executions e !! id) as [c|]; [|discriminate].
      simpl in Hl. injection Hl as <-.
      destruct (cancel c) eqn:Hcc; [reflexivity|]. congruence.
Qed.

End DependencyGraph.

(** ** The variables that enter and leave a node *)

Section NodeVariables.
Import golang models workflow_engine engine_variables.

Lemma output_key_inj (nodeID : string) :
  Inj (=) (=) (fun key : string => nodeID +:+ "_" +:+ key).
Proof.
  intros k1 k2 H. apply (inj (String.app nodeID)) in H. injection H as H. exact H.
Qed.

(** X28. The variables around a node. Input: [prepareNodeInput] passes
    every variable of the execution on under its own name unless a mapping
    with a bound source replaces it; a mapping copies its source and does
    not remove it, and a mapping whose source is not bound changes
    nothing; a default is used only for a key that is bound in neither
    way. Output: [processNodeOutput] binds each output field [key] of the
    node as ["<node>_<key>"], except that ["<node>_output"] always holds
    the output as a whole, also when there is a field named [output];
    every variable whose name is not of that form keeps its value, and a
    nil output changes nothing. *)
Theorem node_variables (execCtx : ExecutionContext) (node : Node.t) (nodeID : string)
    (data : gmap string Value) :
  (forall key,
      prepareNodeInput execCtx node !! key
      = match input_config node with
        | None => Variables execCtx !! key
        | Some inputConfig =>
            match mapped execCtx inputConfig key with
            | Some value => Some value
            | None =>
                match Variables execCtx !! key with
                | Some value => Some value
                | None => default_of inputConfig key
                end
            end
        end)
  /\ (forall key value,
        Variables execCtx !! key = Some value ->
        is_Some (prepareNodeInput execCtx node !! key))
  /\ processNodeOutput execCtx nodeID None = execCtx
  /\ Variables (processNodeOutput execCtx nodeID (Some data)) !! (nodeID +:+ "_output")
     = Some (VOther "map[string]interface {}")
  /\ (forall key value,
        data !! key = Some value -> key <> "output" ->
        Variables (processNodeOutput execCtx nodeID (Some data))
          !! (nodeID +:+ "_" +:+ key) = Some value)
  /\ (forall name,
        (forall key, name <> nodeID +:+ "_" +:+ key) ->
        Variables (processNodeOutput execCtx nodeID (Some data)) !! name
        = Variables execCtx !! name).
Proof.
  assert (Hin : forall key,
      prepareNodeInput execCtx node !! key
      = match input_config node with
        | None => Variables execCtx !! key
        | Some inputConfig =>
            match mapped execCtx inputConfig key with
            | Some value => Some value
            | None =>
                match Variables execCtx !! key with
                | Some value => Some value
                | None => default_of inputConfig key
                end
            end
        end).
  { intros key. unfold prepareNodeInput, input_config, mapped, default_of.
    destruct (Node.Config node) as [config|]; simpl; [|reflexivity].
    destruct (NodeConfig.InputConfig config) as [inputConfig|]; simpl; [|reflexivity].
    destruct (InputConfig.Mapping inputConfig) as [mapping|],
             (InputConfig.Defaults inputConfig) as [defaults|]; simpl;
      rewrite ?lookup_union, ?lookup_omap;
      try (destruct (mapping !! key) as [sourceKey|]; simpl;
           try destruct (Variables execCtx !! sourceKey); simpl);
      destruct (Variables execCtx !! key); simpl;
      try destruct (defaults !! key); reflexivity. }
  split; [exact Hin|]. split; [|split; [reflexivity|]].
  - intros key value Hv. rewrite Hin, Hv.
    destruct (input_config node) as [inputConfig|]; [|eauto].
    destruct (mapped execCtx inputConfig key); eauto.
  - pose proof (output_key_inj nodeID) as Hinj.
    unfold processNodeOutput. simpl Variables. split; [|split].
    + apply lookup_insert_eq.
    + intros key value Hd Hne.
      rewrite lookup_insert_ne.
      * rewrite lookup_union.
        rewrite (lookup_kmap (fun key0 : string => nodeID +:+ "_" +:+ key0) data key), Hd.
        destruct (Variables execCtx !! _); reflexivity.
      * intros Heq. apply (inj (String.app nodeID)) in Heq. injection Heq as Heq.
        symmetry in Heq. contradiction.
    + intros name Hname.
      rewrite lookup_insert_ne
        by (intros Heq; apply (Hname "output"); symmetry; exact Heq).
      apply lookup_union_r.
      apply lookup_kmap_None; [exact Hinj|]. intros key Heq. destruct (Hname key Heq).
Qed.

End NodeVariables.

(** ** The execution service: start, completion and failure *)

Section ExecutionService.
Import golang models state_manager execution_methods execution_service_life_cycle.

Lemma GetExecution_stored (db : gmap string Execution.t) (id : string) (ex : Execution.t) :
  db !! id = Some ex -> Execution.Status ex <> "" ->
  execution_service.GetExecution db id = (Some ex, None).
Proof.
  intros Hl Hs. unfold execution_service.GetExecution. rewrite Hl.
  rewrite bool_decide_eq_false_2 by exact Hs. reflexivity.
Qed.

Lemma Validate_update (ex : Execution.t) (status : ExecutionStatus)
    (startedAt completedAt : option Z) (metrics : option ExecutionMetrics.t)
    (errorMsg errorCode : string) :
  Execution.Validate ex = None ->
  ExecutionStatus_IsValid status = true ->
  Execution.Validate (update ex status startedAt completedAt metrics errorMsg errorCode)
  = None.
Proof.
  unfold Execution.Validate. simpl. intros Hv Hst.
  destruct (bool_decide (Execution.WorkflowID ex = "")); [discriminate|].
  destruct (bool_decide (Execution.WorkflowVer ex = "")); [discriminate|].
  rewrite Hst. simpl.
  destruct (negb (ExecutionStatus_IsValid (Execution.Status ex))); [discriminate|].
  exact Hv.
Qed.

Lemma UpdateExecution_valid (now : Z) (db : gmap string Execution.t) (ex : Execution.t) :
  Execution.Validate ex = None ->
  execution_service.UpdateExecution now db ex
  = (None, <[Execution.ID ex := Execution.with_UpdatedAt ex now]> db).
Proof.
  intros Hv. unfold execution_service.UpdateExecution. rewrite Hv. reflexivity.
Qed.

Lemma ExecuteWorkflow_accepts (e : workflow_engine.WorkflowEngine) (w : Workflow.t)
    (ex : Execution.t) :
  (workflow_engine.status e = workflow_engine.EngineStatusRunning
   /\ Z.of_nat (size (workflow_engine.executions e)) < workflow_engine.maxConcurrency e)
  \/ (exists err, workflow_engine.ExecuteWorkflow e w ex = (Some err, e)
                  /\ ~ (workflow_engine.status e = workflow_engine.EngineStatusRunning
                        /\ Z.of_nat (size (workflow_engine.executions e))
                           < workflow_engine.maxConcurrency e)).
Proof.
  unfold workflow_engine.ExecuteWorkflow.
  destruct (workflow_engine.status e);
    try (right; eexists; split; [reflexivity|intros [? _]; discriminate]).
  destruct (Z.leb_spec (workflow_engine.maxConcurrency e)
              (Z.of_nat (size (workflow_engine.executions e)))).
  - right. eexists. split; [reflexivity|]. intros [_ ?]. lia.
  - left. split; [reflexivity|lia].
Qed.

Lemma ExecuteWorkflow_registers (e : workflow_engine.WorkflowEngine) (w : Workflow.t)
    (ex : Execution.t) :
  workflow_engine.status e = workflow_engine.EngineStatusRunning ->
  Z.of_nat (size (workflow_engine.executions e)) < workflow_engine.maxConcurrency e ->
  exists e', workflow_engine.ExecuteWorkflow e w ex = (None, e')
             /\ is_Some (workflow_engine.executions e' !! Execution.ID ex).
Proof.
  intros Hr Hlt. unfold workflow_engine.ExecuteWorkflow. rewrite Hr.
  destruct (Z.leb_spec (workflow_engine.maxConcurrency e)
              (Z.of_nat (size (workflow_engine.executions e)))); [lia|].
  eexists. split; [reflexivity|]. simpl. rewrite lookup_insert_eq. eauto.
Qed.

(** X29. [StartExecution] on a stored pending execution that passes the
    validation. The execution is saved as running, with the start time and
    metrics, before the engine is asked; nothing is recorded in the State
    Manager. The call then succeeds exactly when there is no engine, or
    the workflow is stored and the engine is running below its maximum, in
    which case the engine has the execution registered. When the engine
    refuses, or the workflow is missing, the call returns an error but the
    execution stays stored as running: the start is not undone, and a
    second [StartExecution] fails with "execution is not in pending
    status". *)
Theorem start_execution (now : Z) (s : Service) (id : string) (ex : Execution.t) :
  execution_service.db (state s) !! id = Some ex ->
  Execution.ID ex = id ->
  Execution.Status ex = ExecutionStatusPending ->
  Execution.Validate ex = None ->
  (exists ex',
      execution_service.db (state (snd (StartExecution now s id))) !! id = Some ex'
      /\ Execution.Status ex' = ExecutionStatusRunning
      /\ Execution.StartedAt ex' = Some now
      /\ Execution.UpdatedAt ex' = now
      /\ Execution.Metrics ex' <> None)
  /\ execution_service.sm (state (snd (StartExecution now s id)))
     = execution_service.sm (state s)
  /\ (fst (StartExecution now s id) = None
      <-> match execution_service.engine (state s) with
          | None => True
          | Some e =>
              is_Some (workflows s !! Execution.WorkflowID ex)
              /\ workflow_engine.status e = workflow_engine.EngineStatusRunning
              /\ Z.of_nat (size (workflow_engine.executions e))
                 < workflow_engine.maxConcurrency e
          end)
  /\ (fst (StartExecution now s id) = None ->
      forall e, execution_service.engine (state s) = Some e ->
        exists e', execution_service.engine (state (snd (StartExecution now s id)))
                   = Some e'
                   /\ is_Some (workflow_engine.executions e' !! id))
  /\ (forall now',
        StartExecution now' (snd (StartExecution now s id)) id
        = (Some "failed to start execution: execution is not in pending status",
           snd (StartExecution now s id))).
Proof.
  intros Hl Hid Hst Hv.
  assert (Hne : Execution.Status ex <> "") by (rewrite Hst; discriminate).
  set (ex1 := update ex ExecutionStatusRunning (Some now) (Execution.CompletedAt ex)
                (match Execution.Metrics ex with
                 | Some m => Some m
                 | None => Some zero_metrics
                 end) (Execution.ErrorMsg ex) (Execution.ErrorCode ex)).
  set (ex2 := Execution.with_UpdatedAt ex1 now).
  set (db1 := <[id := ex2]> (execution_service.db (state s))).
  assert (Hstart : Start now ex = (None, ex1)).
  { unfold Start. rewrite Hst. reflexivity. }
  assert (Hv1 : Execution.Validate ex1 = None)
    by (apply Validate_update; [exact Hv|reflexivity]).
  assert (Hup : execution_service.UpdateExecution now (execution_service.db (state s)) ex1
                = (None, db1)).
  { rewrite (UpdateExecution_valid now _ ex1 Hv1). unfold db1, ex2.
    replace (Execution.ID ex1) with id by (symmetry; exact Hid). reflexivity. }
  assert (Hcases :
    (exists err, StartExecution now s id = (Some err, with_db s db1)
                 /\ ~ match execution_service.engine (state s) with
                      | None => True
                      | Some e =>
                          is_Some (workflows s !! Execution.WorkflowID ex)
                          /\ workflow_engine.status e = workflow_engine.EngineStatusRunning
                          /\ Z.of_nat (size (workflow_engine.executions e))
                             < workflow_engine.maxConcurrency e
                      end)
    \/ (exists engine',
          StartExecution now s id
          = (None, {| state := {| execution_service.sm := execution_service.sm (state s);
                                  execution_service.engine := engine';
                                  execution_service.db := db1 |};
                      workflows := workflows s |})
          /\ match execution_service.engine (state s) with
             | None => engine' = None
             | Some e =>
                 (exists e', engine' = Some e'
                             /\ is_Some (workflow_engine.executions e' !! id))
                 /\ is_Some (workflows s !! Execution.WorkflowID ex)
                 /\ workflow_engine.status e = workflow_engine.EngineStatusRunning
                 /\ Z.of_nat (size (workflow_engine.executions e))
                    < workflow_engine.maxConcurrency e
             end)).
  { unfold StartExecution.
    rewrite (GetExecution_stored _ id ex Hl Hne), Hstart, Hup. cbv zeta.
    change (execution_service.engine (state (with_db s db1)))
      with (execution_service.engine (state s)).
    change (workflows (with_db s db1)) with (workflows s).
    change (Execution.WorkflowID (Execution.with_UpdatedAt ex1 now))
      with (Execution.WorkflowID ex).
    destruct (execution_service.engine (state s)) as [e|] eqn:He.
    - unfold workflow_service.GetWorkflow.
      destruct (workflows s !! Execution.WorkflowID ex) as [w|] eqn:Hw.
      + set (w' := if bool_decide (Workflow.Status w = "")
                   then Workflow.with_Status w WorkflowStatusInactive (Workflow.UpdatedAt w)
                   else w).
        assert (Hg : (if bool_decide (Workflow.Status w = "")
                      then (Some (Workflow.with_Status w WorkflowStatusInactive
                                    (Workflow.UpdatedAt w)), None)
                      else (Some w, None)) = (Some w', @None error)).
        { unfold w'. destruct (bool_decide (Workflow.Status w = "")); reflexivity. }
        rewrite Hg.
        destruct (ExecuteWorkflow_accepts e w' (Execution.with_UpdatedAt ex1 now))
          as [[Hr Hlt]|(err & Hrefused & Hnot)].
        * destruct (ExecuteWorkflow_registers e w' (Execution.with_UpdatedAt ex1 now)
                      Hr Hlt) as (e' & -> & Hreg).
          right. exists (Some e'). split; [reflexivity|].
          split; [|split; [eauto|split; assumption]].
          exists e'. split; [reflexivity|].
          change (Execution.ID (Execution.with_UpdatedAt ex1 now))
            with (Execution.ID ex) in Hreg.
          rewrite Hid in Hreg. exact Hreg.
        * rewrite Hrefused. left. eexists. split; [reflexivity|].
          intros (_ & Hr & Hlt). apply Hnot. split; assumption.
      + left. eexists. split; [reflexivity|]. intros ([? ?] & _). discriminate.
    - right. exists None. split; [|reflexivity].
      unfold with_db. rewrite He. reflexivity. }
  assert (Hdb : execution_service.db (state (snd (StartExecution now s id))) = db1
                /\ execution_service.sm (state (snd (StartExecution now s id)))
                   = execution_service.sm (state s)).
  { destruct Hcases as [(err & -> & _)|(engine' & -> & _)]; split; reflexivity. }
  destruct Hdb as [Hdb Hsm].
  split; [|split; [exact Hsm|split; [|split]]].
  - rewrite Hdb. unfold db1. rewrite lookup_insert_eq. exists ex2.
    split; [reflexivity|]. repeat split.
    simpl. destruct (Execution.Metrics ex); discriminate.
  - destruct Hcases as [(err & -> & Hnot)|(engine' & -> & Hok)]; simpl.
    + split; [discriminate|]. intros Hc. destruct (Hnot Hc).
    + split; [|reflexivity]. intros _.
      destruct (execution_service.engine (state s)); [|exact I].
      destruct Hok as (_ & H1 & H2 & H3). repeat split; assumption.
  - destruct Hcases as [(err & -> & Hnot)|(engine' & -> & Hok)]; simpl; [discriminate|].
    intros _ e He. rewrite He in Hok. destruct Hok as ((e' & -> & Hreg) & _).
    exists e'. split; [reflexivity|exact Hreg].
  - intros now'. unfold StartExecution at 1.
    assert (Hl2 : execution_service.db (state (snd (StartExecution now s id))) !! id
                  = Some ex2)
      by (rewrite Hdb; apply lookup_insert_eq).
    rewrite (GetExecution_stored _ id ex2 Hl2) by discriminate.
    reflexivity.
Qed.

Lemma start_execution_witness :
  exists ex',
    execution_service.db
      (state (snd (StartExecution 50 service_examples.service_with_ex1 "ex1"))) !! "ex1"
    = Some ex'
    /\ Execution.Status ex' = ExecutionStatusRunning
    /\ fst (StartExecution 50 service_examples.service_with_ex1 "ex1")
       = Some "failed to start workflow execution: engine is not running".
Proof.
  assert (Hl : execution_service.db (state service_examples.service_with_ex1) !! "ex1"
               = Some (examples.plain_execution "ex1" "pending" 0 3)) by reflexivity.
  destruct (start_execution 50 service_examples.service_with_ex1 "ex1"
              (examples.plain_execution "ex1" "pending" 0 3) Hl eq_refl eq_refl eq_refl)
    as ((ex' & Hex & Hrun & _) & _).
  exists ex'. split; [exact Hex|]. split; [exact Hrun|]. reflexivity.
Defined.

Lemma UpdateStatistics_counts (now : Z) (w : Workflow.t) (d : Z) (success : bool) :
  let st := match Workflow.Statistics w with
            | Some st => st
            | None => WorkflowStatistics.zero
            end in
  0 <= WorkflowStatistics.TotalExecutions st ->
  in_int64 (WorkflowStatistics.TotalExecutions st + 1) ->
  in_int64 (WorkflowStatistics.SuccessfulRuns st + 1) ->
  in_int64 (WorkflowStatistics.FailedRuns st + 1) ->
  exists w' st',
    Workflow.UpdateStatistics now w d success = Some w'
    /\ Workflow.ID w' = Workflow.ID w
    /\ Workflow.Statistics w' = Some st'
    /\ WorkflowStatistics.TotalExecutions st' = WorkflowStatistics.TotalExecutions st + 1
    /\ WorkflowStatistics.SuccessfulRuns st'
       = WorkflowStatistics.SuccessfulRuns st + (if success then 1 else 0)
    /\ WorkflowStatistics.FailedRuns st'
       = WorkflowStatistics.FailedRuns st + (if success then 0 else 1).
Proof.
  intros st Hpos Hn Hs Hf.
  unfold Workflow.UpdateStatistics. fold st.
  rewrite (wrap64_in_range _ Hn).
  assert (Hroll : exists average,
             Workflow.rolled_average (WorkflowStatistics.AverageExecTime st)
               (WorkflowStatistics.TotalExecutions st + 1) d = Some average).
  { unfold Workflow.rolled_average.
    destruct (_ =? 1); [eauto|].
    destruct (Z.eqb_spec (WorkflowStatistics.TotalExecutions st + 1) 0); [lia|eauto]. }
  destruct Hroll as (average & ->).
  do 2 eexists. split; [reflexivity|]. split; [reflexivity|]. split; [reflexivity|].
  simpl. split; [reflexivity|].
  destruct success; rewrite wrap64_in_range by assumption; split; lia.
Qed.

(** X30. The end of an execution through the service. For a stored running
    execution with a start time and metrics ([StartExecution] leaves it
    so) that passes the validation, whose workflow is stored with
    counters within int64, [CompleteExecution] and [FailExecution] succeed
    without panic on a State Manager with the initial tables. The stored
    execution is then completed, or failed with the message and code
    given, with the completion time and the execution time [now - start]
    (saturated); exactly one transition, from running, is appended to the
    history; and the statistics of the workflow count one more execution,
    as a successful run for a completion and as a failed run for a
    failure. After that the execution can be neither completed nor failed
    again: both calls are rejected as invalid transitions and change
    nothing. *)
Theorem finish_execution (now t0 : Z) (s : Service) (id : string) (ex : Execution.t)
    (m : ExecutionMetrics.t) (w : Workflow.t) (success : bool)
    (errorMsg errorCode : string) :
  executionTransitions (execution_service.sm (state s)) = initial_executionTransitions ->
  execution_service.db (state s) !! id = Some ex ->
  Execution.ID ex = id ->
  Execution.Status ex = ExecutionStatusRunning ->
  Execution.StartedAt ex = Some t0 ->
  Execution.Metrics ex = Some m ->
  Execution.Validate ex = None ->
  workflows s !! Execution.WorkflowID ex = Some w ->
  Workflow.ID w = Execution.WorkflowID ex ->
  0 <= WorkflowStatistics.TotalExecutions
         (statistics_of (workflows s) (Execution.WorkflowID ex)) ->
  in_int64 (WorkflowStatistics.TotalExecutions
              (statistics_of (workflows s) (Execution.WorkflowID ex)) + 1) ->
  in_int64 (WorkflowStatistics.SuccessfulRuns
              (statistics_of (workflows s) (Execution.WorkflowID ex)) + 1) ->
  in_int64 (WorkflowStatistics.FailedRuns
              (statistics_of (workflows s) (Execution.WorkflowID ex)) + 1) ->
  exists s' ex' m',
    (if success then CompleteExecution now s id
     else FailExecution now s id errorMsg errorCode) = Some (None, s')
    /\ execution_service.db (state s') !! id = Some ex'
    /\ Execution.Status ex'
       = (if success then ExecutionStatusCompleted else ExecutionStatusFailed)
    /\ Execution.CompletedAt ex' = Some now
    /\ Execution.Metrics ex' = Some m'
    /\ ExecutionMetrics.ExecutionTime m' = Sub now t0
    /\ (success = false ->
        Execution.ErrorMsg ex' = errorMsg /\ Execution.ErrorCode ex' = errorCode)
    /\ transitionHistory (execution_service.sm (state s'))
       = (transitionHistory (execution_service.sm (state s))
          ++ [{| EntityType := "execution"; EntityID := id;
                 FromStatus := ExecutionStatusRunning;
                 ToStatus := if success then ExecutionStatusCompleted
                             else ExecutionStatusFailed;
                 Reason := if success then "execution completed"
                           else "execution failed: " +:+ errorMsg;
                 Operator := "system"; Timestamp := now |}])%list
    /\ WorkflowStatistics.TotalExecutions
         (statistics_of (workflows s') (Execution.WorkflowID ex))
       = WorkflowStatistics.TotalExecutions
           (statistics_of (workflows s) (Execution.WorkflowID ex)) + 1
    /\ WorkflowStatistics.SuccessfulRuns
         (statistics_of (workflows s') (Execution.WorkflowID ex))
       = WorkflowStatistics.SuccessfulRuns
           (statistics_of (workflows s) (Execution.WorkflowID ex))
         + (if success then 1 else 0)
    /\ WorkflowStatistics.FailedRuns
         (statistics_of (workflows s') (Execution.WorkflowID ex))
       = WorkflowStatistics.FailedRuns
           (statistics_of (workflows s) (Execution.WorkflowID ex))
         + (if success then 0 else 1)
    /\ (forall now',
          (exists err, CompleteExecution now' s' id
                       = Some (Some (wrap "invalid state transition" err), s'))
          /\ (exists err, FailExecution now' s' id errorMsg errorCode
                          = Some (Some (wrap "invalid state transition" err), s'))).
Proof.
  intros Htab Hl Hid Hst Hsa Hm Hv Hw Hwid Hpos Hn Hs Hf.
  assert (Hne : Execution.Status ex <> "") by (rewrite Hst; discriminate).
  set (target := if success then ExecutionStatusCompleted else ExecutionStatusFailed).
  set (ex1 := update ex target (Some t0) (Some now)
                (Some (with_ExecutionTime m (Sub now t0)))
                (if success then Execution.ErrorMsg ex else errorMsg)
                (if success then Execution.ErrorCode ex else errorCode)).
  assert (Hmethod : (if success then Complete now ex else Fail now ex errorMsg errorCode)
                    = Some (None, ex1)).
  { unfold ex1, target, Complete, Fail, finish. rewrite Hst, Hsa, Hm.
    destruct success; reflexivity. }
  assert (Hvalid : ValidateExecutionTransition (execution_service.sm (state s))
                     (Execution.Status ex) target = None).
  { unfold ValidateExecutionTransition. rewrite Htab, Hst.
    unfold target. destruct success; reflexivity. }
  assert (Hv1 : Execution.Validate ex1 = None).
  { apply Validate_update; [exact Hv|]. unfold target. destruct success; reflexivity. }
  assert (Hstat_eq : statistics_of (workflows s) (Execution.WorkflowID ex)
                     = match Workflow.Statistics w with
                       | Some st => st
                       | None => WorkflowStatistics.zero
                       end).
  { unfold statistics_of. rewrite Hw. reflexivity. }
  set (w0 := if bool_decide (Workflow.Status w = "")
             then Workflow.with_Status w WorkflowStatusInactive (Workflow.UpdatedAt w)
             else w).
  assert (Hw0 : workflow_service.GetWorkflow (workflows s) (Execution.WorkflowID ex)
                = (Some w0, None)
                /\ Workflow.Statistics w0 = Workflow.Statistics w
                /\ Workflow.ID w0 = Workflow.ID w).
  { unfold workflow_service.GetWorkflow, w0. rewrite Hw.
    destruct (bool_decide (Workflow.Status w = "")); repeat split. }
  destruct Hw0 as (Hget & Hstat0 & Hid0).
  rewrite Hstat_eq in Hpos, Hn, Hs, Hf. rewrite <- Hstat0 in Hpos, Hn, Hs, Hf.
  destruct (UpdateStatistics_counts now w0 (GetDuration now ex1) (negb (negb success))
              Hpos Hn Hs Hf)
    as (w' & st' & Hupd & Hidw & Hst' & Htot & Hsucc & Hfail).
  rewrite negb_involutive in Hupd, Hsucc, Hfail.
  rewrite Hstat0 in Htot, Hsucc, Hfail. rewrite <- Hstat_eq in Htot, Hsucc, Hfail.
  set (sm1 := {| workflowTransitions := workflowTransitions (execution_service.sm (state s));
                 executionTransitions := executionTransitions (execution_service.sm (state s));
                 transitionHistory :=
                   (transitionHistory (execution_service.sm (state s))
                    ++ [{| EntityType := "execution"; EntityID := id;
                           FromStatus := ExecutionStatusRunning; ToStatus := target;
                           Reason := if success then "execution completed"
                                     else "execution failed: " +:+ errorMsg;
                           Operator := "system"; Timestamp := now |}])%list |}).
  set (s1 := {| state :=
                  {| execution_service.sm := sm1;
                     execution_service.engine := execution_service.engine (state s);
                     execution_service.db :=
                       <[id := Execution.with_UpdatedAt ex1 now]>
                         (execution_service.db (state s)) |};
                workflows := <[Execution.WorkflowID ex := w']> (workflows s) |}).
  assert (Hfinished :
    finished now s id (Execution.Status ex) target ex1
      (if success then "execution completed" else "execution failed: " +:+ errorMsg)
      success = Some (None, s1)).
  { unfold finished, RecordExecutionTransition. rewrite Hvalid.
    change (Execution.StartedAt ex1) with (Some t0). cbv iota beta.
    change (Execution.WorkflowID ex1) with (Execution.WorkflowID ex).
    unfold UpdateWorkflowStatistics. rewrite Hget, Hupd.
    rewrite (UpdateExecution_valid now _ ex1 Hv1).
    change (Execution.ID ex1) with (Execution.ID ex).
    rewrite Hid, Hidw, Hid0, Hwid, Hst. reflexivity. }
  assert (Hcall : (if success then CompleteExecution now s id
                   else FailExecution now s id errorMsg errorCode) = Some (None, s1)).
  { unfold target in *. destruct success; unfold CompleteExecution, FailExecution;
      rewrite (GetExecution_stored _ id ex Hl Hne), Hvalid, Hmethod; cbv zeta;
      exact Hfinished. }
  exists s1, (Execution.with_UpdatedAt ex1 now), (with_ExecutionTime m (Sub now t0)).
  split; [exact Hcall|].
  split; [apply lookup_insert_eq|].
  split; [reflexivity|]. split; [reflexivity|]. split; [reflexivity|].
  split; [reflexivity|].
  split; [intros ->; split; reflexivity|].
  split; [reflexivity|].
  assert (Hstat1 : statistics_of (workflows s1) (Execution.WorkflowID ex) = st').
  { unfold statistics_of, s1. simpl. rewrite lookup_insert_eq, Hst'. reflexivity. }
  rewrite Hstat1.
  split; [exact Htot|]. split; [exact Hsucc|]. split; [exact Hfail|].
  intros now'.
  assert (Hl1 : execution_service.db (state s1) !! id
                = Some (Execution.with_UpdatedAt ex1 now)) by apply lookup_insert_eq.
  assert (Hne1 : Execution.Status (Execution.with_UpdatedAt ex1 now) <> "")
    by (simpl; unfold target; destruct success; discriminate).
  assert (Hno : forall to,
             to = ExecutionStatusCompleted \/ to = ExecutionStatusFailed ->
             exists err,
               ValidateExecutionTransition (execution_service.sm (state s1))
                 (Execution.Status (Execution.with_UpdatedAt ex1 now)) to = Some err).
  { intros to Hto. unfold ValidateExecutionTransition.
    change (executionTransitions (execution_service.sm (state s1)))
      with (executionTransitions (execution_service.sm (state s))).
    rewrite Htab.
    change (Execution.Status (Execution.with_UpdatedAt ex1 now)) with target.
    unfold target. destruct success, Hto as [-> | ->]; eexists; reflexivity. }
  split.
  - destruct (Hno ExecutionStatusCompleted (or_introl eq_refl)) as (err & Herr).
    exists err. unfold CompleteExecution.
    rewrite (GetExecution_stored _ id _ Hl1 Hne1), Herr. reflexivity.
  - destruct (Hno ExecutionStatusFailed (or_intror eq_refl)) as (err & Herr).
    exists err. unfold FailExecution.
    rewrite (GetExecution_stored _ id _ Hl1 Hne1), Herr. reflexivity.
Qed.

Lemma finish_execution_witness :
  exists s' ex',
    CompleteExecution 30 service_examples.service_with_running_ex1 "ex1" = Some (None, s')
    /\ execution_service.db (state s') !! "ex1" = Some ex'
    /\ Execution.Status ex' = ExecutionStatusCompleted
    /\ WorkflowStatistics.TotalExecutions (statistics_of (workflows s') "wf1") = 1.
Proof.
  assert (Hl : execution_service.db (state service_examples.service_with_running_ex1)
                 !! "ex1" = Some service_examples.running_ex1) by reflexivity.
  assert (Hw : workflows service_examples.service_with_running_ex1
                 !! Execution.WorkflowID service_examples.running_ex1
               = Some examples.cyclic_workflow) by reflexivity.
  assert (Hpos : 0 <= WorkflowStatistics.TotalExecutions
                        (statistics_of (workflows service_examples.service_with_running_ex1)
                           (Execution.WorkflowID service_examples.running_ex1)))
    by (vm_compute; discriminate).
  assert (Hn : in_int64 (WorkflowStatistics.TotalExecutions
                           (statistics_of
                              (workflows service_examples.service_with_running_ex1)
                              (Execution.WorkflowID service_examples.running_ex1)) + 1))
    by (vm_compute; split; discriminate).
  assert (Hs : in_int64 (WorkflowStatistics.SuccessfulRuns
                           (statistics_of
                              (workflows service_examples.service_with_running_ex1)
                              (Execution.WorkflowID service_examples.running_ex1)) + 1))
    by (vm_compute; split; discriminate).
  assert (Hf : in_int64 (WorkflowStatistics.FailedRuns
                           (statistics_of
                              (workflows service_examples.service_with_running_ex1)
                              (Execution.WorkflowID service_examples.running_ex1)) + 1))
    by (vm_compute; split; discriminate).
  destruct (finish_execution 30 10 service_examples.service_with_running_ex1 "ex1"
              service_examples.running_ex1 zero_metrics examples.cyclic_workflow true
              "" "" eq_refl Hl eq_refl eq_refl eq_refl eq_refl eq_refl Hw eq_refl
              Hpos Hn Hs Hf)
    as (s' & ex' & m' & Hcall & Hex & Hst & _ & _ & _ & _ & _ & Htot & _).
  exists s', ex'. split; [exact Hcall|]. split; [exact Hex|]. split; [exact Hst|].
  exact Htot.
Defined.

End ExecutionService.
